(** * Aggregation engine of the Amazon orders analyzer

    A shallow embedding of the seven aggregators of
    [AmazonOrdersAnalyzer] (src/amazon_analyzer_mela.py, lines 77-396).

    Conventions of the embedding.
    - A row of [self.orders] is a [csv.DictReader] dictionary: a finite map
      from column names to text, read only through [order.get(key, default)].
      Text is a string of bytes; [strip], [lower] and [<] act on it as
      Python does on ASCII text. The filler [None] that the reader puts in a
      row shorter than the header is not text and is not modelled.
    - [defaultdict] tables whose iteration order is never observed are
      [gmap]s; the table of products, whose insertion order decides the
      ranking of ties, is an association list in insertion order.
    - Money is accumulated in exact rational arithmetic ([Q]) in place of
      binary floating point, so [inf] and [nan] have no counterpart;
      counters are [nat]; quantities, which [int()] may read as negative,
      are [Z].
    - [float()], [int()] and [datetime.fromisoformat()] are parameters of the
      aggregators: [None] stands for the [ValueError] the source catches.
      Module [Literal] gives executable instances used to run the
      aggregators on concrete rows.
    - A [try] block keeps every assignment made before the statement that
      raises; it is modelled by the state-and-error monad [Try]. *)

From Stdlib Require Import QArith Ascii String Sorted OrderedTypeEx.
From stdpp Require Import gmap strings list fin_maps.

Local Open Scope string_scope.

(** ** Text helpers: [str.strip], [str.lower], [str.replace] *)

Module Text.

(** ASCII characters for which [str.isspace] holds (tab .. carriage return,
    the four separators 0x1c .. 0x1f, and the blank). *)
Definition isspace (c : ascii) : bool :=
  let n := nat_of_ascii c in
  ((9 <=? n)%nat && (n <=? 13)%nat) || ((28 <=? n)%nat && (n <=? 32)%nat).

Fixpoint lstrip (s : string) : string :=
  match s with
  | String c s' => if isspace c then lstrip s' else s
  | EmptyString => EmptyString
  end.

Fixpoint rstrip (s : string) : string :=
  match s with
  | String c s' =>
      match rstrip s' with
      | EmptyString => if isspace c then EmptyString else String c EmptyString
      | r => String c r
      end
  | EmptyString => EmptyString
  end.

Definition strip (s : string) : string := rstrip (lstrip s).

Definition lower_char (c : ascii) : ascii :=
  let n := nat_of_ascii c in
  if ((65 <=? n)%nat && (n <=? 90)%nat)%bool then ascii_of_nat (n + 32) else c.

Fixpoint lower (s : string) : string :=
  match s with
  | String c s' => String (lower_char c) (lower s')
  | EmptyString => EmptyString
  end.

(** [s.replace('Z', '+00:00')] *)
Fixpoint replace_Z (s : string) : string :=
  match s with
  | String c s' =>
      if Ascii.eqb c "Z" then "+00:00" ++ replace_Z s' else String c (replace_Z s')
  | EmptyString => EmptyString
  end.

(** Truth value of a [str]: the empty string is false. *)
Definition truthy (s : string) : bool :=
  match s with EmptyString => false | _ => true end.

End Text.

(** ** Rows *)

Abbreviation order := (gmap string string).

(** [order.get(key, default)] *)
Definition get (o : order) (key default : string) : string :=
  match o !! key with Some v => v | None => default end.

(** ** The [try] monad: a state that survives the exception *)

Definition Try (S A : Type) : Type := S -> option A * S.

#[global] Instance Try_ret {S} : MRet (Try S) :=
  fun A (a : A) s => (Some a, s).

#[global] Instance Try_bind {S} : MBind (Try S) :=
  fun A B (k : A -> Try S B) (m : Try S A) s =>
    match m s with
    | (Some a, s') => k a s'
    | (None, s') => (None, s')
    end.

(** An expression that may raise: [None] raises, the state is untouched. *)
Definition eval {S A} (r : option A) : Try S A := fun s => (r, s).

(** An assignment to the accumulator. *)
Definition modify {S} (f : S -> S) : Try S unit := fun s => (Some tt, f s).

(** [try: body  except (ValueError, TypeError): pass] (or [continue] when
    nothing follows in the loop body): whatever [body] assigned stays. *)
Definition try_except {S A} (body : Try S A) : S -> S := fun s => snd (body s).

(** A [defaultdict(int)] counter: [d[k] += 1]. *)
Definition incr (k : string) (d : gmap string nat) : gmap string nat :=
  <[k := S (default 0%nat (d !! k))]> d.

(** [d[k]] on a [defaultdict] followed by an in-place change of the entry. *)
Definition dd_alter {V} (zero : V) (f : V -> V) (k : string)
    (d : gmap string V) : gmap string V :=
  <[k := f (default zero (d !! k))]> d.

(** ** Sorting: [sorted] and [list.sort]

    Python's sort is stable and uses only [<]. [lt a b] decides [a < b];
    with [reverse=True] the caller passes the converse comparison, which is
    how Python keeps the sort stable in that case too. *)

Fixpoint insert_sorted {A} (lt : A -> A -> bool) (x : A) (l : list A) : list A :=
  match l with
  | [] => [x]
  | y :: l' => if lt y x then y :: insert_sorted lt x l' else x :: l
  end.

Definition stable_sort {A} (lt : A -> A -> bool) (l : list A) : list A :=
  foldr (insert_sorted lt) [] l.

(** [a] may stand before [b] in a list sorted by [lt]: [b < a] does not
    hold. *)
Definition in_order {A} (lt : A -> A -> bool) (a b : A) : Prop := lt b a = false.

(** [dict(sorted(d.items()))]: the items in ascending order of their key.
    The keys of a dictionary are pairwise distinct, so the comparison of
    two items is decided by the keys and never reaches the values. *)
Definition sorted_items {V} (d : gmap string V) : list (string * V) :=
  stable_sort (fun a b => String.ltb a.1 b.1) (map_to_list d).

Definition Qltb (a b : Q) : bool := negb (Qle_bool b a).

(** ** [datetime] and [strftime('%Y-%m')]

    Of a [datetime] only the year and the month are read. The class keeps
    [MINYEAR <= year <= MAXYEAR] (1 and 9999) and [1 <= month <= 12]. *)

Record datetime : Type := mk_datetime {
  year : Z;
  month : Z;
  year_range : (1 <=? year)%Z && (year <=? 9999)%Z = true;
  month_range : (1 <=? month)%Z && (month <=? 12)%Z = true
}.

Definition make_datetime (y m : Z) : option datetime :=
  match (1 <=? y)%Z && (y <=? 9999)%Z as b
        return ((1 <=? y)%Z && (y <=? 9999)%Z = b -> option datetime) with
  | true => fun Hy =>
      match (1 <=? m)%Z && (m <=? 12)%Z as b
            return ((1 <=? m)%Z && (m <=? 12)%Z = b -> option datetime) with
      | true => fun Hm => Some (mk_datetime y m Hy Hm)
      | false => fun _ => None
      end eq_refl
  | false => fun _ => None
  end eq_refl.

Definition digit (n : Z) : ascii := ascii_of_N (Z.to_N (48 + n mod 10)).

(** [n] written in decimal on [width] digits, zero padded ([%04d], [%02d];
    exact for [0 <= n < 10 ^ width], which the ranges of [datetime] ensure). *)
Fixpoint zero_padded (width : nat) (n : Z) : string :=
  match width with
  | O => EmptyString
  | S w => zero_padded w (n / 10) ++ String (digit n) EmptyString
  end.

(** [dt.strftime('%Y-%m')] *)
Definition strftime_Ym (dt : datetime) : string :=
  zero_padded 4 (year dt) ++ "-" ++ zero_padded 2 (month dt).

(** The pattern [YYYY-MM]: four digits, a hyphen, two digits. *)
Definition is_digit (c : ascii) : bool :=
  let n := nat_of_ascii c in (48 <=? n)%nat && (n <=? 57)%nat.

Definition is_YYYY_MM (s : string) : bool :=
  match list_ascii_of_string s with
  | [y1; y2; y3; y4; h; m1; m2] =>
      is_digit y1 && is_digit y2 && is_digit y3 && is_digit y4 &&
      Ascii.eqb h "-" && is_digit m1 && is_digit m2
  | _ => false
  end.

(** ** Result structures *)

Module Summary.
Record t : Type := mk {
    total_orders : nat;
    by_status : gmap string nat;
    by_marketplace : gmap string nat;
    by_country : gmap string nat;
    by_fulfillment : gmap string nat;
    total_revenue : Q;
    total_tax : Q;
    total_shipping : Q;
    total_items_sold : Z
  }.

Definition init (n : nat) : t := mk n ∅ ∅ ∅ ∅ 0 0 0 0.

Definition on_by_status f (s : t) : t :=
    mk (total_orders s) (f (by_status s)) (by_marketplace s) (by_country s)
       (by_fulfillment s) (total_revenue s) (total_tax s) (total_shipping s)
       (total_items_sold s).
Definition on_by_marketplace f (s : t) : t :=
    mk (total_orders s) (by_status s) (f (by_marketplace s)) (by_country s)
       (by_fulfillment s) (total_revenue s) (total_tax s) (total_shipping s)
       (total_items_sold s).
Definition on_by_country f (s : t) : t :=
    mk (total_orders s) (by_status s) (by_marketplace s) (f (by_country s))
       (by_fulfillment s) (total_revenue s) (total_tax s) (total_shipping s)
       (total_items_sold s).
Definition on_by_fulfillment f (s : t) : t :=
    mk (total_orders s) (by_status s) (by_marketplace s) (by_country s)
       (f (by_fulfillment s)) (total_revenue s) (total_tax s) (total_shipping s)
       (total_items_sold s).
Definition add_total_revenue (x : Q) (s : t) : t :=
    mk (total_orders s) (by_status s) (by_marketplace s) (by_country s)
       (by_fulfillment s) (total_revenue s + x) (total_tax s) (total_shipping s)
       (total_items_sold s).
Definition add_total_tax (x : Q) (s : t) : t :=
    mk (total_orders s) (by_status s) (by_marketplace s) (by_country s)
       (by_fulfillment s) (total_revenue s) (total_tax s + x) (total_shipping s)
       (total_items_sold s).
Definition add_total_shipping (x : Q) (s : t) : t :=
    mk (total_orders s) (by_status s) (by_marketplace s) (by_country s)
       (by_fulfillment s) (total_revenue s) (total_tax s) (total_shipping s + x)
       (total_items_sold s).
Definition add_total_items_sold (x : Z) (s : t) : t :=
    mk (total_orders s) (by_status s) (by_marketplace s) (by_country s)
       (by_fulfillment s) (total_revenue s) (total_tax s) (total_shipping s)
       (total_items_sold s + x)%Z.

(** The same summary with another ['total_orders']. *)
Definition with_total_orders (n : nat) (s : t) : t :=
  mk n (by_status s) (by_marketplace s) (by_country s) (by_fulfillment s)
     (total_revenue s) (total_tax s) (total_shipping s) (total_items_sold s).
End Summary.

Module Product.
Record t : Type := mk {
    name : string;
    sku : string;
    total_quantity : Z;
    total_revenue : Q;
    orders_count : nat
  }.

  (** The [lambda] of the [defaultdict]. *)
Definition zero : t := mk EmptyString EmptyString 0 0 0.

Definition set_name (x : string) (p : t) : t :=
    mk x (sku p) (total_quantity p) (total_revenue p) (orders_count p).
Definition set_sku (x : string) (p : t) : t :=
    mk (name p) x (total_quantity p) (total_revenue p) (orders_count p).
Definition add_total_quantity (x : Z) (p : t) : t :=
    mk (name p) (sku p) (total_quantity p + x)%Z (total_revenue p) (orders_count p).
Definition add_total_revenue (x : Q) (p : t) : t :=
    mk (name p) (sku p) (total_quantity p) (total_revenue p + x) (orders_count p).
Definition incr_orders_count (p : t) : t :=
    mk (name p) (sku p) (total_quantity p) (total_revenue p) (S (orders_count p)).
End Product.

Module Month.
Record t : Type := mk {
    orders : nat;
    revenue : Q;
    items : Z;
    shipped : nat;
    cancelled : nat;
    pending : nat
  }.

Definition zero : t := mk 0 0 0 0 0 0.

Definition incr_orders (m : t) : t :=
    mk (S (orders m)) (revenue m) (items m) (shipped m) (cancelled m) (pending m).
Definition add_revenue (x : Q) (m : t) : t :=
    mk (orders m) (revenue m + x) (items m) (shipped m) (cancelled m) (pending m).
Definition add_items (x : Z) (m : t) : t :=
    mk (orders m) (revenue m) (items m + x)%Z (shipped m) (cancelled m) (pending m).
Definition incr_shipped (m : t) : t :=
    mk (orders m) (revenue m) (items m) (S (shipped m)) (cancelled m) (pending m).
Definition incr_cancelled (m : t) : t :=
    mk (orders m) (revenue m) (items m) (shipped m) (S (cancelled m)) (pending m).
Definition incr_pending (m : t) : t :=
    mk (orders m) (revenue m) (items m) (shipped m) (cancelled m) (S (pending m)).
End Month.

(** The totals of one class of [get_fba_fbm_analysis] and
    [get_business_analysis]. *)
Module Class.
Record t : Type := mk {
    orders : nat;
    revenue : Q;
    items : Z;
    cancelled : nat
  }.

Definition zero : t := mk 0 0 0 0.

Definition incr_orders (c : t) : t :=
    mk (S (orders c)) (revenue c) (items c) (cancelled c).
Definition add_revenue (x : Q) (c : t) : t :=
    mk (orders c) (revenue c + x) (items c) (cancelled c).
Definition add_items (x : Z) (c : t) : t :=
    mk (orders c) (revenue c) (items c + x)%Z (cancelled c).
Definition incr_cancelled (c : t) : t :=
    mk (orders c) (revenue c) (items c) (S (cancelled c)).
End Class.

(** An entry of the monthly sub-series of a class. *)
Module SubMonth.
Record t : Type := mk { orders : nat; revenue : Q }.

Definition zero : t := mk 0 0.

Definition incr_orders (m : t) : t := mk (S (orders m)) (revenue m).
Definition add_revenue (x : Q) (m : t) : t := mk (orders m) (revenue m + x).
End SubMonth.

(** [get_fba_fbm_analysis]; [M] is the type of the monthly tables, a
    [defaultdict] during the loop and a sorted dictionary in the result. *)
Module Fulfillment.
Record t (M : Type) : Type := mk {
    fba : Class.t;
    fbm : Class.t;
    monthly_fba : M;
    monthly_fbm : M
  }.
Arguments mk {M}.
Arguments fba {M}.
Arguments fbm {M}.
Arguments monthly_fba {M}.
Arguments monthly_fbm {M}.

  (** [analysis[category]], [category] being ['fba'] or ['fbm']. *)
Definition on_category {M} (is_fba : bool) (f : Class.t -> Class.t)
    (a : t M) : t M :=
    if is_fba then mk (f (fba a)) (fbm a) (monthly_fba a) (monthly_fbm a)
    else mk (fba a) (f (fbm a)) (monthly_fba a) (monthly_fbm a).
Definition category {M} (is_fba : bool) (a : t M) : Class.t :=
    if is_fba then fba a else fbm a.
Definition on_monthly_fba {M} (f : M -> M) (a : t M) : t M :=
    mk (fba a) (fbm a) (f (monthly_fba a)) (monthly_fbm a).
Definition on_monthly_fbm {M} (f : M -> M) (a : t M) : t M :=
    mk (fba a) (fbm a) (monthly_fba a) (f (monthly_fbm a)).
End Fulfillment.

(** [get_business_analysis] *)
Module Business.
Record t (M : Type) : Type := mk {
    business : Class.t;
    consumer : Class.t;
    monthly_business : M;
    monthly_consumer : M
  }.
Arguments mk {M}.
Arguments business {M}.
Arguments consumer {M}.
Arguments monthly_business {M}.
Arguments monthly_consumer {M}.

Definition on_category {M} (is_business : bool) (f : Class.t -> Class.t)
    (a : t M) : t M :=
    if is_business
    then mk (f (business a)) (consumer a) (monthly_business a) (monthly_consumer a)
    else mk (business a) (f (consumer a)) (monthly_business a) (monthly_consumer a).
Definition category {M} (is_business : bool) (a : t M) : Class.t :=
    if is_business then business a else consumer a.
Definition on_monthly_business {M} (f : M -> M) (a : t M) : t M :=
    mk (business a) (consumer a) (f (monthly_business a)) (monthly_consumer a).
Definition on_monthly_consumer {M} (f : M -> M) (a : t M) : t M :=
    mk (business a) (consumer a) (monthly_business a) (f (monthly_consumer a)).
End Business.

(** [get_promotions_analysis]; [P] is the type of an entry of
    ['by_promotion_type'] and [M] that of ['monthly_promotions']. *)
Module Promotions.
Record acc : Type := mk_acc { acc_count : nat; acc_skus : gset string }.

Definition acc_zero : acc := mk_acc 0 ∅.

Definition incr_count (a : acc) : acc := mk_acc (S (acc_count a)) (acc_skus a).
Definition add_sku (x : string) (a : acc) : acc :=
  mk_acc (acc_count a) ({[x]} ∪ acc_skus a).

(** An entry once the loop is over: the set has become a list and its
    length is recorded. *)
Record entry : Type := mk_entry {
  count : nat;
  skus : list string;
  unique_skus : nat
}.

Record t (P M : Type) : Type := mk {
  total_with_promotions : nat;
  by_promotion_type : gmap string P;
  skus_on_promotion : gmap string nat;
  monthly_promotions : M
}.
Arguments mk {P M}.
Arguments total_with_promotions {P M}.
Arguments by_promotion_type {P M}.
Arguments skus_on_promotion {P M}.
Arguments monthly_promotions {P M}.

Definition incr_total {P M} (a : t P M) : t P M :=
  mk (S (total_with_promotions a)) (by_promotion_type a) (skus_on_promotion a)
     (monthly_promotions a).
Definition on_by_promotion_type {P M} (f : gmap string P -> gmap string P)
    (a : t P M) : t P M :=
  mk (total_with_promotions a) (f (by_promotion_type a)) (skus_on_promotion a)
     (monthly_promotions a).
Definition on_skus_on_promotion {P M} (f : gmap string nat -> gmap string nat)
    (a : t P M) : t P M :=
  mk (total_with_promotions a) (by_promotion_type a) (f (skus_on_promotion a))
     (monthly_promotions a).
Definition on_monthly_promotions {P M} (f : M -> M) (a : t P M) : t P M :=
  mk (total_with_promotions a) (by_promotion_type a) (skus_on_promotion a)
     (f (monthly_promotions a)).
End Promotions.

(** ** Insertion-ordered dictionary of [get_products_summary]

    [products[k]] on the [defaultdict] appends a fresh entry when [k] is
    new, and the entry is then changed in place. *)
Fixpoint od_alter {V} (zero : V) (f : V -> V) (k : string)
    (d : list (string * V)) : list (string * V) :=
  match d with
  | [] => [(k, f zero)]
  | (k', v) :: d' =>
      if String.eqb k' k then (k', f v) :: d'
      else (k', v) :: od_alter zero f k d'
  end.

(** Some occurrence of [x] precedes some occurrence of [y]. *)
Inductive before {A} (x y : A) : list A -> Prop :=
  | before_here l : y ∈ l -> before x y (x :: l)
  | before_later z l : before x y l -> before x y (z :: l).

(** In [keys], [a] occurs and no [b] occurs before its first occurrence:
    [a] first appears earlier than [b]. *)
Fixpoint appears_first (a b : string) (keys : list string) : bool :=
  match keys with
  | [] => false
  | k :: keys' =>
      if String.eqb k a then true
      else if String.eqb k b then false
      else appears_first a b keys'
  end.

(** [sum(d.values())] *)
Definition sum_values (d : gmap string nat) : nat :=
  map_fold (fun _ v total => (v + total)%nat) 0%nat d.

(** The entry a [defaultdict] answers for [k]. *)
Definition entry {V} (zero : V) (d : gmap string V) (k : string) : V :=
  default zero (d !! k).

(** A row given by its fields. *)
Definition row (fields : list (string * string)) : order := list_to_map fields.

(** ** The aggregators *)

Module AmazonOrdersAnalyzer.
Section Aggregators.

(** [float(x)], [int(x)] on text, and [datetime.fromisoformat(x)];
    [None] is the [ValueError]. *)
Variable float : string -> option Q.
Variable int : string -> option Z.
Variable fromisoformat : string -> option datetime.

(** [float(order.get(key, 0) or 0)]: a missing or empty field is the number
    [0], which [float] accepts. *)
Definition float_field (o : order) (key : string) : option Q :=
  match o !! key with
  | Some v => if Text.truthy v then float v else Some 0%Q
  | None => Some 0%Q
  end.

(** [int(order.get(key, 0) or 0)] *)
Definition int_field (o : order) (key : string) : option Z :=
  match o !! key with
  | Some v => if Text.truthy v then int v else Some 0%Z
  | None => Some 0%Z
  end.

(** [datetime.fromisoformat(purchase_date.replace('Z', '+00:00'))
      .strftime('%Y-%m')] *)
Definition month_key_of (purchase_date : string) : option string :=
  strftime_Ym <$> fromisoformat (Text.replace_Z purchase_date).

(** *** [get_summary] (lines 77-123) *)

Definition summary_revenue (o : order) : Try Summary.t unit :=
  item_price ← eval (float_field o "item-price");
  modify (Summary.add_total_revenue item_price);;
  item_tax ← eval (float_field o "item-tax");
  modify (Summary.add_total_tax item_tax);;
  shipping_price ← eval (float_field o "shipping-price");
  modify (Summary.add_total_shipping shipping_price).

Definition summary_quantity (o : order) : Try Summary.t unit :=
  quantity ← eval (int_field o "quantity");
  modify (Summary.add_total_items_sold quantity).

Definition summary_step (s : Summary.t) (o : order) : Summary.t :=
  let status := get o "order-status" "Unknown" in
  let s := Summary.on_by_status (incr status) s in
  let marketplace := get o "sales-channel" "Unknown" in
  let s := Summary.on_by_marketplace (incr marketplace) s in
  let country := get o "ship-country" "Unknown" in
  let s := Summary.on_by_country (incr country) s in
  let fulfillment := get o "fulfillment-channel" "Unknown" in
  let s := Summary.on_by_fulfillment (incr fulfillment) s in
  let s := if String.eqb status "Shipped"
           then try_except (summary_revenue o) s else s in
  try_except (summary_quantity o) s.

Definition get_summary (orders : list order) : Summary.t :=
  foldl summary_step (Summary.init (length orders)) orders.

(** *** [get_products_summary] (lines 125-164) *)

Definition product_quantity (o : order) : Try Product.t unit :=
  quantity ← eval (int_field o "quantity");
  modify (Product.add_total_quantity quantity).

Definition product_revenue (o : order) : Try Product.t unit :=
  item_price ← eval (float_field o "item-price");
  modify (Product.add_total_revenue item_price).

(** What one row does to the entry [products[sku]]. *)
Definition product_entry_step (o : order) (sku status : string)
    (p : Product.t) : Product.t :=
  let p := if Text.truthy (Product.name p) then p
           else Product.set_name (get o "product-name" "N/A") p in
  let p := Product.set_sku sku p in
  let p := Product.incr_orders_count p in
  let p := try_except (product_quantity o) p in
  if String.eqb status "Shipped" then try_except (product_revenue o) p else p.

Definition products_step (products : list (string * Product.t)) (o : order)
    : list (string * Product.t) :=
  let sku := get o "sku" "Unknown" in
  let status := get o "order-status" EmptyString in
  if negb (Text.truthy sku) || String.eqb sku "Unknown" then products
  else od_alter Product.zero (product_entry_step o sku status) sku products.

Definition products_table (orders : list order) : list (string * Product.t) :=
  foldl products_step [] orders.

Definition get_products_summary (orders : list order) : list Product.t :=
  let products_list := (products_table orders).*2 in
  stable_sort
    (fun a b => Qltb (Product.total_revenue b) (Product.total_revenue a))
    products_list.

(** *** [get_monthly_trends] (lines 166-207) *)

Definition monthly_body (o : order) (purchase_date status : string)
    : Try (gmap string Month.t) unit :=
  dt ← eval (fromisoformat (Text.replace_Z purchase_date));
  let month_key := strftime_Ym dt in
  modify (dd_alter Month.zero Month.incr_orders month_key);;
  (if String.eqb status "Shipped"
   then modify (dd_alter Month.zero Month.incr_shipped month_key)
   else if String.eqb status "Cancelled"
   then modify (dd_alter Month.zero Month.incr_cancelled month_key)
   else if String.eqb status "Pending"
   then modify (dd_alter Month.zero Month.incr_pending month_key)
   else mret tt);;
  quantity ← eval (int_field o "quantity");
  modify (dd_alter Month.zero (Month.add_items quantity) month_key);;
  if String.eqb status "Shipped"
  then item_price ← eval (float_field o "item-price");
       modify (dd_alter Month.zero (Month.add_revenue item_price) month_key)
  else mret tt.

Definition monthly_step (monthly : gmap string Month.t) (o : order)
    : gmap string Month.t :=
  let purchase_date := get o "purchase-date" EmptyString in
  let status := get o "order-status" EmptyString in
  if negb (Text.truthy purchase_date) then monthly
  else try_except (monthly_body o purchase_date status) monthly.

Definition monthly_table (orders : list order) : gmap string Month.t :=
  foldl monthly_step ∅ orders.

Definition get_monthly_trends (orders : list order) : list (string * Month.t) :=
  sorted_items (monthly_table orders).

(** *** [get_fba_fbm_analysis] (lines 209-265) *)

Definition fba_fbm_quantity (o : order) (is_fba : bool)
    : Try (Fulfillment.t (gmap string SubMonth.t)) unit :=
  quantity ← eval (int_field o "quantity");
  modify (Fulfillment.on_category is_fba (Class.add_items quantity)).

Definition fba_fbm_revenue (o : order) (is_fba : bool) (purchase_date : string)
    : Try (Fulfillment.t (gmap string SubMonth.t)) unit :=
  item_price ← eval (float_field o "item-price");
  modify (Fulfillment.on_category is_fba (Class.add_revenue item_price));;
  if Text.truthy purchase_date
  then dt ← eval (fromisoformat (Text.replace_Z purchase_date));
       let month_key := strftime_Ym dt in
       if is_fba
       then modify (Fulfillment.on_monthly_fba
                      (dd_alter SubMonth.zero SubMonth.incr_orders month_key));;
            modify (Fulfillment.on_monthly_fba
                      (dd_alter SubMonth.zero
                         (SubMonth.add_revenue item_price) month_key))
       else modify (Fulfillment.on_monthly_fbm
                      (dd_alter SubMonth.zero SubMonth.incr_orders month_key));;
            modify (Fulfillment.on_monthly_fbm
                      (dd_alter SubMonth.zero
                         (SubMonth.add_revenue item_price) month_key))
  else mret tt.

Definition fba_fbm_step (analysis : Fulfillment.t (gmap string SubMonth.t))
    (o : order) : Fulfillment.t (gmap string SubMonth.t) :=
  let fulfillment := get o "fulfillment-channel" "Unknown" in
  let status := get o "order-status" EmptyString in
  let purchase_date := get o "purchase-date" EmptyString in
  let is_fba := String.eqb fulfillment "Amazon" in
  let a := Fulfillment.on_category is_fba Class.incr_orders analysis in
  let a := if String.eqb status "Cancelled"
           then Fulfillment.on_category is_fba Class.incr_cancelled a else a in
  let a := try_except (fba_fbm_quantity o is_fba) a in
  if String.eqb status "Shipped"
  then try_except (fba_fbm_revenue o is_fba purchase_date) a else a.

Definition fba_fbm_loop (orders : list order)
    : Fulfillment.t (gmap string SubMonth.t) :=
  foldl fba_fbm_step (Fulfillment.mk Class.zero Class.zero ∅ ∅) orders.

Definition get_fba_fbm_analysis (orders : list order)
    : Fulfillment.t (list (string * SubMonth.t)) :=
  let analysis := fba_fbm_loop orders in
  Fulfillment.mk (Fulfillment.fba analysis) (Fulfillment.fbm analysis)
    (sorted_items (Fulfillment.monthly_fba analysis))
    (sorted_items (Fulfillment.monthly_fbm analysis)).

(** *** [get_promotions_analysis] (lines 267-312) *)

Definition promotions_month (purchase_date : string)
    : Try (Promotions.t Promotions.acc (gmap string nat)) unit :=
  dt ← eval (fromisoformat (Text.replace_Z purchase_date));
  let month_key := strftime_Ym dt in
  modify (Promotions.on_monthly_promotions (incr month_key)).

Definition promotions_step (analysis : Promotions.t Promotions.acc (gmap string nat))
    (o : order) : Promotions.t Promotions.acc (gmap string nat) :=
  let promo_id := Text.strip (get o "promotion-ids" EmptyString) in
  let sku := get o "sku" "Unknown" in
  let purchase_date := get o "purchase-date" EmptyString in
  if Text.truthy promo_id then
    let a := Promotions.incr_total analysis in
    let a := Promotions.on_by_promotion_type
               (dd_alter Promotions.acc_zero Promotions.incr_count promo_id) a in
    let a := Promotions.on_by_promotion_type
               (dd_alter Promotions.acc_zero (Promotions.add_sku sku) promo_id) a in
    let a := Promotions.on_skus_on_promotion (incr sku) a in
    if Text.truthy purchase_date
    then try_except (promotions_month purchase_date) a else a
  else analysis.

Definition promotions_loop (orders : list order)
    : Promotions.t Promotions.acc (gmap string nat) :=
  foldl promotions_step (Promotions.mk 0%nat ∅ ∅ ∅) orders.

(** The conversion of the sets after the loop: ['unique_skus'] is the size
    of the set, ['skus'] its elements in the order the set enumerates them. *)
Definition promotions_entry (a : Promotions.acc) : Promotions.entry :=
  Promotions.mk_entry (Promotions.acc_count a)
    (elements (Promotions.acc_skus a)) (size (Promotions.acc_skus a)).

Definition get_promotions_analysis (orders : list order)
    : Promotions.t Promotions.entry (list (string * nat)) :=
  let analysis := promotions_loop orders in
  Promotions.mk (Promotions.total_with_promotions analysis)
    (promotions_entry <$> Promotions.by_promotion_type analysis)
    (Promotions.skus_on_promotion analysis)
    (sorted_items (Promotions.monthly_promotions analysis)).

(** *** [get_market_monthly_analysis] (lines 314-340) *)

Definition market_monthly_body (o : order) (country purchase_date : string)
    : Try (gmap string (gmap string Q)) unit :=
  dt ← eval (fromisoformat (Text.replace_Z purchase_date));
  let month_key := strftime_Ym dt in
  item_price ← eval (float_field o "item-price");
  modify (dd_alter ∅
            (dd_alter 0%Q (fun revenue => (revenue + item_price)%Q) month_key)
            country).

Definition market_monthly_step (analysis : gmap string (gmap string Q))
    (o : order) : gmap string (gmap string Q) :=
  if negb (bool_decide (o !! "order-status" = Some "Shipped")) then analysis
  else
    let country := get o "ship-country" "Unknown" in
    let purchase_date := get o "purchase-date" EmptyString in
    if Text.truthy purchase_date
    then try_except (market_monthly_body o country purchase_date) analysis
    else analysis.

Definition get_market_monthly_analysis (orders : list order)
    : gmap string (list (string * Q)) :=
  let analysis := foldl market_monthly_step ∅ orders in
  sorted_items <$> analysis.

(** *** [get_business_analysis] (lines 342-396) *)

Definition business_quantity (o : order) (is_business : bool)
    : Try (Business.t (gmap string SubMonth.t)) unit :=
  quantity ← eval (int_field o "quantity");
  modify (Business.on_category is_business (Class.add_items quantity)).

Definition business_revenue (o : order) (is_business : bool) (purchase_date : string)
    : Try (Business.t (gmap string SubMonth.t)) unit :=
  item_price ← eval (float_field o "item-price");
  modify (Business.on_category is_business (Class.add_revenue item_price));;
  if Text.truthy purchase_date
  then dt ← eval (fromisoformat (Text.replace_Z purchase_date));
       let month_key := strftime_Ym dt in
       if is_business
       then modify (Business.on_monthly_business
                      (dd_alter SubMonth.zero SubMonth.incr_orders month_key));;
            modify (Business.on_monthly_business
                      (dd_alter SubMonth.zero
                         (SubMonth.add_revenue item_price) month_key))
       else modify (Business.on_monthly_consumer
                      (dd_alter SubMonth.zero SubMonth.incr_orders month_key));;
            modify (Business.on_monthly_consumer
                      (dd_alter SubMonth.zero
                         (SubMonth.add_revenue item_price) month_key))
  else mret tt.

Definition business_step (analysis : Business.t (gmap string SubMonth.t))
    (o : order) : Business.t (gmap string SubMonth.t) :=
  let is_business :=
    String.eqb
      (Text.lower (Text.strip (get o "is-business-order" EmptyString))) "true" in
  let status := get o "order-status" EmptyString in
  let purchase_date := get o "purchase-date" EmptyString in
  let a := Business.on_category is_business Class.incr_orders analysis in
  let a := if String.eqb status "Cancelled"
           then Business.on_category is_business Class.incr_cancelled a else a in
  let a := try_except (business_quantity o is_business) a in
  if String.eqb status "Shipped"
  then try_except (business_revenue o is_business purchase_date) a else a.

Definition business_loop (orders : list order)
    : Business.t (gmap string SubMonth.t) :=
  foldl business_step (Business.mk Class.zero Class.zero ∅ ∅) orders.

Definition get_business_analysis (orders : list order)
    : Business.t (list (string * SubMonth.t)) :=
  let analysis := business_loop orders in
  Business.mk (Business.business analysis) (Business.consumer analysis)
    (sorted_items (Business.monthly_business analysis))
    (sorted_items (Business.monthly_consumer analysis)).

(** *** Vocabulary of the statements *)

(** The revenue a row brings: its item price when it is shipped and the
    price is read, nothing otherwise. *)
Definition shipped_price (o : order) : Q :=
  if String.eqb (get o "order-status" EmptyString) "Shipped"
  then default 0%Q (float_field o "item-price") else 0%Q.

(** What a row adds to a summary, whatever else is summed with it. *)
Definition counted_once (o : order) (s s' : Summary.t) : Prop :=
  (forall k, entry 0%nat (Summary.by_status s) k =
     if decide (get o "order-status" "Unknown" = k)
     then S (entry 0%nat (Summary.by_status s') k)
     else entry 0%nat (Summary.by_status s') k) /\
  (forall k, entry 0%nat (Summary.by_marketplace s) k =
     if decide (get o "sales-channel" "Unknown" = k)
     then S (entry 0%nat (Summary.by_marketplace s') k)
     else entry 0%nat (Summary.by_marketplace s') k) /\
  (forall k, entry 0%nat (Summary.by_country s) k =
     if decide (get o "ship-country" "Unknown" = k)
     then S (entry 0%nat (Summary.by_country s') k)
     else entry 0%nat (Summary.by_country s') k) /\
  (forall k, entry 0%nat (Summary.by_fulfillment s) k =
     if decide (get o "fulfillment-channel" "Unknown" = k)
     then S (entry 0%nat (Summary.by_fulfillment s') k)
     else entry 0%nat (Summary.by_fulfillment s') k) /\
  (Summary.total_revenue s == Summary.total_revenue s' + shipped_price o)%Q /\
  Summary.total_items_sold s =
    (Summary.total_items_sold s' + default 0 (int_field o "quantity"))%Z.

(** Two states of a classification loop that carry the same monthly
    sub-series, the first having counted one more order in the class
    [first_class] ([true] for FBA, respectively business). *)
Definition fulfillment_one_more (first_class : bool)
    (a a' : Fulfillment.t (gmap string SubMonth.t)) : Prop :=
  Fulfillment.monthly_fba a = Fulfillment.monthly_fba a' /\
  Fulfillment.monthly_fbm a = Fulfillment.monthly_fbm a' /\
  Class.orders (Fulfillment.category first_class a) =
    S (Class.orders (Fulfillment.category first_class a')).

Definition business_one_more (first_class : bool)
    (a a' : Business.t (gmap string SubMonth.t)) : Prop :=
  Business.monthly_business a = Business.monthly_business a' /\
  Business.monthly_consumer a = Business.monthly_consumer a' /\
  Class.orders (Business.category first_class a) =
    S (Class.orders (Business.category first_class a')).

(** The key under which [get_products_summary] and
    [get_promotions_analysis] file a row. *)
Definition sku_of (o : order) : string := get o "sku" "Unknown".

(** The keys [get_products_summary] keeps: not empty and not ["Unknown"]. *)
Definition product_key (k : string) : bool :=
  negb (negb (Text.truthy k) || String.eqb k "Unknown").

(** The rows [get_promotions_analysis] takes part: those whose stripped
    ['promotion-ids'] is not empty. *)
Definition promoted (o : order) : bool :=
  Text.truthy (Text.strip (get o "promotion-ids" EmptyString)).

(** The three status counters of a month stay within its order count. *)
Definition status_counters_bounded (m : Month.t) : Prop :=
  (Month.shipped m + Month.cancelled m + Month.pending m <= Month.orders m)%nat.

End Aggregators.
End AmazonOrdersAnalyzer.

Import AmazonOrdersAnalyzer.

(** ** Executable instances of the parsers

    [Literal.float], [Literal.int] and [Literal.fromisoformat] read the
    plain ASCII literals: decimal numbers (digits, with single underscores
    between digits, an optional fraction and exponent) and the timestamps
    written by [datetime.isoformat]. [inf] and [nan], which have no
    rational value, and the wider ISO 8601 forms newer interpreters also
    accept are not covered; the theorems below hold for every parser. *)

Module Literal.

Definition digit_value (c : ascii) : option Z :=
  if is_digit c then Some (Z.of_nat (nat_of_ascii c) - 48)%Z else None.

(** The longest prefix of the form digit ([_]? digit)*, as the list of its
    digits, and what follows it. *)
Fixpoint span_digits (s : string) : list Z * string :=
  match s with
  | String c s' =>
      match digit_value c with
      | Some d =>
          match s' with
          | String "_" (String c' _ as s'') =>
              if is_digit c' then let '(ds, r) := span_digits s'' in (d :: ds, r)
              else ([d], s')
          | _ => let '(ds, r) := span_digits s' in (d :: ds, r)
          end
      | None => ([], s)
      end
  | EmptyString => ([], s)
  end.

Definition decimal (ds : list Z) : Z := foldl (fun a d => (10 * a + d)%Z) 0%Z ds.

(** An optional sign: its value and the rest of the text. *)
Definition sign (s : string) : Z * string :=
  match s with
  | String "+" s' => (1%Z, s')
  | String "-" s' => ((-1)%Z, s')
  | _ => (1%Z, s)
  end.

Definition int (s : string) : option Z :=
  let '(sg, s) := sign (Text.strip s) in
  match span_digits s with
  | ((_ :: _) as ds, EmptyString) => Some (sg * decimal ds)%Z
  | _ => None
  end.

Definition pow10 (e : Z) : Q :=
  if (0 <=? e)%Z then inject_Z (10 ^ e) else / inject_Z (10 ^ (- e)).

Definition exponent (s : string) : option Z :=
  match s with
  | EmptyString => Some 0%Z
  | String c s' =>
      if Ascii.eqb c "e" || Ascii.eqb c "E" then
        let '(sg, s'') := sign s' in
        match span_digits s'' with
        | ((_ :: _) as ds, EmptyString) => Some (sg * decimal ds)%Z
        | _ => None
        end
      else None
  end.

Definition float (s : string) : option Q :=
  let '(sg, s) := sign (Text.strip s) in
  let '(ip, s) := span_digits s in
  let '(fp, s) :=
    match s with
    | String "." s' => span_digits s'
    | _ => ([], s)
    end in
  match (ip ++ fp)%list with
  | [] => None
  | ds =>
      e ← exponent s;
      Some (Qred (inject_Z (sg * decimal ds) * pow10 (e - Z.of_nat (length fp))))
  end.

Definition is_leap (y : Z) : bool :=
  ((y mod 4 =? 0) && negb (y mod 100 =? 0) || (y mod 400 =? 0))%Z.

Definition days_in_month (y m : Z) : Z :=
  if (m =? 2)%Z then (if is_leap y then 29 else 28)%Z
  else if ((m =? 4) || (m =? 6) || (m =? 9) || (m =? 11))%Z then 30%Z
  else 31%Z.

(** A field of exactly the given digits. *)
Definition field (cs : list ascii) : option Z :=
  decimal <$> mapM digit_value cs.

Definition below (bound : Z) (cs : list ascii) : bool :=
  match field cs with Some n => (n <? bound)%Z | None => false end.

(** [.fff] or [.ffffff], or nothing, at the end of the text. *)
Definition fraction_ok (cs : list ascii) : bool :=
  match cs with
  | [] => true
  | "."%char :: ds => (bool_decide (length ds = 3%nat) || bool_decide (length ds = 6%nat))
                      && forallb is_digit ds
  | _ => false
  end.

(** [HH[:MM[:SS[.fff[fff]]]]] *)
Definition clock_ok (cs : list ascii) : bool :=
  match cs with
  | [h1; h2] => below 24 [h1; h2]
  | [h1; h2; ":"; m1; m2]%char => below 24 [h1; h2] && below 60 [m1; m2]
  | (h1 :: h2 :: ":" :: m1 :: m2 :: ":" :: s1 :: s2 :: rest)%char =>
      below 24 [h1; h2] && below 60 [m1; m2] && below 60 [s1; s2] && fraction_ok rest
  | _ => false
  end.

(** [+HH:MM[:SS[.ffffff]]] without its sign. *)
Definition offset_ok (cs : list ascii) : bool :=
  match cs with
  | [h1; h2; ":"; m1; m2]%char => below 24 [h1; h2] && below 60 [m1; m2]
  | (h1 :: h2 :: ":" :: m1 :: m2 :: ":" :: s1 :: s2 :: rest)%char =>
      below 24 [h1; h2] && below 60 [m1; m2] && below 60 [s1; s2] &&
      match rest with
      | [] => true
      | "."%char :: ds => bool_decide (length ds = 6%nat) && forallb is_digit ds
      | _ => false
      end
  | _ => false
  end.

Definition is_sign (c : ascii) : bool := Ascii.eqb c "+" || Ascii.eqb c "-".

(** The text up to its first sign, and what follows that sign. *)
Fixpoint break_at_sign (cs : list ascii) : list ascii * option (list ascii) :=
  match cs with
  | [] => ([], None)
  | c :: cs' =>
      if is_sign c then ([], Some cs')
      else let '(clock, off) := break_at_sign cs' in (c :: clock, off)
  end.

(** The time of day with its optional offset. *)
Definition time_ok (cs : list ascii) : bool :=
  match break_at_sign cs with
  | (clock, None) => clock_ok clock
  | (clock, Some off) => clock_ok clock && offset_ok off
  end.

Definition fromisoformat (s : string) : option datetime :=
  match list_ascii_of_string s with
  | (y1 :: y2 :: y3 :: y4 :: "-" :: m1 :: m2 :: "-" :: d1 :: d2 :: rest)%char =>
      y ← field [y1; y2; y3; y4];
      m ← field [m1; m2];
      d ← field [d1; d2];
      dt ← make_datetime y m;
      if ((1 <=? d) && (d <=? days_in_month y m))%Z &&
         match rest with [] => true | _ :: t => time_ok t end
      then Some dt else None
  | _ => None
  end.

End Literal.


(** ** Sample rows *)

Module Sample.

(** A promoted row of an export without SKU column, and one whose SKU is
    blank. *)
Definition promoted_without_sku : order :=
  row [("amazon-order-id", "405-0000001-0000001"); ("order-status", "Shipped");
       ("promotion-ids", "P1")].

Definition promoted_blank_sku : order :=
  row [("amazon-order-id", "405-0000001-0000002"); ("order-status", "Shipped");
       ("sku", EmptyString); ("promotion-ids", "P1")].

(** A shipped row whose tax is not a number. *)
Definition bad_tax : order :=
  row [("amazon-order-id", "405-0000002-0000001"); ("order-status", "Shipped");
       ("item-price", "10.00"); ("item-tax", "abc"); ("shipping-price", "5.00")].

(** A shipped, dated row whose quantity is not a number. *)
Definition bad_quantity : order :=
  row [("amazon-order-id", "405-0000003-0000001"); ("order-status", "Shipped");
       ("purchase-date", "2024-03-05T10:00:00Z"); ("quantity", "abc");
       ("item-price", "40")].

(** A shipped, dated FBA business row whose price is not a number. *)
Definition bad_price : order :=
  row [("amazon-order-id", "405-0000004-0000001"); ("order-status", "Shipped");
       ("fulfillment-channel", "Amazon"); ("is-business-order", "true");
       ("purchase-date", "2024-03-05T10:00:00Z"); ("item-price", "abc")].

(** A shipped, dated row. *)
Definition dated : order :=
  row [("amazon-order-id", "405-0000005-0000001"); ("order-status", "Shipped");
       ("purchase-date", "2024-03-05T10:00:00Z"); ("item-price", "40")].

(** A shipped row whose purchase date is not a date. *)
Definition undated : order :=
  row [("amazon-order-id", "405-0000005-0000002"); ("order-status", "Shipped");
       ("purchase-date", "not-a-date"); ("item-price", "10")].

(** A dated row that is neither shipped, cancelled nor pending. *)
Definition unshipped : order :=
  row [("amazon-order-id", "405-0000006-0000001"); ("order-status", "Unshipped");
       ("purchase-date", "2024-03-05T10:00:00Z")].

(** Two products with the same revenue: B1 is seen first. *)
Definition tied_products : list order :=
  [row [("amazon-order-id", "405-0000007-0000001"); ("order-status", "Shipped");
        ("sku", "B1"); ("item-price", "10")];
   row [("amazon-order-id", "405-0000007-0000002"); ("order-status", "Shipped");
        ("sku", "A1"); ("item-price", "4")];
   row [("amazon-order-id", "405-0000007-0000003"); ("order-status", "Shipped");
        ("sku", "A1"); ("item-price", "6")]].

End Sample.

(** ** Vocabulary of the further statements *)

(** The number of rows that satisfy a test, and sums over rows. *)
Definition count_rows (P : order -> bool) (l : list order) : nat :=
  length (List.filter P l).

Fixpoint sum_Q (f : order -> Q) (l : list order) : Q :=
  match l with
  | [] => 0
  | o :: l' => f o + sum_Q f l'
  end.

Fixpoint sum_Z (f : order -> Z) (l : list order) : Z :=
  match l with
  | [] => 0
  | o :: l' => f o + sum_Z f l'
  end.

(** Keys in strictly ascending order, each of the form [YYYY-MM]. *)
Definition ascending_months (keys : list string) : Prop :=
  StronglySorted (fun a b => String.ltb a b = true) keys /\
  Forall (fun k => is_YYYY_MM k = true) keys.

(** The row has [k] in column [key], a missing column reading as [dflt]. *)
Definition has_value (key dflt k : string) (o : order) : bool :=
  String.eqb (get o key dflt) k.

Definition is_shipped (o : order) : bool :=
  String.eqb (get o "order-status" EmptyString) "Shipped".

Definition is_cancelled (o : order) : bool :=
  String.eqb (get o "order-status" EmptyString) "Cancelled".

(** The class of a row in the two binary classifications. *)
Definition is_fba (o : order) : bool :=
  String.eqb (get o "fulfillment-channel" "Unknown") "Amazon".

Definition is_business (o : order) : bool :=
  String.eqb
    (Text.lower (Text.strip (get o "is-business-order" EmptyString))) "true".

(** The promotion a promoted row is counted under. *)
Definition promo_id_of (o : order) : string :=
  Text.strip (get o "promotion-ids" EmptyString).

(** The first non-empty product name among the rows of SKU [k], a missing
    column reading as ['N/A']; empty when there is none. *)
Fixpoint first_name (k : string) (l : list order) : string :=
  match l with
  | [] => EmptyString
  | o :: l' =>
      if String.eqb (sku_of o) k && Text.truthy (get o "product-name" "N/A")
      then get o "product-name" "N/A"
      else first_name k l'
  end.

(** The value an insertion-ordered dictionary holds for [k], [zero] when
    [k] is not a key. *)
Fixpoint od_get {V} (zero : V) (k : string) (d : list (string * V)) : V :=
  match d with
  | [] => zero
  | (k', v) :: d' => if String.eqb k' k then v else od_get zero k d'
  end.

Module Rows.
Section Vocabulary.

Variable float : string -> option Q.
Variable int : string -> option Z.
Variable fromisoformat : string -> option datetime.

(** What a row adds to the item totals: its quantity, nothing when the
    quantity is not read as an integer. *)
Definition quantity_of (o : order) : Z :=
  default 0%Z (int_field int o "quantity").

(** What a row adds to ['total_tax'] and ['total_shipping'] of the summary:
    the tax is reached when the price is read, the shipping price when
    price and tax are both read. *)
Definition tax_of (o : order) : Q :=
  if is_shipped o then
    match float_field float o "item-price" with
    | Some _ => default 0%Q (float_field float o "item-tax")
    | None => 0%Q
    end
  else 0%Q.

Definition shipping_of (o : order) : Q :=
  if is_shipped o then
    match float_field float o "item-price", float_field float o "item-tax" with
    | Some _, Some _ => default 0%Q (float_field float o "shipping-price")
    | _, _ => 0%Q
    end
  else 0%Q.

(** The month a row is filed under by the monthly tables: none when the
    purchase date is missing, empty or not read as a date. *)
Definition month_of (o : order) : option string :=
  let purchase_date := get o "purchase-date" EmptyString in
  if Text.truthy purchase_date then month_key_of fromisoformat purchase_date
  else None.

(** What a row adds to the revenue of its month in the monthly trend: its
    price when it is shipped, once its quantity and its price are read. *)
Definition trend_revenue_of (o : order) : Q :=
  match int_field int o "quantity" with
  | Some _ => shipped_price float o
  | None => 0%Q
  end.

Definition in_month (k : string) (o : order) : bool :=
  bool_decide (month_of o = Some k).

Definition is_dated (o : order) : bool :=
  bool_decide (is_Some (month_of o)).

(** The rows that reach the monthly sub-series of a classification:
    shipped, with a price that is read and a month. *)
Definition in_sub_series (o : order) : bool :=
  is_shipped o && bool_decide (is_Some (float_field float o "item-price"))
  && is_dated o.

(** The rows [get_market_monthly_analysis] looks at. *)
Definition shipped_with_date (o : order) : bool :=
  is_shipped o && Text.truthy (get o "purchase-date" EmptyString).

End Vocabulary.
End Rows.

Import Rows.

(** ** Loading: [load_files] and [_load_file] (lines 50-75)

    The file system is what [glob.glob] lists and what [csv.DictReader]
    reads of each path: the field names of the header ([None] for an empty
    file) and the rows. Paths are taken to be readable. *)

Module Loader.

Record reader : Type := mk_reader {
  fieldnames : option (list string);
  rows : list order
}.

(** The attributes [orders] and [headers] of the analyzer. *)
Record state : Type := mk_state {
  orders : list order;
  headers : option (list string)
}.

(** [__init__] *)
Definition init : state := mk_state [] (Some []).

(** Truth value of [row.get('amazon-order-id')]. *)
Definition has_order_id (r : order) : bool :=
  match r !! "amazon-order-id" with
  | Some v => Text.truthy v
  | None => false
  end.

(** Truth value of [self.headers]: [None] and the empty list are false. *)
Definition headers_set (h : option (list string)) : bool :=
  match h with
  | Some (_ :: _) => true
  | _ => false
  end.

Definition _load_file (st : state) (r : reader) : state :=
  let headers := if headers_set (headers st) then headers st else fieldnames r in
  let orders :=
    foldl (fun (orders : list order) r =>
             if has_order_id r then (orders ++ [r])%list else orders)
          (orders st) (rows r) in
  mk_state orders headers.

(** [f.endswith(suffix)] *)
Definition endswith (f suffix : string) : bool :=
  let n := String.length f in
  let m := String.length suffix in
  (m <=? n)%nat && String.eqb (String.substring (n - m) m f) suffix.

(** [load_files]: [matched] is the list [glob.glob] returns and [open_]
    gives the reader of a path. *)
Definition load_files (open_ : string -> reader) (st : state)
    (matched : list string) : state :=
  let files := List.filter (fun f => negb (endswith f "file.txt")) matched in
  foldl (fun st file_path => _load_file st (open_ file_path)) st files.

End Loader.

(** ** The metrics of [_create_insights_slide] (lines 1228-1252)

    The part of the slide that computes: the values it then formats and
    draws. [max] returns the first of the greatest items and raises
    [ValueError] on an empty sequence. *)

Inductive exn : Type := ValueError | ZeroDivisionError.

Definition py_max {A} (key : A -> Q) (l : list A) : exn + A :=
  match l with
  | [] => inl ValueError
  | x :: l' =>
      inr (foldl (fun best y => if Qltb (key best) (key y) then y else best) x l')
  end.

Module Insights.
Record t : Type := mk {
  best_month : string * Month.t;
  success_rate : Q;
  top_country_revenue : string * Q;
  top_product : string * Q;
  avg_order_value : Q
}.
End Insights.

Module Metrics.
Section InsightsMetrics.

Variable float : string -> option Q.
Variable int : string -> option Z.
Variable fromisoformat : string -> option datetime.

Definition country_revenue_body (o : order) (country : string)
    : Try (list (string * Q)) unit :=
  revenue ← eval (float_field float o "item-price");
  modify (od_alter 0%Q (fun total => (total + revenue)%Q) country).

Definition country_revenue_step (country_revenue : list (string * Q))
    (o : order) : list (string * Q) :=
  if bool_decide (o !! "order-status" = Some "Shipped") then
    let country := get o "ship-country" "Unknown" in
    try_except (country_revenue_body o country) country_revenue
  else country_revenue.

Definition insights_metrics (orders : list order) : exn + Insights.t :=
  let summary := get_summary float int orders in
  let products := get_products_summary float int orders in
  let monthly := get_monthly_trends float int fromisoformat orders in
  let shipped := entry 0%nat (Summary.by_status summary) "Shipped" in
  match py_max (fun x => Month.revenue x.2) monthly with
  | inl e => inl e
  | inr best_month =>
      match Summary.total_orders summary with
      | O => inl ZeroDivisionError
      | S _ =>
          let success_rate :=
            (inject_Z (Z.of_nat shipped)
             / inject_Z (Z.of_nat (Summary.total_orders summary)) * 100)%Q in
          let country_revenue := foldl country_revenue_step [] orders in
          let top_country_revenue :=
            match py_max snd country_revenue with
            | inr x => x
            | inl _ => ("N/A", 0%Q)
            end in
          let top_product :=
            match products with
            | p :: _ => (Product.sku p, Product.total_revenue p)
            | [] => ("N/A", 0%Q)
            end in
          let avg_order_value :=
            if (0 <? shipped)%nat
            then (Summary.total_revenue summary / inject_Z (Z.of_nat shipped))%Q
            else 0%Q in
          inr (Insights.mk best_month success_rate top_country_revenue
                 top_product avg_order_value)
      end
  end.

End InsightsMetrics.
End Metrics.

Import Metrics.

(** ** Sample data of the further properties *)

Module Example.

(** Three rows of one export: a shipped, promoted FBA business order of
    March, a shipped merchant order of April, and a cancelled FBA order of
    March. *)
Definition march_amazon : order :=
  row [("amazon-order-id", "405-0000008-0000001"); ("order-status", "Shipped");
       ("fulfillment-channel", "Amazon"); ("is-business-order", "true");
       ("purchase-date", "2024-03-05T10:00:00Z"); ("sku", "A1");
       ("product-name", "Mela"); ("quantity", "2"); ("item-price", "40");
       ("ship-country", "IT"); ("promotion-ids", "P1")].

Definition april_merchant : order :=
  row [("amazon-order-id", "405-0000008-0000002"); ("order-status", "Shipped");
       ("fulfillment-channel", "Merchant");
       ("purchase-date", "2024-04-01T08:30:00Z"); ("sku", "B1");
       ("quantity", "1"); ("item-price", "10"); ("ship-country", "DE")].

Definition march_cancelled : order :=
  row [("amazon-order-id", "405-0000008-0000003"); ("order-status", "Cancelled");
       ("fulfillment-channel", "Amazon");
       ("purchase-date", "2024-03-09T12:00:00Z"); ("sku", "A1");
       ("quantity", "1"); ("item-price", "5"); ("ship-country", "IT")].

Definition orders : list order :=
  [march_amazon; april_merchant; march_cancelled].

(** A row without order id, as the total line of an export. *)
Definition without_id : order :=
  row [("amazon-order-id", EmptyString); ("order-status", "Shipped")].

(** A directory with an empty file and an export. *)
Definition open_ (path : string) : Loader.reader :=
  if String.eqb path "data/empty.txt" then Loader.mk_reader None []
  else Loader.mk_reader
         (Some ["amazon-order-id"; "order-status"; "purchase-date"])
         [march_amazon; without_id; april_merchant].

Definition paths : list string :=
  ["data/empty.txt"; "data/orders.txt"; "data/profile.txt"].

(** The metrics of the insights slide on [orders]. *)
Definition metrics : Insights.t :=
  Insights.mk ("2024-03", Month.mk 2 40 3 1 1 0) (200 # 3)
    ("IT", 40%Q) ("A1", 40%Q) (50 # 2).

End Example.

(** * Properties of the aggregators *)

(** ** Running a [try] block *)

Ltac run_try :=
  unfold try_except, mbind, mret, Try_bind, Try_ret, eval, modify; simpl.

Ltac split_match :=
  match goal with
  | |- context [if ?b then _ else _] => destruct b eqn:?; simpl
  | |- context [match ?x with Some _ => _ | None => _ end] =>
      destruct x eqn:?; simpl
  end.

(** Cases on what the parsers and the tests of a loop body answer for a
    row, before the body is run. *)
Ltac case_inputs :=
  repeat match goal with
  | |- context [String.eqb ?a ?b] => destruct (String.eqb a b) eqn:?
  | |- context [AmazonOrdersAnalyzer.int_field ?i ?o ?k] =>
      destruct (AmazonOrdersAnalyzer.int_field i o k) eqn:?
  | |- context [AmazonOrdersAnalyzer.float_field ?f ?o ?k] =>
      destruct (AmazonOrdersAnalyzer.float_field f o k) eqn:?
  | |- context [Text.truthy ?s] => destruct (Text.truthy s) eqn:?
  | |- context [?f (Text.replace_Z ?s)] =>
      destruct (f (Text.replace_Z s)) eqn:?
  end.

(** ** Loops *)

Lemma foldl_invariant {A B} (P : A -> Prop) (f : A -> B -> A) l a :
  P a -> (forall a b, P a -> P (f a b)) -> P (foldl f a l).
Proof.
  intros Ha Hf. revert a Ha.
  induction l as [|b l IH]; intros a Ha; simpl; auto.
Qed.

Lemma foldl_simulation {A A' B} (R : A -> A' -> Prop)
    (f : A -> B -> A) (g : A' -> B -> A') l a a' :
  R a a' -> (forall a a' b, R a a' -> R (f a b) (g a' b)) ->
  R (foldl f a l) (foldl g a' l).
Proof.
  intros Ha Hf. revert a a' Ha.
  induction l as [|b l IH]; intros a a' Ha; simpl; auto.
Qed.

Lemma foldl_skip {A B} (f : A -> B -> A) l1 b l2 a :
  (forall a, f a b = a) -> foldl f a (l1 ++ b :: l2) = foldl f a (l1 ++ l2).
Proof. intros Hb. rewrite !foldl_app. simpl. now rewrite Hb. Qed.

(** ** Counters *)

Lemma sum_values_incr k d : sum_values (incr k d) = S (sum_values d).
Proof.
  unfold incr, sum_values. destruct (d !! k) as [v|] eqn:Hk; simpl.
  - rewrite <- insert_delete_eq.
    rewrite map_fold_insert_L; [|intros; lia|apply lookup_delete_eq].
    rewrite (map_fold_delete_L _ _ k v d); [|intros; lia|exact Hk].
    reflexivity.
  - rewrite map_fold_insert_L; [reflexivity|intros; lia|exact Hk].
Qed.

Lemma entry_dd_alter {V} (zero : V) f k d k' :
  entry zero (dd_alter zero f k d) k' =
  if decide (k = k') then f (entry zero d k) else entry zero d k'.
Proof.
  unfold entry, dd_alter. rewrite lookup_insert.
  destruct (decide (k = k')); reflexivity.
Qed.

Lemma entry_incr k d k' :
  entry 0%nat (incr k d) k' =
  if decide (k = k') then S (entry 0%nat d k) else entry 0%nat d k'.
Proof.
  unfold entry, incr. rewrite lookup_insert.
  destruct (decide (k = k')); reflexivity.
Qed.

Lemma status_default o d :
  d <> "Shipped" ->
  String.eqb (get o "order-status" d) "Shipped" =
  String.eqb (get o "order-status" EmptyString) "Shipped".
Proof.
  intros Hd. unfold get. destruct (o !! "order-status"); [reflexivity|].
  simpl. now apply String.eqb_neq.
Qed.

(** ** Order of text: [<] on [str] *)

Lemma ltb_lt a b : String.ltb a b = true <-> String_as_OT.lt a b.
Proof.
  rewrite <- String_as_OT.cmp_lt. unfold String.ltb, String_as_OT.cmp.
  destruct (String.compare a b); split; congruence.
Qed.

Lemma ltb_irrefl a : String.ltb a a = false.
Proof.
  destruct (String.ltb a a) eqn:H; [|reflexivity].
  apply ltb_lt, String_as_OT.lt_not_eq in H. now destruct H.
Qed.

Lemma ltb_trans a b c :
  String.ltb a b = true -> String.ltb b c = true -> String.ltb a c = true.
Proof. rewrite !ltb_lt. apply String_as_OT.lt_trans. Qed.

Lemma ltb_total a b : a <> b -> String.ltb a b = false -> String.ltb b a = true.
Proof.
  intros Hne. unfold String.ltb. rewrite (String.compare_antisym b a).
  destruct (String.compare a b) eqn:Hc; simpl; try congruence.
  apply String.compare_eq_iff in Hc. contradiction.
Qed.

Lemma ltb_asym a b : String.ltb a b = true -> String.ltb b a = false.
Proof.
  intros Hab. destruct (String.ltb b a) eqn:Hba; [|reflexivity].
  pose proof (ltb_trans _ _ _ Hab Hba) as H. now rewrite ltb_irrefl in H.
Qed.

Lemma ltb_false_trans a b c :
  String.ltb b a = false -> String.ltb c b = false -> String.ltb c a = false.
Proof.
  intros Hab Hbc. destruct (String.ltb c a) eqn:Hca; [|reflexivity].
  destruct (decide (a = b)) as [->|Hne]; [congruence|].
  pose proof (ltb_total b a (not_eq_sym Hne) Hab) as Hlt.
  pose proof (ltb_trans _ _ _ Hca Hlt). congruence.
Qed.

(** ** The stable sort *)

Section Sorting.

Context {A : Type} (lt : A -> A -> bool).

Lemma insert_sorted_perm x l : insert_sorted lt x l ≡ₚ x :: l.
Proof.
  induction l as [|y l IH]; simpl; [reflexivity|].
  destruct (lt y x); [|reflexivity].
  rewrite IH. apply Permutation_swap.
Qed.

Lemma stable_sort_perm l : stable_sort lt l ≡ₚ l.
Proof.
  induction l as [|x l IH]; simpl; [reflexivity|].
  rewrite insert_sorted_perm. now rewrite IH.
Qed.

Lemma elem_of_stable_sort x l : x ∈ stable_sort lt l <-> x ∈ l.
Proof. now rewrite stable_sort_perm. Qed.

Lemma insert_sorted_before_old x y a l :
  before x y l -> before x y (insert_sorted lt a l).
Proof.
  induction 1 as [l Hy|z l Hb IH]; simpl.
  - destruct (lt x a).
    + apply before_here. rewrite insert_sorted_perm. now constructor.
    + now apply before_later, before_here.
  - destruct (lt z a).
    + now apply before_later.
    + now apply before_later, before_later.
Qed.

Lemma insert_sorted_before_new a y l :
  y ∈ l -> lt y a = false -> before a y (insert_sorted lt a l).
Proof.
  intros Hy Hya. induction l as [|z l IH]; simpl.
  - now apply elem_of_nil in Hy.
  - destruct (lt z a) eqn:Hza.
    + apply before_later, IH.
      apply elem_of_cons in Hy as [->|Hy]; [congruence|exact Hy].
    + now apply before_here.
Qed.

(** Stability: a pair that the order does not invert keeps its order. *)
Lemma stable_sort_before x y l :
  before x y l -> lt y x = false -> before x y (stable_sort lt l).
Proof.
  intros Hb Hyx. induction Hb as [l Hy|z l _ IH]; simpl.
  - apply insert_sorted_before_new; [|exact Hyx].
    now apply elem_of_stable_sort.
  - now apply insert_sorted_before_old.
Qed.

Hypothesis lt_asym : forall a b, lt a b = true -> lt b a = false.
Hypothesis in_order_trans :
  forall a b c, in_order lt a b -> in_order lt b c -> in_order lt a c.

Lemma insert_sorted_sorted x l :
  StronglySorted (in_order lt) l -> StronglySorted (in_order lt) (insert_sorted lt x l).
Proof.
  induction 1 as [|y l Hl IH Hy]; simpl.
  - repeat constructor.
  - destruct (lt y x) eqn:Hyx.
    + constructor; [exact IH|].
      rewrite insert_sorted_perm. constructor; [|exact Hy].
      now apply lt_asym.
    + constructor; [now constructor|].
      constructor; [exact Hyx|].
      eapply Forall_impl; [exact Hy|].
      intros z Hz. now apply (in_order_trans x y z).
Qed.

Lemma stable_sort_sorted l : StronglySorted (in_order lt) (stable_sort lt l).
Proof.
  induction l as [|x l IH]; simpl; [constructor|].
  now apply insert_sorted_sorted.
Qed.

End Sorting.

(** ** Relative positions *)

Lemma before_elem_of {A} (x y : A) l : before x y l -> x ∈ l /\ y ∈ l.
Proof.
  induction 1 as [l Hy|z l _ [IHx IHy]]; split;
    try (constructor; assumption); constructor.
Qed.

Lemma before_app_l {A} (x y : A) l k : before x y l -> before x y (l ++ k).
Proof.
  induction 1 as [l Hy|z l _ IH]; simpl.
  - apply before_here. apply elem_of_app. now left.
  - now apply before_later.
Qed.

Lemma before_snoc {A} (x y : A) l : x ∈ l -> before x y (l ++ [y]).
Proof.
  induction 1 as [x l|x z l _ IH]; simpl.
  - apply before_here. apply elem_of_app. right. constructor.
  - now apply before_later.
Qed.

Lemma before_positions {A B} (f : A -> B) (x y : A) l i j :
  NoDup (f <$> l) -> before x y l -> f x <> f y ->
  l !! i = Some x -> l !! j = Some y -> (i < j)%nat.
Proof.
  intros Hnd Hb Hne. revert i j Hnd.
  induction Hb as [l Hy|z l Hb IH]; intros i j Hnd Hi Hj;
    simpl in Hnd; apply NoDup_cons in Hnd as [Hz Hnd].
  - destruct j as [|j].
    + simpl in Hj. injection Hj as ->. contradiction.
    + destruct i as [|i]; [lia|]. simpl in Hi.
      exfalso. apply Hz. apply list_elem_of_fmap. exists x. split; [reflexivity|].
      eapply list_elem_of_lookup_2. exact Hi.
  - destruct (before_elem_of _ _ _ Hb) as [Hx Hy].
    destruct i as [|i].
    + simpl in Hi. injection Hi as ->.
      exfalso. apply Hz. apply list_elem_of_fmap. now exists x.
    + destruct j as [|j].
      * simpl in Hj. injection Hj as ->.
        exfalso. apply Hz. apply list_elem_of_fmap. now exists y.
      * simpl in Hi, Hj. specialize (IH i j Hnd Hi Hj). lia.
Qed.

Lemma NoDup_fst_unique {V} (d : list (string * V)) k v v' :
  NoDup d.*1 -> (k, v) ∈ d -> (k, v') ∈ d -> v = v'.
Proof.
  induction d as [|[k0 v0] d IH]; simpl; intros Hnd Hv Hv'.
  - now apply elem_of_nil in Hv.
  - apply NoDup_cons in Hnd as [Hk0 Hnd].
    apply elem_of_cons in Hv as [Hv|Hv], Hv' as [Hv'|Hv'].
    + congruence.
    + injection Hv as -> ->. exfalso. apply Hk0.
      apply list_elem_of_fmap. now exists (k0, v').
    + injection Hv' as -> ->. exfalso. apply Hk0.
      apply list_elem_of_fmap. now exists (k0, v).
    + now apply IH.
Qed.

(** The values of a dictionary stand in the order of their keys. *)
Lemma before_keys_values {V} (d : list (string * V)) a b p q :
  NoDup d.*1 -> before a b d.*1 -> (a, p) ∈ d -> (b, q) ∈ d ->
  before p q d.*2.
Proof.
  induction d as [|[k v] d IH]; simpl; intros Hnd Hb Hp Hq.
  - inversion Hb.
  - pose proof Hnd as Hnd'. apply NoDup_cons in Hnd' as [Hk Hnd'].
    inversion Hb as [l Hbl|z l Hb']; subst.
    + assert (p = v) as ->.
      { eapply (NoDup_fst_unique ((k, v) :: d)); [exact Hnd|exact Hp|constructor]. }
      apply before_here.
      apply elem_of_cons in Hq as [Hq|Hq].
      * injection Hq as -> ->. contradiction.
      * apply list_elem_of_fmap. now exists (b, q).
    + destruct (before_elem_of _ _ _ Hb') as [Ha Hb''].
      apply before_later. apply IH; trivial.
      * apply elem_of_cons in Hp as [Hp|Hp]; [|exact Hp].
        injection Hp as -> ->. contradiction.
      * apply elem_of_cons in Hq as [Hq|Hq]; [|exact Hq].
        injection Hq as -> ->. contradiction.
Qed.

Lemma StronglySorted_map {A B} (R : B -> B -> Prop) (f : A -> B) l :
  StronglySorted (fun a b => R (f a) (f b)) l -> StronglySorted R (f <$> l).
Proof.
  induction 1 as [|x l Hl IH Hx]; simpl; constructor; [exact IH|].
  now apply Forall_fmap.
Qed.

Lemma StronglySorted_weaken {A} (R R' : A -> A -> Prop) l :
  (forall x y, R x y -> R' x y) -> StronglySorted R l -> StronglySorted R' l.
Proof.
  intros HR. induction 1 as [|x l Hl IH Hx]; constructor; [exact IH|].
  eapply Forall_impl; [exact Hx|]. intros y. apply HR.
Qed.

Lemma Qltb_false a b : Qltb a b = false <-> (b <= a)%Q.
Proof.
  unfold Qltb. rewrite negb_false_iff. apply Qle_bool_iff.
Qed.

Lemma Qltb_true a b : Qltb a b = true <-> (a < b)%Q.
Proof.
  unfold Qltb. rewrite negb_true_iff. split.
  - intros H. apply Qnot_le_lt. intros Hle.
    apply Qle_bool_iff in Hle. congruence.
  - intros Hlt. destruct (Qle_bool b a) eqn:Hle; [|reflexivity].
    apply Qle_bool_iff in Hle. now apply Qlt_not_le in Hlt.
Qed.

Lemma StronglySorted_strengthen {A} (R R' : A -> A -> Prop) l :
  StronglySorted R l ->
  (forall x y, x ∈ l -> y ∈ l -> x <> y -> R x y -> R' x y) ->
  NoDup l -> StronglySorted R' l.
Proof.
  induction 1 as [|x l Hl IH Hx]; intros HR Hnd; constructor.
  - apply IH; [|now apply NoDup_cons in Hnd].
    intros y z Hy Hz. apply HR; now constructor.
  - apply NoDup_cons in Hnd as [Hxl _].
    rewrite Forall_forall in Hx |- *. intros y Hy.
    apply HR; [constructor|now constructor| |now apply Hx].
    intros ->. contradiction.
Qed.

(** The keys of [dict(sorted(d.items()))] are those of [d], in strictly
    ascending order. *)
Lemma sorted_items_keys_ascending {V} (d : gmap string V) :
  StronglySorted (fun a b => String.ltb a b = true) (sorted_items d).*1.
Proof.
  assert (Hnd : NoDup (sorted_items d).*1).
  { unfold sorted_items. rewrite stable_sort_perm. apply NoDup_fst_map_to_list. }
  apply StronglySorted_strengthen with (R := fun a b => String.ltb b a = false);
    [| |exact Hnd].
  - apply StronglySorted_map. unfold sorted_items.
    apply (stable_sort_sorted (fun a b : string * V => String.ltb a.1 b.1)).
    + intros a b. apply ltb_asym.
    + intros a b c. unfold in_order. apply ltb_false_trans.
  - intros x y _ _ Hne Hxy. now apply ltb_total.
Qed.

Lemma elem_of_sorted_items {V} (d : gmap string V) k v :
  (k, v) ∈ sorted_items d <-> d !! k = Some v.
Proof.
  unfold sorted_items. rewrite elem_of_stable_sort. apply elem_of_map_to_list.
Qed.

(** ** Month keys *)

Lemma is_digit_digit n : is_digit (digit n) = true.
Proof.
  unfold digit. pose proof (Z.mod_pos_bound n 10 eq_refl) as Hr.
  set (r := (n mod 10)%Z) in *.
  assert (H : (r = 0 \/ r = 1 \/ r = 2 \/ r = 3 \/ r = 4 \/ r = 5 \/ r = 6 \/
               r = 7 \/ r = 8 \/ r = 9)%Z) by lia.
  repeat destruct H as [->|H]; try subst r; try rewrite H; reflexivity.
Qed.

Lemma strftime_Ym_pattern dt : is_YYYY_MM (strftime_Ym dt) = true.
Proof.
  cbv [strftime_Ym is_YYYY_MM zero_padded String.append list_ascii_of_string].
  now rewrite !is_digit_digit.
Qed.

(** ** The insertion-ordered dictionary *)

Lemma od_alter_keys {V} (zero : V) f k d :
  (od_alter zero f k d).*1 =
  if decide (k ∈ d.*1) then d.*1 else (d.*1 ++ [k])%list.
Proof.
  induction d as [|[k' v] d IH]; [reflexivity|].
  change (((k', v) :: d).*1) with (k' :: d.*1).
  cbn [od_alter].
  destruct (String.eqb_spec k' k) as [->|Hne].
  - rewrite decide_True by constructor. reflexivity.
  - change (((k', v) :: od_alter zero f k d).*1)
      with (k' :: (od_alter zero f k d).*1).
    rewrite IH. destruct (decide (k ∈ d.*1)) as [Hin|Hin].
    + rewrite decide_True; [reflexivity|now constructor].
    + rewrite decide_False; [reflexivity|].
      intros [Heq|H']%elem_of_cons; [congruence|contradiction].
Qed.

Lemma elem_of_od_alter {V} (zero : V) f k d k' v :
  (k', v) ∈ od_alter zero f k d ->
  (k' = k /\ exists v0, v = f v0) \/ (k', v) ∈ d.
Proof.
  induction d as [|[k0 v0] d IH]; simpl.
  - intros [= -> ->]%list_elem_of_singleton. left. eauto.
  - destruct (String.eqb_spec k0 k) as [->|Hne].
    + intros [[= -> ->]|H]%elem_of_cons; [left; eauto|].
      right. now constructor.
    + intros [[= -> ->]|H]%elem_of_cons; [right; constructor|].
      destruct (IH H) as [?|?]; [now left|right; now constructor].
Qed.

Section Properties.

Variable float : string -> option Q.
Variable int : string -> option Z.
Variable fromisoformat : string -> option datetime.

Abbreviation get_summary := (get_summary float int).
Abbreviation summary_step := (summary_step float int).
Abbreviation get_products_summary := (get_products_summary float int).
Abbreviation get_monthly_trends := (get_monthly_trends float int fromisoformat).
Abbreviation monthly_step := (monthly_step float int fromisoformat).
Abbreviation monthly_table := (monthly_table float int fromisoformat).
Abbreviation get_fba_fbm_analysis := (get_fba_fbm_analysis float int fromisoformat).
Abbreviation fba_fbm_step := (fba_fbm_step float int fromisoformat).
Abbreviation fba_fbm_loop := (fba_fbm_loop float int fromisoformat).
Abbreviation get_business_analysis := (get_business_analysis float int fromisoformat).
Abbreviation business_step := (business_step float int fromisoformat).
Abbreviation business_loop := (business_loop float int fromisoformat).
Abbreviation get_promotions_analysis := (get_promotions_analysis fromisoformat).
Abbreviation promotions_step := (promotions_step fromisoformat).
Abbreviation promotions_loop := (promotions_loop fromisoformat).
Abbreviation get_market_monthly_analysis :=
  (get_market_monthly_analysis float fromisoformat).
Abbreviation float_field := (float_field float).
Abbreviation int_field := (int_field int).

Abbreviation month_key_of := (month_key_of fromisoformat).
Abbreviation counted_once := (counted_once float int).
Abbreviation products_step := (products_step float int).
Abbreviation products_table := (products_table float int).
Abbreviation product_entry_step := (product_entry_step float int).
Abbreviation shipped_price := (shipped_price float).

(** ** The summary *)

Lemma summary_step_counters s o :
  Summary.total_orders (summary_step s o) = Summary.total_orders s /\
  Summary.by_status (summary_step s o) =
    incr (get o "order-status" "Unknown") (Summary.by_status s) /\
  Summary.by_marketplace (summary_step s o) =
    incr (get o "sales-channel" "Unknown") (Summary.by_marketplace s) /\
  Summary.by_country (summary_step s o) =
    incr (get o "ship-country" "Unknown") (Summary.by_country s) /\
  Summary.by_fulfillment (summary_step s o) =
    incr (get o "fulfillment-channel" "Unknown") (Summary.by_fulfillment s).
Proof.
  unfold summary_step, summary_revenue, summary_quantity. run_try.
  repeat split_match; repeat split; reflexivity.
Qed.

Lemma summary_step_revenue s o :
  (Summary.total_revenue (summary_step s o) ==
   Summary.total_revenue s + shipped_price o)%Q.
Proof.
  unfold shipped_price. rewrite <- (status_default o "Unknown") by discriminate.
  unfold summary_step, summary_revenue, summary_quantity. run_try.
  repeat split_match; ring.
Qed.

Lemma summary_total_orders orders :
  Summary.total_orders (get_summary orders) = length orders.
Proof.
  unfold get_summary.
  apply (foldl_invariant (fun s => Summary.total_orders s = length orders));
    [reflexivity|].
  intros s o Hs. now rewrite (proj1 (summary_step_counters s o)).
Qed.

(** C8. On an empty collection every aggregator returns its initial
    structure: all counters and monetary totals are zero, and all grouping
    maps and sequences are empty. The aggregators are total functions, so
    nothing is raised. *)
Theorem empty_input_gives_zero_results :
  get_summary [] = Summary.mk 0 ∅ ∅ ∅ ∅ 0 0 0 0 /\
  get_products_summary [] = [] /\
  get_monthly_trends [] = [] /\
  get_fba_fbm_analysis [] =
    Fulfillment.mk (Class.mk 0 0 0 0) (Class.mk 0 0 0 0) [] [] /\
  get_promotions_analysis [] = Promotions.mk 0%nat ∅ ∅ [] /\
  get_market_monthly_analysis [] = ∅ /\
  get_business_analysis [] =
    Business.mk (Class.mk 0 0 0 0) (Class.mk 0 0 0 0) [] [].
Proof. repeat split; reflexivity. Qed.

(** C5. The counts of ['by_status'] add up to ['total_orders']: every row
    is counted under exactly one status. *)
Theorem by_status_sums_to_total_orders (orders : list order) :
  sum_values (Summary.by_status (get_summary orders)) =
  Summary.total_orders (get_summary orders).
Proof.
  assert (Hgen : forall l s,
    sum_values (Summary.by_status (foldl summary_step s l)) =
    (sum_values (Summary.by_status s) + length l)%nat).
  { induction l as [|o l IH]; intros s; simpl; [lia|].
    rewrite IH. destruct (summary_step_counters s o) as (_ & -> & _).
    rewrite sum_values_incr. lia. }
  rewrite summary_total_orders. unfold get_summary. rewrite Hgen.
  reflexivity.
Qed.

Lemma summary_step_items s o :
  Summary.total_items_sold (summary_step s o) =
  (Summary.total_items_sold s + default 0 (int_field o "quantity"))%Z.
Proof.
  unfold AmazonOrdersAnalyzer.summary_step, summary_revenue, summary_quantity. run_try.
  repeat split_match; lia.
Qed.

Lemma summary_step_with_total_orders n s o :
  summary_step (Summary.with_total_orders n s) o =
  Summary.with_total_orders n (summary_step s o).
Proof.
  unfold AmazonOrdersAnalyzer.summary_step, summary_revenue, summary_quantity. run_try.
  repeat split_match; reflexivity.
Qed.

Lemma summary_loop_with_total_orders n l s :
  foldl summary_step (Summary.with_total_orders n s) l =
  Summary.with_total_orders n (foldl summary_step s l).
Proof.
  revert s. induction l as [|o l IH]; intros s; simpl; [reflexivity|].
  now rewrite summary_step_with_total_orders, IH.
Qed.

(** The summary never reads the purchase date. *)
Lemma summary_step_ignores_date s o d :
  summary_step s (<["purchase-date" := d]> o) = summary_step s o.
Proof.
  unfold AmazonOrdersAnalyzer.summary_step, summary_revenue, summary_quantity,
    AmazonOrdersAnalyzer.float_field, AmazonOrdersAnalyzer.int_field, get.
  now rewrite !lookup_insert_ne by discriminate.
Qed.

Lemma counted_once_step o s : counted_once o (summary_step s o) s.
Proof.
  destruct (summary_step_counters s o) as (_ & Hs & Hm & Hc & Hf).
  unfold counted_once. rewrite Hs, Hm, Hc, Hf.
  split_and!;
    try (intros k; rewrite entry_incr; case_decide; subst; reflexivity).
  - apply summary_step_revenue.
  - apply summary_step_items.
Qed.

Lemma counted_once_preserved o s s' o' :
  counted_once o s s' -> counted_once o (summary_step s o') (summary_step s' o').
Proof.
  intros (Hs & Hm & Hc & Hf & Hr & Hi).
  destruct (summary_step_counters s o') as (_ & Es & Em & Ec & Ef).
  destruct (summary_step_counters s' o') as (_ & Es' & Em' & Ec' & Ef').
  unfold counted_once. rewrite Es, Em, Ec, Ef, Es', Em', Ec', Ef'.
  split_and!;
    try (intros k; rewrite !entry_incr, ?Hs, ?Hm, ?Hc, ?Hf;
         repeat case_decide; subst; congruence).
  - rewrite (summary_step_revenue s o'), (summary_step_revenue s' o'), Hr. ring.
  - rewrite !summary_step_items, Hi. lia.
Qed.

(** ** The two binary classifications *)

Lemma fba_fbm_step_totals a o :
  (Class.orders (Fulfillment.fba (fba_fbm_step a o)) +
   Class.orders (Fulfillment.fbm (fba_fbm_step a o)) =
   S (Class.orders (Fulfillment.fba a) + Class.orders (Fulfillment.fbm a)))%nat /\
  (Class.revenue (Fulfillment.fba (fba_fbm_step a o)) +
   Class.revenue (Fulfillment.fbm (fba_fbm_step a o)) ==
   Class.revenue (Fulfillment.fba a) + Class.revenue (Fulfillment.fbm a) +
   shipped_price o)%Q.
Proof.
  unfold AmazonOrdersAnalyzer.shipped_price, AmazonOrdersAnalyzer.fba_fbm_step,
    fba_fbm_quantity, fba_fbm_revenue.
  case_inputs; unfold Fulfillment.on_category; run_try; split; solve [lia|ring].
Qed.

Lemma business_step_totals a o :
  (Class.orders (Business.business (business_step a o)) +
   Class.orders (Business.consumer (business_step a o)) =
   S (Class.orders (Business.business a) + Class.orders (Business.consumer a)))%nat /\
  (Class.revenue (Business.business (business_step a o)) +
   Class.revenue (Business.consumer (business_step a o)) ==
   Class.revenue (Business.business a) + Class.revenue (Business.consumer a) +
   shipped_price o)%Q.
Proof.
  unfold AmazonOrdersAnalyzer.shipped_price, AmazonOrdersAnalyzer.business_step,
    business_quantity, business_revenue.
  case_inputs; unfold Business.on_category; run_try; split; solve [lia|ring].
Qed.


(** ** The product ranking *)

Lemma product_entry_step_sku o sku status p :
  Product.sku (product_entry_step o sku status p) = sku.
Proof.
  unfold AmazonOrdersAnalyzer.product_entry_step, product_quantity, product_revenue.
  run_try. repeat split_match; reflexivity.
Qed.

Lemma products_step_keys products o :
  (products_step products o).*1 =
  if product_key (sku_of o)
  then if decide (sku_of o ∈ products.*1) then products.*1
       else (products.*1 ++ [sku_of o])%list
  else products.*1.
Proof.
  unfold AmazonOrdersAnalyzer.products_step, product_key, sku_of.
  destruct (negb (Text.truthy _) || _); simpl; [reflexivity|].
  apply od_alter_keys.
Qed.

(** The table of products: distinct keys, all of them kept keys, each
    entry recording its own key as its SKU. *)
Lemma products_table_invariant orders :
  NoDup (products_table orders).*1 /\
  forall k p, (k, p) ∈ products_table orders ->
    Product.sku p = k /\ product_key k = true.
Proof.
  unfold AmazonOrdersAnalyzer.products_table. apply foldl_invariant.
  - split; [constructor|]. intros k p H. now apply elem_of_nil in H.
  - intros T o [Hnd Hent]. split.
    + rewrite products_step_keys.
      destruct (product_key (sku_of o)); [|exact Hnd].
      destruct (decide (sku_of o ∈ T.*1)) as [Hin|Hin]; [exact Hnd|].
      apply NoDup_app. split_and!; [exact Hnd| |apply NoDup_singleton].
      intros k Hk [= ->]%list_elem_of_singleton. contradiction.
    + intros k p. unfold AmazonOrdersAnalyzer.products_step.
      destruct (negb (Text.truthy _) || _) eqn:Hkey; [apply Hent|].
      intros [[-> [p0 ->]]|H]%elem_of_od_alter; [|now apply Hent].
      split; [apply product_entry_step_sku|].
      unfold product_key. now rewrite Hkey.
Qed.

Lemma products_step_ahead a b products o :
  a <> b ->
  before a b products.*1 \/ (a ∈ products.*1 /\ b ∉ products.*1) ->
  before a b (products_step products o).*1 \/
  (a ∈ (products_step products o).*1 /\ b ∉ (products_step products o).*1).
Proof.
  intros Hne H. rewrite products_step_keys.
  destruct (product_key (sku_of o)); [|exact H].
  destruct (decide (sku_of o ∈ products.*1)) as [Hin|Hin]; [exact H|].
  destruct H as [H|[Ha Hb]].
  - left. now apply before_app_l.
  - destruct (decide (sku_of o = b)) as [->|Hk].
    + left. now apply before_snoc.
    + right. split.
      * apply elem_of_app. now left.
      * intros [H|H%list_elem_of_singleton]%elem_of_app; congruence.
Qed.

Lemma appears_first_ahead a b orders : forall products,
  a <> b -> product_key a = true ->
  a ∉ products.*1 -> b ∉ products.*1 ->
  appears_first a b (sku_of <$> orders) = true ->
  before a b (foldl products_step products orders).*1 \/
  (a ∈ (foldl products_step products orders).*1 /\
   b ∉ (foldl products_step products orders).*1).
Proof.
  induction orders as [|o orders IH]; intros T Hne Hkey Ha Hb; simpl;
    [discriminate|].
  destruct (String.eqb_spec (sku_of o) a) as [Hoa|Hoa].
  - intros _. apply foldl_invariant.
    + right. rewrite products_step_keys, Hoa, Hkey.
      rewrite decide_False by exact Ha. split.
      * apply elem_of_app. right. constructor.
      * intros [H|H%list_elem_of_singleton]%elem_of_app; congruence.
    + intros T' o'. now apply products_step_ahead.
  - destruct (String.eqb_spec (sku_of o) b) as [Hob|Hob]; [discriminate|].
    apply IH; trivial; rewrite products_step_keys;
      destruct (product_key (sku_of o)); trivial;
      destruct (decide (sku_of o ∈ T.*1)); trivial;
      intros [H|H%list_elem_of_singleton]%elem_of_app; congruence.
Qed.


(** ** The monthly trend *)

Lemma month_key_of_Some purchase_date month_key :
  month_key_of purchase_date = Some month_key ->
  exists dt, fromisoformat (Text.replace_Z purchase_date) = Some dt /\
             strftime_Ym dt = month_key.
Proof.
  unfold AmazonOrdersAnalyzer.month_key_of.
  destruct (fromisoformat (Text.replace_Z purchase_date)) as [dt|]; simpl;
    [|discriminate].
  intros [= <-]. now exists dt.
Qed.

Lemma monthly_step_keys monthly o :
  map_Forall (fun k _ => is_YYYY_MM k = true) monthly ->
  map_Forall (fun k _ => is_YYYY_MM k = true) (monthly_step monthly o).
Proof.
  intros H. unfold AmazonOrdersAnalyzer.monthly_step, monthly_body. run_try.
  repeat split_match; unfold dd_alter; trivial;
    repeat (apply map_Forall_insert_2; [apply strftime_Ym_pattern|]); exact H.
Qed.

Lemma monthly_step_bounded monthly o :
  (forall k, status_counters_bounded (entry Month.zero monthly k)) ->
  forall k, status_counters_bounded (entry Month.zero (monthly_step monthly o) k).
Proof.
  intros H k. unfold AmazonOrdersAnalyzer.monthly_step, monthly_body. run_try.
  repeat split_match; trivial;
    rewrite !entry_dd_alter; repeat case_decide; try congruence; trivial;
    match goal with
    | |- context [entry Month.zero monthly ?k'] =>
        specialize (H k'); unfold status_counters_bounded in *; simpl; lia
    end.
Qed.


Lemma monthly_step_undated monthly o :
  Text.truthy (get o "purchase-date" EmptyString) = false \/
  fromisoformat (Text.replace_Z (get o "purchase-date" EmptyString)) = None ->
  monthly_step monthly o = monthly.
Proof.
  unfold AmazonOrdersAnalyzer.monthly_step, monthly_body. run_try.
  intros [-> | ->]; simpl; [reflexivity|].
  now destruct (negb _).
Qed.

(** C7. A row whose purchase date is absent or is not read as a date
    leaves the monthly trend as it is without that row, while the summary
    counts it as it counts any row: once in ['total_orders'], once under its
    status, marketplace, country and fulfillment channel, with its revenue
    and its quantity, and the same whatever its purchase date says. *)
Theorem undated_row_only_leaves_monthly_trend (l1 l2 : list order) (o : order) :
  Text.truthy (get o "purchase-date" EmptyString) = false \/
  fromisoformat (Text.replace_Z (get o "purchase-date" EmptyString)) = None ->
  get_monthly_trends (l1 ++ o :: l2) = get_monthly_trends (l1 ++ l2) /\
  Summary.total_orders (get_summary (l1 ++ o :: l2)) =
    S (Summary.total_orders (get_summary (l1 ++ l2))) /\
  counted_once o (get_summary (l1 ++ o :: l2)) (get_summary (l1 ++ l2)) /\
  forall d, get_summary (l1 ++ <["purchase-date" := d]> o :: l2) =
            get_summary (l1 ++ o :: l2).
Proof.
  intros Hdate. split_and!.
  - unfold AmazonOrdersAnalyzer.get_monthly_trends, AmazonOrdersAnalyzer.monthly_table.
    f_equal. apply foldl_skip. intros m. now apply monthly_step_undated.
  - rewrite !summary_total_orders, !length_app. simpl. lia.
  - unfold AmazonOrdersAnalyzer.get_summary.
    change (Summary.init (length (l1 ++ o :: l2)))
      with (Summary.with_total_orders (length (l1 ++ o :: l2)) (Summary.init 0)).
    change (Summary.init (length (l1 ++ l2)))
      with (Summary.with_total_orders (length (l1 ++ l2)) (Summary.init 0)).
    rewrite !summary_loop_with_total_orders, !foldl_app. simpl.
    set (s := foldl summary_step (Summary.init 0) l1).
    assert (H : counted_once o (foldl summary_step (summary_step s o) l2)
                               (foldl summary_step s l2)).
    { apply foldl_simulation; [apply counted_once_step|].
      intros a a' o'. apply counted_once_preserved. }
    exact H.
  - intros d. unfold AmazonOrdersAnalyzer.get_summary.
    rewrite !length_app, !foldl_app. simpl.
    now rewrite summary_step_ignores_date.
Qed.

(** C10. In every month of the trend the counters of shipped, cancelled
    and pending rows add up to at most the order count; a dated row whose
    status is none of the three raises the order count of its month by one
    and leaves the three counters as they were. *)
Theorem monthly_status_counters_bounded (orders : list order) :
  Forall (fun km => status_counters_bounded km.2) (get_monthly_trends orders) /\
  forall (monthly : gmap string Month.t) (o : order) (month_key : string),
    let status := get o "order-status" EmptyString in
    let before := entry Month.zero monthly month_key in
    let after := entry Month.zero (monthly_step monthly o) month_key in
    Text.truthy (get o "purchase-date" EmptyString) = true ->
    month_key_of (get o "purchase-date" EmptyString) = Some month_key ->
    status <> "Shipped" -> status <> "Cancelled" -> status <> "Pending" ->
    Month.orders after = S (Month.orders before) /\
    Month.shipped after = Month.shipped before /\
    Month.cancelled after = Month.cancelled before /\
    Month.pending after = Month.pending before.
Proof.
  split.
  - apply Forall_forall. intros [k m] Hkm. simpl.
    apply elem_of_sorted_items in Hkm.
    assert (Hall : forall k, status_counters_bounded
                     (entry Month.zero (monthly_table orders) k)).
    { unfold AmazonOrdersAnalyzer.monthly_table. apply foldl_invariant.
      - intros k'. unfold entry. rewrite lookup_empty. simpl.
        unfold status_counters_bounded. simpl. lia.
      - intros d o. apply monthly_step_bounded. }
    specialize (Hall k). unfold entry in Hall. now rewrite Hkm in Hall.
  - intros monthly o month_key status before after Hdate Hkey Hs Hc Hp.
    apply month_key_of_Some in Hkey as (dt & Hdt & <-).
    subst before after. unfold AmazonOrdersAnalyzer.monthly_step, monthly_body.
    rewrite Hdate. fold status.
    apply String.eqb_neq in Hs, Hc, Hp. run_try.
    rewrite Hdt, Hs, Hc, Hp. simpl.
    repeat split_match; rewrite ?entry_dd_alter; repeat case_decide;
      try congruence; simpl; auto.
Qed.

(** ** Rows whose price is not read *)

Lemma fba_fbm_step_unparsed_price a o :
  get o "order-status" EmptyString = "Shipped" ->
  float_field o "item-price" = None ->
  fulfillment_one_more
    (String.eqb (get o "fulfillment-channel" "Unknown") "Amazon")
    (fba_fbm_step a o) a.
Proof.
  intros Hs Hp. unfold fulfillment_one_more, AmazonOrdersAnalyzer.fba_fbm_step,
    fba_fbm_quantity, fba_fbm_revenue, Fulfillment.on_category,
    Fulfillment.category.
  rewrite Hs, Hp. run_try.
  repeat split_match; split_and!; reflexivity.
Qed.

Lemma fba_fbm_step_one_more c a a' o :
  fulfillment_one_more c a a' ->
  fulfillment_one_more c (fba_fbm_step a o) (fba_fbm_step a' o).
Proof.
  destruct a as [fba fbm mfba mfbm], a' as [fba' fbm' mfba' mfbm'].
  unfold fulfillment_one_more, Fulfillment.category. simpl.
  intros (-> & -> & Ho).
  unfold AmazonOrdersAnalyzer.fba_fbm_step, fba_fbm_quantity, fba_fbm_revenue.
  destruct c; case_inputs; unfold Fulfillment.on_category; run_try;
    split_and!; congruence.
Qed.

Lemma business_step_unparsed_price a o :
  get o "order-status" EmptyString = "Shipped" ->
  float_field o "item-price" = None ->
  business_one_more
    (String.eqb
       (Text.lower (Text.strip (get o "is-business-order" EmptyString))) "true")
    (business_step a o) a.
Proof.
  intros Hs Hp. unfold business_one_more, AmazonOrdersAnalyzer.business_step,
    business_quantity, business_revenue, Business.on_category,
    Business.category.
  rewrite Hs, Hp. run_try.
  repeat split_match; split_and!; reflexivity.
Qed.

Lemma business_step_one_more c a a' o :
  business_one_more c a a' ->
  business_one_more c (business_step a o) (business_step a' o).
Proof.
  destruct a as [bus con mbus mcon], a' as [bus' con' mbus' mcon'].
  unfold business_one_more, Business.category. simpl.
  intros (-> & -> & Ho).
  unfold AmazonOrdersAnalyzer.business_step, business_quantity, business_revenue.
  destruct c; case_inputs; unfold Business.on_category; run_try;
    split_and!; congruence.
Qed.


(** ** The promotion analysis *)

Lemma promotions_step_total a o :
  Promotions.total_with_promotions (promotions_step a o) =
  (Promotions.total_with_promotions a + if promoted o then 1 else 0)%nat.
Proof.
  unfold AmazonOrdersAnalyzer.promotions_step, promotions_month, promoted.
  run_try. repeat split_match; lia.
Qed.

Lemma promotions_step_promoted a o :
  promoted o = true ->
  (exists n, Promotions.skus_on_promotion (promotions_step a o) !! sku_of o
             = Some (S n)) /\
  (exists e, Promotions.by_promotion_type (promotions_step a o)
               !! Text.strip (get o "promotion-ids" EmptyString) = Some e /\
             sku_of o ∈ Promotions.acc_skus e).
Proof.
  unfold promoted, sku_of. intros Hp.
  unfold AmazonOrdersAnalyzer.promotions_step, promotions_month.
  rewrite Hp. run_try. unfold incr, dd_alter.
  repeat split_match; simpl; rewrite !lookup_insert_eq;
    (split; [eauto|eexists; split; [reflexivity|simpl; set_solver]]).
Qed.

Lemma promotions_step_keeps a o k promo_id :
  (exists n, Promotions.skus_on_promotion a !! k = Some (S n)) /\
  (exists e, Promotions.by_promotion_type a !! promo_id = Some e /\
             k ∈ Promotions.acc_skus e) ->
  (exists n, Promotions.skus_on_promotion (promotions_step a o) !! k = Some (S n)) /\
  (exists e, Promotions.by_promotion_type (promotions_step a o) !! promo_id
               = Some e /\ k ∈ Promotions.acc_skus e).
Proof.
  clear float int. intros [[n Hn] [e [He Hk]]].
  unfold AmazonOrdersAnalyzer.promotions_step, promotions_month.
  run_try. unfold incr, dd_alter.
  repeat split_match; simpl; eauto.
  all: split.
  all: repeat (rewrite lookup_insert; case_decide; subst; simpl);
    try congruence; rewrite ?He, ?Hn; simpl; eauto.
  all: eexists; (split; [reflexivity|simpl; set_solver]).
Qed.


End Properties.

(** * The aggregators on sample rows *)



(** C1 on the code: in the summary a tax that is not a number keeps the
    shipping price of the same row, which is a number, out of
    ['total_shipping']; in the monthly trend a quantity that is not a number
    keeps the price of the same shipped row out of the month's revenue,
    although the row is counted in the month. *)
Lemma unparsed_field_ends_the_try_block :
  float_field Literal.float Sample.bad_tax "item-tax" = None /\
  float_field Literal.float Sample.bad_tax "shipping-price" = Some 5%Q /\
  Summary.total_revenue (get_summary Literal.float Literal.int [Sample.bad_tax])
    = 10%Q /\
  Summary.total_shipping (get_summary Literal.float Literal.int [Sample.bad_tax])
    = 0%Q /\
  int_field Literal.int Sample.bad_quantity "quantity" = None /\
  float_field Literal.float Sample.bad_quantity "item-price" = Some 40%Q /\
  get_monthly_trends Literal.float Literal.int Literal.fromisoformat
    [Sample.bad_quantity] = [("2024-03", Month.mk 1 0 0 1 0 0)].
Proof. vm_compute. repeat split; reflexivity. Qed.


Lemma undated_row_witness :
  Literal.fromisoformat (Text.replace_Z (get Sample.undated "purchase-date" EmptyString))
    = None /\
  get_monthly_trends Literal.float Literal.int Literal.fromisoformat
    [Sample.dated; Sample.undated] =
  get_monthly_trends Literal.float Literal.int Literal.fromisoformat
    [Sample.dated] /\
  Summary.total_orders
    (get_summary Literal.float Literal.int [Sample.dated; Sample.undated]) =
  S (Summary.total_orders (get_summary Literal.float Literal.int [Sample.dated])).
Proof.
  split; [reflexivity|].
  destruct (undated_row_only_leaves_monthly_trend Literal.float Literal.int
              Literal.fromisoformat [Sample.dated] [] Sample.undated)
    as (Hm & Hn & _).
  - right. reflexivity.
  - split; [exact Hm|exact Hn].
Defined.


Lemma monthly_status_counters_witness :
  let before := entry Month.zero (∅ : gmap string Month.t) "2024-03" in
  let after := entry Month.zero
                 (monthly_step Literal.float Literal.int Literal.fromisoformat
                    ∅ Sample.unshipped) "2024-03" in
  Month.orders after = S (Month.orders before) /\
  Month.shipped after = Month.shipped before /\
  Month.cancelled after = Month.cancelled before /\
  Month.pending after = Month.pending before.
Proof.
  apply (proj2 (monthly_status_counters_bounded Literal.float Literal.int
                  Literal.fromisoformat [])
           ∅ Sample.unshipped "2024-03").
  - reflexivity.
  - reflexivity.
  - discriminate.
  - discriminate.
  - discriminate.
Defined.

(** * Further properties *)

Local Open Scope list_scope.

(** ** Loops, counts and sums *)

Lemma foldl_prefix_invariant {A B} (P : list B -> A -> Prop) (f : A -> B -> A) a0 :
  P [] a0 -> (forall l a b, P l a -> P (l ++ [b])%list (f a b)) ->
  forall l, P l (foldl f a0 l).
Proof.
  intros H0 Hstep l. induction l as [|b l IH] using rev_ind; [exact H0|].
  rewrite foldl_app. simpl. now apply Hstep.
Qed.

Lemma foldl_filter {A B} (P : B -> bool) (f : A -> B -> A) l :
  (forall a b, P b = false -> f a b = a) ->
  forall a, foldl f a l = foldl f a (List.filter P l).
Proof.
  intros Hskip. induction l as [|b l IH]; intros a; simpl; [reflexivity|].
  destruct (P b) eqn:Hb; simpl; [apply IH|].
  rewrite Hskip by exact Hb. apply IH.
Qed.

Lemma foldl_permutation {A B} (f : A -> B -> A) l l' :
  (forall a x y, f (f a x) y = f (f a y) x) ->
  l ≡ₚ l' -> forall a, foldl f a l = foldl f a l'.
Proof.
  intros Hcomm. induction 1 as [|x l l' _ IH|x y l|l l' l'' _ IH1 _ IH2];
    intros a; simpl.
  - reflexivity.
  - apply IH.
  - now rewrite Hcomm.
  - now rewrite IH1.
Qed.

Lemma count_rows_snoc P l o :
  count_rows P (l ++ [o]) = (count_rows P l + if P o then 1 else 0)%nat.
Proof.
  unfold count_rows. rewrite List.filter_app, length_app. simpl.
  now destruct (P o).
Qed.

Lemma count_rows_cons P l o :
  count_rows P (o :: l) = ((if P o then 1 else 0) + count_rows P l)%nat.
Proof. unfold count_rows. simpl. now destruct (P o). Qed.

Lemma count_rows_le P l : (count_rows P l <= length l)%nat.
Proof. unfold count_rows. apply List.filter_length_le. Qed.

Lemma count_rows_zero P l :
  count_rows P l = 0%nat <-> forall o, o ∈ l -> P o = false.
Proof.
  induction l as [|o l IH]; simpl.
  - split; [|reflexivity]. intros _ o H. now apply elem_of_nil in H.
  - rewrite count_rows_cons. split.
    + intros H o' [Heq|Ho']%elem_of_cons.
      * subst o'. destruct (P o); [discriminate|reflexivity].
      * apply IH; [|exact Ho']. destruct (P o); [discriminate|exact H].
    + intros H. rewrite (H o) by constructor. simpl.
      apply IH. intros o' Ho'. apply H. now constructor.
Qed.

Lemma sum_values_insert k v (d : gmap string nat) :
  (sum_values (<[k := v]> d) + entry 0%nat d k = sum_values d + v)%nat.
Proof.
  unfold sum_values, entry. destruct (d !! k) as [w|] eqn:Hk; simpl.
  - rewrite <- insert_delete_eq.
    rewrite map_fold_insert_L; [|intros; lia|apply lookup_delete_eq].
    rewrite (map_fold_delete_L _ _ k w d); [|intros; lia|exact Hk]. lia.
  - rewrite map_fold_insert_L; [lia|intros; lia|exact Hk].
Qed.

Lemma sum_values_sorted_items (d : gmap string nat) :
  sum_list (sorted_items d).*2 = sum_values d.
Proof.
  unfold sorted_items, sum_values. rewrite stable_sort_perm, map_fold_foldr.
  induction (map_to_list d) as [|[k v] l IH]; [reflexivity|].
  simpl in *. unfold id at 1. f_equal. exact IH.
Qed.

(** A counter filled by a loop holds, under each key, the number of rows
    counted under it, and no other key. *)
Lemma counter_loop (key_of : order -> string) l k :
  foldl (fun d o => incr (key_of o) d) ∅ l !! k =
  let n := count_rows (fun o => String.eqb (key_of o) k) l in
  if (n =? 0)%nat then None else Some n.
Proof.
  revert k. apply (foldl_prefix_invariant
    (fun l d => forall k, d !! k =
       let n := count_rows (fun o => String.eqb (key_of o) k) l in
       if (n =? 0)%nat then None else Some n)).
  - intros k. apply lookup_empty.
  - intros l' d o IH k. simpl. rewrite count_rows_snoc.
    unfold incr. rewrite lookup_insert.
    destruct (String.eqb_spec (key_of o) k) as [->|Hne].
    + rewrite decide_True by reflexivity. rewrite IH. simpl.
      destruct (count_rows _ l') as [|n]; simpl.
      * reflexivity.
      * rewrite Nat.add_1_r. reflexivity.
    + rewrite decide_False by exact Hne. rewrite IH. simpl.
      now rewrite Nat.add_0_r.
Qed.

Lemma sum_values_counter_loop (key_of : order -> string) l d :
  sum_values (foldl (fun d o => incr (key_of o) d) d l) =
  (sum_values d + length l)%nat.
Proof.
  revert d. induction l as [|o l IH]; intros d; simpl; [lia|].
  rewrite IH, sum_values_incr. lia.
Qed.

Lemma od_get_od_alter {V} (zero : V) f k d k' :
  od_get zero k' (od_alter zero f k d) =
  if decide (k = k') then f (od_get zero k d) else od_get zero k' d.
Proof.
  induction d as [|[k0 v] d IH]; simpl.
  - destruct (String.eqb_spec k k') as [->|Hne].
    + now rewrite decide_True.
    + now rewrite decide_False.
  - destruct (String.eqb_spec k0 k) as [->|Hne]; simpl.
    + destruct (String.eqb_spec k k') as [->|Hne'].
      * now rewrite decide_True.
      * now rewrite decide_False.
    + destruct (String.eqb_spec k0 k') as [->|Hne'].
      * rewrite decide_False by congruence. reflexivity.
      * exact IH.
Qed.

Lemma od_get_elem_of {V} (zero : V) k v d :
  NoDup d.*1 -> (k, v) ∈ d -> od_get zero k d = v.
Proof.
  induction d as [|[k0 v0] d IH]; simpl; intros Hnd Hin.
  - now apply elem_of_nil in Hin.
  - apply NoDup_cons in Hnd as [Hk0 Hnd].
    apply elem_of_cons in Hin as [[= -> ->]|Hin].
    + now rewrite String.eqb_refl.
    + destruct (String.eqb_spec k0 k) as [->|Hne]; [|now apply IH].
      exfalso. apply Hk0. apply list_elem_of_fmap. now exists (k, v).
Qed.

Lemma sum_Z_app f l l' : sum_Z f (l ++ l') = (sum_Z f l + sum_Z f l')%Z.
Proof. induction l as [|o l IH]; simpl; [reflexivity|]. rewrite IH. lia. Qed.

Lemma sum_Q_app f l l' : (sum_Q f (l ++ l') == sum_Q f l + sum_Q f l')%Q.
Proof.
  induction l as [|o l IH]; simpl; [ring|]. rewrite IH. ring.
Qed.

Lemma truthy_false s : Text.truthy s = false -> s = EmptyString.
Proof. now destruct s. Qed.

Lemma first_name_snoc k l o :
  first_name k (l ++ [o]) =
  if Text.truthy (first_name k l) then first_name k l
  else if String.eqb (sku_of o) k && Text.truthy (get o "product-name" "N/A")
       then get o "product-name" "N/A" else EmptyString.
Proof.
  induction l as [|o' l IH]; simpl.
  - now destruct (_ && _).
  - destruct (String.eqb (sku_of o') k) eqn:Hk; simpl; [|exact IH].
    destruct (Text.truthy (get o' "product-name" "N/A")) eqn:Hn; [|exact IH].
    now rewrite Hn.
Qed.

(** A counter filled for the rows that have a key. *)
Lemma counter_loop_opt (key_of : order -> option string) l k :
  foldl (fun d o => match key_of o with Some k => incr k d | None => d end) ∅ l
    !! k =
  let n := count_rows (fun o => bool_decide (key_of o = Some k)) l in
  if (n =? 0)%nat then None else Some n.
Proof.
  revert k. apply (foldl_prefix_invariant
    (fun l d => forall k, d !! k =
       let n := count_rows (fun o => bool_decide (key_of o = Some k)) l in
       if (n =? 0)%nat then None else Some n)).
  - intros k. apply lookup_empty.
  - intros l' d o IH k. simpl. rewrite count_rows_snoc.
    destruct (key_of o) as [k'|] eqn:Hkey.
    + unfold incr. rewrite lookup_insert.
      destruct (decide (k' = k)) as [->|Hne].
      * rewrite bool_decide_true by reflexivity. rewrite IH. simpl.
        destruct (count_rows _ l') as [|n]; simpl; [reflexivity|].
        rewrite Nat.add_1_r. reflexivity.
      * rewrite bool_decide_false by congruence. rewrite IH. simpl.
        now rewrite Nat.add_0_r.
    + rewrite bool_decide_false by discriminate. rewrite IH. simpl.
      now rewrite Nat.add_0_r.
Qed.

Lemma sum_values_counter_loop_opt (key_of : order -> option string) l d :
  sum_values
    (foldl (fun d o => match key_of o with Some k => incr k d | None => d end)
       d l) =
  (sum_values d + count_rows (fun o => bool_decide (is_Some (key_of o))) l)%nat.
Proof.
  revert d. induction l as [|o l IH]; intros d; [simpl; unfold count_rows; simpl; lia|].
  simpl. rewrite IH, count_rows_cons. destruct (key_of o); simpl.
  - rewrite sum_values_incr. lia.
  - lia.
Qed.

Lemma sum_list_with_sorted_items {V} (f : V -> nat) (d : gmap string V) :
  sum_list_with f (sorted_items d).*2 = sum_values (f <$> d).
Proof.
  unfold sorted_items, sum_values.
  rewrite stable_sort_perm, map_fold_fmap, map_fold_foldr.
  induction (map_to_list d) as [|[k v] l IH]; [reflexivity|].
  simpl in *. f_equal. exact IH.
Qed.

Lemma fmap_dd_alter_incr {V} (f : V -> nat) (zero : V) (g : V -> V) k d :
  f zero = 0%nat -> (forall v, f (g v) = S (f v)) ->
  f <$> dd_alter zero g k d = incr k (f <$> d).
Proof.
  intros Hz Hg. unfold dd_alter, incr. rewrite fmap_insert, lookup_fmap, Hg.
  destruct (d !! k); simpl; congruence.
Qed.

Lemma fmap_dd_alter_same {V} (f : V -> nat) (zero : V) (g : V -> V) k d :
  (forall v, f (g v) = f v) -> is_Some (d !! k) ->
  f <$> dd_alter zero g k d = f <$> d.
Proof.
  intros Hg [v Hv]. unfold dd_alter. rewrite fmap_insert, Hv, Hg. simpl.
  apply insert_id. now rewrite lookup_fmap, Hv.
Qed.

Lemma dd_alter_is_Some {V} (zero : V) g k d k' :
  is_Some (dd_alter zero g k d !! k') <-> k = k' \/ is_Some (d !! k').
Proof.
  unfold dd_alter. rewrite lookup_insert. case_decide.
  - split; eauto.
  - split; [now right|]. intros [?|?]; [contradiction|assumption].
Qed.

Ltac eqb_clash :=
  match goal with
  | H1 : String.eqb ?s ?a = true, H2 : String.eqb ?s ?b = true |- _ =>
      apply String.eqb_eq in H1, H2; congruence
  end.

Lemma count_rows_ext P Q l :
  (forall o, P o = Q o) -> count_rows P l = count_rows Q l.
Proof.
  intros H. unfold count_rows. f_equal. now apply List.filter_ext.
Qed.

Lemma sorted_items_keys {V} (d : gmap string V) k :
  k ∈ (sorted_items d).*1 <-> is_Some (d !! k).
Proof.
  split.
  - intros ([k' m] & -> & Hm%elem_of_sorted_items)%list_elem_of_fmap.
    now exists m.
  - intros [m Hm]. apply list_elem_of_fmap. exists (k, m).
    split; [reflexivity|now apply elem_of_sorted_items].
Qed.

Lemma counter_loop_opt_keys (key_of : order -> option string) l k :
  is_Some (foldl (fun d o => match key_of o with
                             | Some k => incr k d
                             | None => d
                             end) ∅ l !! k) <->
  exists o, o ∈ l /\ key_of o = Some k.
Proof.
  rewrite counter_loop_opt. simpl.
  destruct (count_rows _ l =? 0)%nat eqn:Hz.
  - apply Nat.eqb_eq in Hz. split; [intros [? ?]; discriminate|].
    intros (o & Ho & Hk). exfalso.
    pose proof (proj1 (count_rows_zero _ _) Hz o Ho) as Hf. simpl in Hf.
    now rewrite bool_decide_true in Hf.
  - split; [intros _|eauto]. apply Nat.eqb_neq in Hz.
    destruct (List.filter (fun o => bool_decide (key_of o = Some k)) l)
      as [|o l'] eqn:Hf; [unfold count_rows in Hz; now rewrite Hf in Hz|].
    assert (Hin : List.In o (List.filter
              (fun o => bool_decide (key_of o = Some k)) l))
      by (rewrite Hf; now left).
    apply List.filter_In in Hin as [Hin Hk]. exists o. split.
    + now apply list_elem_of_In.
    + now apply bool_decide_eq_true in Hk.
Qed.

Lemma counter_loop_opt_positive (key_of : order -> option string) l k n :
  foldl (fun d o => match key_of o with Some k => incr k d | None => d end) ∅ l
    !! k = Some n -> (1 <= n)%nat.
Proof.
  rewrite counter_loop_opt. simpl.
  destruct (count_rows _ l =? 0)%nat eqn:Hz; [discriminate|].
  intros [= <-]. apply Nat.eqb_neq in Hz. lia.
Qed.

Lemma incr_comm k1 k2 (d : gmap string nat) :
  incr k1 (incr k2 d) = incr k2 (incr k1 d).
Proof.
  apply map_eq. intros i. unfold incr.
  rewrite !lookup_insert. repeat case_decide; subst; try congruence;
    rewrite ?lookup_insert_eq, ?lookup_insert_ne by congruence; reflexivity.
Qed.

Lemma promotion_update_comm k1 s1 k2 s2 (d : gmap string Promotions.acc) :
  dd_alter Promotions.acc_zero (Promotions.add_sku s1) k1
    (dd_alter Promotions.acc_zero Promotions.incr_count k1
       (dd_alter Promotions.acc_zero (Promotions.add_sku s2) k2
          (dd_alter Promotions.acc_zero Promotions.incr_count k2 d))) =
  dd_alter Promotions.acc_zero (Promotions.add_sku s2) k2
    (dd_alter Promotions.acc_zero Promotions.incr_count k2
       (dd_alter Promotions.acc_zero (Promotions.add_sku s1) k1
          (dd_alter Promotions.acc_zero Promotions.incr_count k1 d))).
Proof.
  apply map_eq. intros i. unfold dd_alter.
  repeat (rewrite lookup_insert; case_decide; subst; simpl);
    try congruence; try reflexivity.
  unfold Promotions.add_sku, Promotions.incr_count. simpl.
  do 2 f_equal. set_solver.
Qed.

(** [max] returns the first of the greatest items. *)
Lemma py_max_inr {A} (key : A -> Q) l b :
  py_max key l = inr b ->
  exists l1 l2, l = l1 ++ b :: l2 /\
    Forall (fun x => (key x < key b)%Q) l1 /\
    Forall (fun x => (key x <= key b)%Q) l2.
Proof.
  destruct l as [|x l]; [discriminate|]. simpl. intros [= <-].
  apply (foldl_prefix_invariant
    (fun l best => exists l1 l2, x :: l = l1 ++ best :: l2 /\
       Forall (fun y => (key y < key best)%Q) l1 /\
       Forall (fun y => (key y <= key best)%Q) l2)).
  - exists [], []. split_and!; [reflexivity|constructor|constructor].
  - intros l' best y (l1 & l2 & Heq & H1 & H2).
    destruct (Qltb (key best) (key y)) eqn:Hlt.
    + apply Qltb_true in Hlt. exists (l1 ++ best :: l2), [].
      split_and!.
      * change (x :: l' ++ [y]) with ((x :: l') ++ [y]). now rewrite Heq.
      * apply Forall_app. split.
        -- eapply Forall_impl; [exact H1|]. intros z Hz. simpl in Hz.
           eapply Qlt_trans; eassumption.
        -- constructor; [exact Hlt|].
           eapply Forall_impl; [exact H2|]. intros z Hz. simpl in Hz.
           eapply Qle_lt_trans; eassumption.
      * constructor.
    + apply Qltb_false in Hlt. exists l1, (l2 ++ [y]). split_and!.
      * change (x :: l' ++ [y]) with ((x :: l') ++ [y]). rewrite Heq.
        now rewrite <- app_assoc.
      * exact H1.
      * apply Forall_app. split; [exact H2|]. constructor; [exact Hlt|constructor].
Qed.

Lemma py_max_inl {A} (key : A -> Q) l e :
  py_max key l = inl e <-> l = [] /\ e = ValueError.
Proof.
  destruct l; simpl; split.
  - now intros [= <-].
  - now intros [_ ->].
  - discriminate.
  - intros [? _]. discriminate.
Qed.

Lemma od_alter_NoDup {V} (zero : V) f k d :
  NoDup d.*1 -> NoDup (od_alter zero f k d).*1.
Proof.
  intros Hnd. rewrite od_alter_keys. destruct (decide (k ∈ d.*1)); [exact Hnd|].
  apply NoDup_app. split_and!; [exact Hnd| |apply NoDup_singleton].
  intros x Hx ->%list_elem_of_singleton. contradiction.
Qed.

Lemma od_get_lookup {V} (zero : V) k d :
  k ∈ d.*1 -> (k, od_get zero k d) ∈ d.
Proof.
  induction d as [|[k0 v0] d IH]; simpl.
  - intros H. now apply elem_of_nil in H.
  - destruct (String.eqb_spec k0 k) as [->|Hne].
    + intros _. constructor.
    + intros [?|H]%elem_of_cons; [congruence|]. constructor. now apply IH.
Qed.

Lemma StronglySorted_app_r {A} (R : A -> A -> Prop) l1 l2 :
  StronglySorted R (l1 ++ l2) -> StronglySorted R l2.
Proof.
  induction l1 as [|x l1 IH]; simpl; [auto|].
  intros [H _]%StronglySorted_inv. auto.
Qed.

Section Further.

Variable float : string -> option Q.
Variable int : string -> option Z.
Variable fromisoformat : string -> option datetime.

Abbreviation get_summary := (get_summary float int).
Abbreviation summary_step := (summary_step float int).
Abbreviation get_products_summary := (get_products_summary float int).
Abbreviation products_step := (products_step float int).
Abbreviation products_table := (products_table float int).
Abbreviation product_entry_step := (product_entry_step float int).
Abbreviation get_monthly_trends := (get_monthly_trends float int fromisoformat).
Abbreviation monthly_step := (monthly_step float int fromisoformat).
Abbreviation monthly_table := (monthly_table float int fromisoformat).
Abbreviation get_fba_fbm_analysis := (get_fba_fbm_analysis float int fromisoformat).
Abbreviation fba_fbm_step := (fba_fbm_step float int fromisoformat).
Abbreviation fba_fbm_loop := (fba_fbm_loop float int fromisoformat).
Abbreviation get_business_analysis := (get_business_analysis float int fromisoformat).
Abbreviation business_step := (business_step float int fromisoformat).
Abbreviation business_loop := (business_loop float int fromisoformat).
Abbreviation get_promotions_analysis := (get_promotions_analysis fromisoformat).
Abbreviation promotions_step := (promotions_step fromisoformat).
Abbreviation promotions_loop := (promotions_loop fromisoformat).
Abbreviation get_market_monthly_analysis :=
  (get_market_monthly_analysis float fromisoformat).
Abbreviation market_monthly_step := (market_monthly_step float fromisoformat).
Abbreviation float_field := (float_field float).
Abbreviation int_field := (int_field int).
Abbreviation month_key_of := (month_key_of fromisoformat).
Abbreviation shipped_price := (shipped_price float).
Abbreviation quantity_of := (quantity_of int).
Abbreviation tax_of := (tax_of float).
Abbreviation shipping_of := (shipping_of float).
Abbreviation trend_revenue_of := (trend_revenue_of float int).
Abbreviation month_of := (month_of fromisoformat).
Abbreviation in_month := (in_month fromisoformat).
Abbreviation is_dated := (is_dated fromisoformat).
Abbreviation in_sub_series := (in_sub_series float fromisoformat).
Abbreviation insights_metrics := (insights_metrics float int fromisoformat).
Abbreviation country_revenue_step := (country_revenue_step float).

(** ** The summary, continued *)

Lemma summary_loop_counters l s :
  Summary.by_status (foldl summary_step s l) =
    foldl (fun d o => incr (get o "order-status" "Unknown") d)
          (Summary.by_status s) l /\
  Summary.by_marketplace (foldl summary_step s l) =
    foldl (fun d o => incr (get o "sales-channel" "Unknown") d)
          (Summary.by_marketplace s) l /\
  Summary.by_country (foldl summary_step s l) =
    foldl (fun d o => incr (get o "ship-country" "Unknown") d)
          (Summary.by_country s) l /\
  Summary.by_fulfillment (foldl summary_step s l) =
    foldl (fun d o => incr (get o "fulfillment-channel" "Unknown") d)
          (Summary.by_fulfillment s) l.
Proof.
  revert s. induction l as [|o l IH]; intros s; simpl; [auto|].
  destruct (IH (summary_step s o)) as (-> & -> & -> & ->).
  destruct (summary_step_counters float int s o) as (_ & -> & -> & -> & ->).
  auto.
Qed.

(** X1. The counts per marketplace, per country and per fulfillment
    channel each add up to ['total_orders']. *)
Theorem summary_counters_sum_to_total_orders (orders : list order) :
  let summary := get_summary orders in
  sum_values (Summary.by_marketplace summary) = Summary.total_orders summary /\
  sum_values (Summary.by_country summary) = Summary.total_orders summary /\
  sum_values (Summary.by_fulfillment summary) = Summary.total_orders summary.
Proof.
  simpl. rewrite summary_total_orders. unfold AmazonOrdersAnalyzer.get_summary.
  destruct (summary_loop_counters orders (Summary.init (length orders)))
    as (_ & -> & -> & ->).
  rewrite !sum_values_counter_loop. simpl. auto.
Qed.

(** X2. Each counter of the summary holds, under a key, the number of
    rows with that value in its column, a row without the column counting
    under ["Unknown"]; a value no row has is not a key. *)
Theorem summary_counters_count_rows (orders : list order) (k : string) :
  let summary := get_summary orders in
  let counted key :=
    let n := count_rows (has_value key "Unknown" k) orders in
    if (n =? 0)%nat then None else Some n in
  Summary.by_status summary !! k = counted "order-status" /\
  Summary.by_marketplace summary !! k = counted "sales-channel" /\
  Summary.by_country summary !! k = counted "ship-country" /\
  Summary.by_fulfillment summary !! k = counted "fulfillment-channel".
Proof.
  simpl. unfold AmazonOrdersAnalyzer.get_summary.
  destruct (summary_loop_counters orders (Summary.init (length orders)))
    as (-> & -> & -> & ->).
  simpl. split_and!; apply counter_loop.
Qed.

Lemma summary_step_tax s o :
  (Summary.total_tax (summary_step s o) == Summary.total_tax s + tax_of o)%Q.
Proof.
  unfold Rows.tax_of, is_shipped.
  rewrite <- (status_default o "Unknown") by discriminate.
  unfold AmazonOrdersAnalyzer.summary_step, summary_revenue, summary_quantity.
  case_inputs; run_try; ring.
Qed.

Lemma summary_step_shipping s o :
  (Summary.total_shipping (summary_step s o) ==
   Summary.total_shipping s + shipping_of o)%Q.
Proof.
  unfold Rows.shipping_of, is_shipped.
  rewrite <- (status_default o "Unknown") by discriminate.
  unfold AmazonOrdersAnalyzer.summary_step, summary_revenue, summary_quantity.
  case_inputs; run_try; ring.
Qed.

Lemma summary_loop_totals l s :
  (Summary.total_revenue (foldl summary_step s l) ==
     Summary.total_revenue s + sum_Q shipped_price l)%Q /\
  (Summary.total_tax (foldl summary_step s l) ==
     Summary.total_tax s + sum_Q tax_of l)%Q /\
  (Summary.total_shipping (foldl summary_step s l) ==
     Summary.total_shipping s + sum_Q shipping_of l)%Q /\
  Summary.total_items_sold (foldl summary_step s l) =
     (Summary.total_items_sold s + sum_Z quantity_of l)%Z.
Proof.
  revert s. induction l as [|o l IH]; intros s; simpl.
  - split_and!; first [ring|lia].
  - destruct (IH (summary_step s o)) as (Hr & Ht & Hs & Hi).
    split_and!.
    + rewrite Hr, summary_step_revenue. ring.
    + rewrite Ht, summary_step_tax. ring.
    + rewrite Hs, summary_step_shipping. ring.
    + rewrite Hi, summary_step_items. unfold Rows.quantity_of. lia.
Qed.

(** X3. The four totals of the summary in closed form: the revenue is the
    sum of the prices of the shipped rows whose price is read; the tax of a
    row is added only when its price is read, its shipping price only when
    price and tax are both read; the items are the sum of the quantities
    that are read, over all rows. *)
Theorem summary_totals_closed_form (orders : list order) :
  let summary := get_summary orders in
  (Summary.total_revenue summary == sum_Q shipped_price orders)%Q /\
  (Summary.total_tax summary == sum_Q tax_of orders)%Q /\
  (Summary.total_shipping summary == sum_Q shipping_of orders)%Q /\
  Summary.total_items_sold summary = sum_Z quantity_of orders.
Proof.
  simpl. unfold AmazonOrdersAnalyzer.get_summary.
  destruct (summary_loop_totals orders (Summary.init (length orders)))
    as (Hr & Ht & Hs & Hi).
  simpl in *. split_and!.
  - rewrite Hr. ring.
  - rewrite Ht. ring.
  - rewrite Hs. ring.
  - rewrite Hi. lia.
Qed.

(** ** The product table, continued *)

Lemma product_entry_step_fields o sku p :
  let p' := product_entry_step o sku (get o "order-status" EmptyString) p in
  Product.orders_count p' = S (Product.orders_count p) /\
  Product.total_quantity p' = (Product.total_quantity p + quantity_of o)%Z /\
  (Product.total_revenue p' == Product.total_revenue p + shipped_price o)%Q /\
  Product.name p' =
    if Text.truthy (Product.name p) then Product.name p
    else get o "product-name" "N/A".
Proof.
  unfold AmazonOrdersAnalyzer.product_entry_step, product_quantity,
    product_revenue, AmazonOrdersAnalyzer.shipped_price, Rows.quantity_of.
  case_inputs; run_try; split_and!; try reflexivity; try lia; ring.
Qed.

Lemma products_step_od_get products o k :
  od_get Product.zero k (products_step products o) =
  if product_key (sku_of o) && String.eqb (sku_of o) k
  then product_entry_step o k (get o "order-status" EmptyString)
         (od_get Product.zero k products)
  else od_get Product.zero k products.
Proof.
  unfold AmazonOrdersAnalyzer.products_step, product_key, sku_of.
  destruct (negb (Text.truthy _) || _); simpl; [reflexivity|].
  rewrite od_get_od_alter.
  destruct (String.eqb_spec (get o "sku" "Unknown") k) as [->|Hne].
  - now rewrite decide_True.
  - now rewrite decide_False.
Qed.

Lemma products_table_keys orders k :
  k ∈ (products_table orders).*1 <->
  product_key k = true /\ exists o, o ∈ orders /\ sku_of o = k.
Proof.
  unfold AmazonOrdersAnalyzer.products_table.
  apply (foldl_prefix_invariant (fun l (T : list (string * Product.t)) =>
    k ∈ T.*1 <-> product_key k = true /\ exists o, o ∈ l /\ sku_of o = k)).
  - split; [intros H; now apply elem_of_nil in H|].
    intros [_ (o & H & _)]. now apply elem_of_nil in H.
  - intros l T o IH. rewrite products_step_keys.
    assert (Hsnoc : (exists o', o' ∈ l ++ [o] /\ sku_of o' = k) <->
                    (exists o', o' ∈ l /\ sku_of o' = k) \/ sku_of o = k).
    { split.
      - intros (o' & [H|H%list_elem_of_singleton]%elem_of_app & Hk);
          [left; eauto|right; congruence].
      - intros [(o' & H & Hk)|Hk].
        + exists o'. split; [apply elem_of_app; now left|exact Hk].
        + exists o. split; [apply elem_of_app; right; constructor|exact Hk]. }
    rewrite Hsnoc. clear Hsnoc.
    destruct (product_key (sku_of o)) eqn:Hkey.
    + destruct (decide (sku_of o ∈ T.*1)) as [Hin|Hin].
      * rewrite IH. split; [intros [? ?]; auto|].
        intros [Hk [H|H]]; [auto|]. subst k. now apply IH.
      * rewrite elem_of_app, list_elem_of_singleton, IH. split.
        -- intros [[? ?]| ->]; auto.
        -- intros [Hk [H|H]]; auto.
    + rewrite IH. split; [intros [? ?]; auto|].
      intros [Hk [H|H]]; [auto|]. congruence.
Qed.

Lemma products_ranking_table orders p :
  p ∈ get_products_summary orders ->
  product_key (Product.sku p) = true /\
  od_get Product.zero (Product.sku p) (products_table orders) = p.
Proof.
  unfold AmazonOrdersAnalyzer.get_products_summary.
  intros Hp. apply elem_of_stable_sort in Hp.
  apply list_elem_of_fmap in Hp as ([k v] & -> & Hkv). simpl.
  destruct (products_table_invariant float int orders) as [Hnd Hent].
  destruct (Hent k v Hkv) as [-> Hkey]. split; [exact Hkey|].
  now apply od_get_elem_of.
Qed.

(** X4. The SKUs of the product ranking are pairwise distinct, and they
    are exactly the SKUs of the rows that are neither empty nor
    ["Unknown"], a row without SKU column counting as ["Unknown"]. *)
Theorem product_ranking_skus (orders : list order) :
  let ranking := get_products_summary orders in
  NoDup (Product.sku <$> ranking) /\
  forall k, k ∈ Product.sku <$> ranking <->
            product_key k = true /\ exists o, o ∈ orders /\ sku_of o = k.
Proof.
  simpl. unfold AmazonOrdersAnalyzer.get_products_summary.
  destruct (products_table_invariant float int orders) as [Hnd Hent].
  assert (Hsku : Product.sku <$> (products_table orders).*2 =
                 (products_table orders).*1).
  { rewrite <- list_fmap_compose. apply list_fmap_ext.
    intros n [k v] Hn. simpl.
    apply (Hent k v). eapply list_elem_of_lookup_2. exact Hn. }
  split.
  - rewrite stable_sort_perm, Hsku. exact Hnd.
  - intros k. rewrite stable_sort_perm, Hsku. apply products_table_keys.
Qed.

Lemma products_table_entries orders k :
  product_key k = true ->
  let p := od_get Product.zero k (products_table orders) in
  let rows := List.filter (has_value "sku" "Unknown" k) orders in
  Product.orders_count p = length rows /\
  Product.total_quantity p = sum_Z quantity_of rows /\
  (Product.total_revenue p == sum_Q shipped_price rows)%Q /\
  Product.name p = first_name k orders.
Proof.
  intros Hkey. unfold AmazonOrdersAnalyzer.products_table.
  apply (foldl_prefix_invariant (fun l (T : list (string * Product.t)) =>
    let p := od_get Product.zero k T in
    let rows := List.filter (has_value "sku" "Unknown" k) l in
    Product.orders_count p = length rows /\
    Product.total_quantity p = sum_Z quantity_of rows /\
    (Product.total_revenue p == sum_Q shipped_price rows)%Q /\
    Product.name p = first_name k l)).
  - simpl. split_and!; reflexivity.
  - intros l T o (Hc & Hq & Hr & Hn). simpl.
    rewrite products_step_od_get, List.filter_app, first_name_snoc.
    cbn [List.filter].
    change (has_value "sku" "Unknown" k o) with (String.eqb (sku_of o) k).
    destruct (String.eqb_spec (sku_of o) k) as [Hk|Hk]; simpl.
    + rewrite Hk, Hkey. simpl.
      destruct (product_entry_step_fields o k (od_get Product.zero k T))
        as (Ec & Eq & Er & En).
      split_and!.
      * rewrite Ec, Hc, length_app. simpl. lia.
      * rewrite Eq, Hq, sum_Z_app. simpl. lia.
      * rewrite Er, Hr, sum_Q_app. simpl. ring.
      * rewrite En, Hn.
        destruct (Text.truthy (first_name k l)); [reflexivity|].
        destruct (Text.truthy (get o "product-name" "N/A")) eqn:Ht;
          [reflexivity|]. now apply truthy_false.
    + rewrite andb_false_r, app_nil_r.
      split_and!; trivial.
      rewrite Hn.
      destruct (Text.truthy (first_name k l)) eqn:Ht; [reflexivity|].
      now apply truthy_false.
Qed.

(** X5. Each product of the ranking carries the number of rows of its
    SKU, the sum of their quantities that are read, and the sum of the
    prices of those of them that are shipped and whose price is read. *)
Theorem product_totals_per_sku (orders : list order) (p : Product.t) :
  p ∈ get_products_summary orders ->
  let rows := List.filter (has_value "sku" "Unknown" (Product.sku p)) orders in
  Product.orders_count p = length rows /\
  Product.total_quantity p = sum_Z quantity_of rows /\
  (Product.total_revenue p == sum_Q shipped_price rows)%Q.
Proof.
  intros Hp. destruct (products_ranking_table orders p Hp) as [Hkey Hget].
  destruct (products_table_entries orders (Product.sku p) Hkey)
    as (Hc & Hq & Hr & _).
  rewrite Hget in Hc, Hq, Hr. auto.
Qed.

(** X6. The name of a product is the first non-empty product name among
    the rows of its SKU, in the order of the rows; a row without the column
    reads as ['N/A'], and the name is empty when all its rows have an empty
    name. *)
Theorem product_name_first_seen (orders : list order) (p : Product.t) :
  p ∈ get_products_summary orders ->
  Product.name p = first_name (Product.sku p) orders.
Proof.
  intros Hp. destruct (products_ranking_table orders p Hp) as [Hkey Hget].
  destruct (products_table_entries orders (Product.sku p) Hkey)
    as (_ & _ & _ & Hn).
  now rewrite Hget in Hn.
Qed.

(** ** The monthly trend, continued *)

Lemma monthly_step_entry m o k :
  let e := entry Month.zero m k in
  let e' := entry Month.zero (monthly_step m o) k in
  if in_month k o then
    Month.orders e' = S (Month.orders e) /\
    Month.shipped e' = (Month.shipped e + if is_shipped o then 1 else 0)%nat /\
    Month.cancelled e' =
      (Month.cancelled e + if is_cancelled o then 1 else 0)%nat /\
    Month.pending e' =
      (Month.pending e +
       if has_value "order-status" EmptyString "Pending" o then 1 else 0)%nat /\
    Month.items e' = (Month.items e + quantity_of o)%Z /\
    (Month.revenue e' == Month.revenue e + trend_revenue_of o)%Q
  else e' = e.
Proof.
  unfold Rows.in_month, Rows.month_of, AmazonOrdersAnalyzer.month_key_of,
    AmazonOrdersAnalyzer.monthly_step, monthly_body, is_shipped, is_cancelled,
    has_value, Rows.quantity_of, Rows.trend_revenue_of,
    AmazonOrdersAnalyzer.shipped_price.
  case_inputs; run_try; try eqb_clash;
    rewrite ?entry_dd_alter; try case_bool_decide; repeat case_decide;
    try congruence; try subst k; simpl; try reflexivity;
    split_and!; solve [lia|ring].
Qed.

Lemma monthly_step_orders m o :
  Month.orders <$> monthly_step m o =
  match month_of o with
  | Some k => incr k (Month.orders <$> m)
  | None => Month.orders <$> m
  end.
Proof.
  unfold Rows.month_of, AmazonOrdersAnalyzer.month_key_of,
    AmazonOrdersAnalyzer.monthly_step, monthly_body.
  case_inputs; run_try; try reflexivity;
    repeat (rewrite fmap_dd_alter_same;
            [|intros []; reflexivity|apply dd_alter_is_Some; now left]);
    (apply fmap_dd_alter_incr; [reflexivity|intros []; reflexivity]).
Qed.

Lemma monthly_table_orders orders :
  Month.orders <$> monthly_table orders =
  foldl (fun d o => match month_of o with Some k => incr k d | None => d end)
        ∅ orders.
Proof.
  unfold AmazonOrdersAnalyzer.monthly_table.
  apply (foldl_simulation (fun m d => Month.orders <$> m = d)).
  - apply fmap_empty.
  - intros m d o <-. apply monthly_step_orders.
Qed.

Lemma monthly_table_entries orders k :
  let e := entry Month.zero (monthly_table orders) k in
  let rows := List.filter (in_month k) orders in
  Month.orders e = length rows /\
  Month.shipped e = count_rows is_shipped rows /\
  Month.cancelled e = count_rows is_cancelled rows /\
  Month.pending e =
    count_rows (has_value "order-status" EmptyString "Pending") rows /\
  Month.items e = sum_Z quantity_of rows /\
  (Month.revenue e == sum_Q trend_revenue_of rows)%Q.
Proof.
  unfold AmazonOrdersAnalyzer.monthly_table.
  apply (foldl_prefix_invariant (fun l (T : gmap string Month.t) =>
    let e := entry Month.zero T k in
    let rows := List.filter (in_month k) l in
    Month.orders e = length rows /\
    Month.shipped e = count_rows is_shipped rows /\
    Month.cancelled e = count_rows is_cancelled rows /\
    Month.pending e =
      count_rows (has_value "order-status" EmptyString "Pending") rows /\
    Month.items e = sum_Z quantity_of rows /\
    (Month.revenue e == sum_Q trend_revenue_of rows)%Q)).
  - simpl. unfold entry. rewrite lookup_empty. simpl.
    split_and!; reflexivity.
  - intros l T o (Ho & Hs & Hc & Hp & Hi & Hr). simpl.
    pose proof (monthly_step_entry T o k) as Hstep. simpl in Hstep.
    rewrite List.filter_app. cbn [List.filter].
    destruct (in_month k o).
    + destruct Hstep as (Eo & Es & Ec & Ep & Ei & Er).
      rewrite !count_rows_snoc, length_app, sum_Z_app, sum_Q_app.
      rewrite Eo, Es, Ec, Ep, Ei, Er, Ho, Hs, Hc, Hp, Hi, Hr. simpl.
      split_and!; solve [lia|ring].
    + rewrite Hstep, app_nil_r. split_and!; assumption.
Qed.

(** X7. Each month of the trend carries the number of rows filed under
    it, which is at least one, how many of them are shipped, cancelled and
    pending, the sum of their quantities that are read, and the sum of the
    prices of those of them that are shipped and whose quantity and price
    are both read. *)
Theorem monthly_trend_entries (orders : list order) (k : string) (m : Month.t) :
  (k, m) ∈ get_monthly_trends orders ->
  let rows := List.filter (in_month k) orders in
  (1 <= Month.orders m)%nat /\
  Month.orders m = length rows /\
  Month.shipped m = count_rows is_shipped rows /\
  Month.cancelled m = count_rows is_cancelled rows /\
  Month.pending m =
    count_rows (has_value "order-status" EmptyString "Pending") rows /\
  Month.items m = sum_Z quantity_of rows /\
  (Month.revenue m == sum_Q trend_revenue_of rows)%Q.
Proof.
  unfold AmazonOrdersAnalyzer.get_monthly_trends.
  intros Hkm%elem_of_sorted_items.
  pose proof (monthly_table_entries orders k) as Hent.
  unfold entry in Hent. rewrite Hkm in Hent. simpl in Hent.
  split; [|exact Hent].
  pose proof (monthly_table_orders orders) as Hord.
  assert (Hk : (Month.orders <$> monthly_table orders) !! k
               = Some (Month.orders m)) by now rewrite lookup_fmap, Hkm.
  rewrite Hord, counter_loop_opt in Hk. simpl in Hk.
  destruct (count_rows _ orders =? 0)%nat eqn:Hz; [discriminate|].
  injection Hk as <-. apply Nat.eqb_neq in Hz. lia.
Qed.

(** X8. The months of the trend are exactly the months of the rows whose
    purchase date is read, and their order counts add up to the number of
    those rows. *)
Theorem monthly_trend_months (orders : list order) :
  let trend := get_monthly_trends orders in
  (forall k, k ∈ trend.*1 <-> exists o, o ∈ orders /\ month_of o = Some k) /\
  sum_list_with Month.orders trend.*2 = count_rows is_dated orders /\
  (count_rows is_dated orders <= length orders)%nat.
Proof.
  simpl. unfold AmazonOrdersAnalyzer.get_monthly_trends. split_and!.
  - intros k.
    assert (Hkey : k ∈ (sorted_items (monthly_table orders)).*1 <->
                   is_Some ((Month.orders <$> monthly_table orders) !! k)).
    { rewrite lookup_fmap, fmap_is_Some. split.
      - intros ([k' m] & -> & Hm%elem_of_sorted_items)%list_elem_of_fmap.
        now exists m.
      - intros [m Hm]. apply list_elem_of_fmap. exists (k, m).
        split; [reflexivity|now apply elem_of_sorted_items]. }
    rewrite Hkey, monthly_table_orders, counter_loop_opt. simpl.
    destruct (count_rows _ orders =? 0)%nat eqn:Hz.
    + apply Nat.eqb_eq in Hz. split; [intros [? ?]; discriminate|].
      intros (o & Ho & Hk). exfalso.
      pose proof (proj1 (count_rows_zero _ _) Hz o Ho) as Hf. simpl in Hf.
      now rewrite bool_decide_true in Hf.
    + split; [intros _|eauto]. apply Nat.eqb_neq in Hz.
      destruct (List.filter (fun o => bool_decide (month_of o = Some k)) orders)
        as [|o l] eqn:Hf; [unfold count_rows in Hz; now rewrite Hf in Hz|].
      assert (Hin : List.In o (List.filter
                (fun o => bool_decide (month_of o = Some k)) orders))
        by (rewrite Hf; now left).
      apply List.filter_In in Hin as [Hin Hk]. exists o. split.
      * now apply list_elem_of_In.
      * now apply bool_decide_eq_true in Hk.
  - rewrite sum_list_with_sorted_items, monthly_table_orders,
      sum_values_counter_loop_opt.
    unfold sum_values. rewrite map_fold_empty. reflexivity.
  - apply count_rows_le.
Qed.

(** ** The two binary classifications, continued *)

Lemma fba_fbm_step_class a o (c : bool) :
  let cls := Fulfillment.category c a in
  let cls' := Fulfillment.category c (fba_fbm_step a o) in
  if Bool.eqb (is_fba o) c then
    Class.orders cls' = S (Class.orders cls) /\
    Class.cancelled cls' =
      (Class.cancelled cls + if is_cancelled o then 1 else 0)%nat /\
    Class.items cls' = (Class.items cls + quantity_of o)%Z /\
    (Class.revenue cls' == Class.revenue cls + shipped_price o)%Q
  else cls' = cls.
Proof.
  unfold is_fba, is_cancelled, Rows.quantity_of,
    AmazonOrdersAnalyzer.shipped_price, AmazonOrdersAnalyzer.fba_fbm_step,
    fba_fbm_quantity, fba_fbm_revenue.
  destruct c; case_inputs;
    unfold Fulfillment.on_category, Fulfillment.category; run_try;
    try reflexivity; split_and!; solve [lia|ring].
Qed.

Lemma business_step_class a o (c : bool) :
  let cls := Business.category c a in
  let cls' := Business.category c (business_step a o) in
  if Bool.eqb (is_business o) c then
    Class.orders cls' = S (Class.orders cls) /\
    Class.cancelled cls' =
      (Class.cancelled cls + if is_cancelled o then 1 else 0)%nat /\
    Class.items cls' = (Class.items cls + quantity_of o)%Z /\
    (Class.revenue cls' == Class.revenue cls + shipped_price o)%Q
  else cls' = cls.
Proof.
  unfold is_business, is_cancelled, Rows.quantity_of,
    AmazonOrdersAnalyzer.shipped_price, AmazonOrdersAnalyzer.business_step,
    business_quantity, business_revenue.
  destruct c; case_inputs;
    unfold Business.on_category, Business.category; run_try;
    try reflexivity; split_and!; solve [lia|ring].
Qed.

Lemma fba_fbm_loop_class orders (c : bool) :
  let cls := Fulfillment.category c (fba_fbm_loop orders) in
  let rows := List.filter (fun o => Bool.eqb (is_fba o) c) orders in
  Class.orders cls = length rows /\
  Class.cancelled cls = count_rows is_cancelled rows /\
  Class.items cls = sum_Z quantity_of rows /\
  (Class.revenue cls == sum_Q shipped_price rows)%Q.
Proof.
  unfold AmazonOrdersAnalyzer.fba_fbm_loop.
  apply (foldl_prefix_invariant
    (fun l (a : Fulfillment.t (gmap string SubMonth.t)) =>
       let cls := Fulfillment.category c a in
       let rows := List.filter (fun o => Bool.eqb (is_fba o) c) l in
       Class.orders cls = length rows /\
       Class.cancelled cls = count_rows is_cancelled rows /\
       Class.items cls = sum_Z quantity_of rows /\
       (Class.revenue cls == sum_Q shipped_price rows)%Q)).
  - destruct c; simpl; split_and!; reflexivity.
  - intros l a o (Ho & Hc & Hi & Hr). simpl.
    pose proof (fba_fbm_step_class a o c) as Hstep. simpl in Hstep.
    rewrite List.filter_app. cbn [List.filter].
    destruct (Bool.eqb (is_fba o) c).
    + destruct Hstep as (Eo & Ec & Ei & Er).
      rewrite count_rows_snoc, length_app, sum_Z_app, sum_Q_app.
      rewrite Eo, Ec, Ei, Er, Ho, Hc, Hi, Hr. simpl.
      split_and!; solve [lia|ring].
    + rewrite Hstep, app_nil_r. split_and!; assumption.
Qed.

Lemma business_loop_class orders (c : bool) :
  let cls := Business.category c (business_loop orders) in
  let rows := List.filter (fun o => Bool.eqb (is_business o) c) orders in
  Class.orders cls = length rows /\
  Class.cancelled cls = count_rows is_cancelled rows /\
  Class.items cls = sum_Z quantity_of rows /\
  (Class.revenue cls == sum_Q shipped_price rows)%Q.
Proof.
  unfold AmazonOrdersAnalyzer.business_loop.
  apply (foldl_prefix_invariant
    (fun l (a : Business.t (gmap string SubMonth.t)) =>
       let cls := Business.category c a in
       let rows := List.filter (fun o => Bool.eqb (is_business o) c) l in
       Class.orders cls = length rows /\
       Class.cancelled cls = count_rows is_cancelled rows /\
       Class.items cls = sum_Z quantity_of rows /\
       (Class.revenue cls == sum_Q shipped_price rows)%Q)).
  - destruct c; simpl; split_and!; reflexivity.
  - intros l a o (Ho & Hc & Hi & Hr). simpl.
    pose proof (business_step_class a o c) as Hstep. simpl in Hstep.
    rewrite List.filter_app. cbn [List.filter].
    destruct (Bool.eqb (is_business o) c).
    + destruct Hstep as (Eo & Ec & Ei & Er).
      rewrite count_rows_snoc, length_app, sum_Z_app, sum_Q_app.
      rewrite Eo, Ec, Ei, Er, Ho, Hc, Hi, Hr. simpl.
      split_and!; solve [lia|ring].
    + rewrite Hstep, app_nil_r. split_and!; assumption.
Qed.

(** X9. For each class of the fulfillment analysis, FBA being the rows
    whose fulfillment channel is ["Amazon"] and FBM all the others: the
    order count is the number of rows of the class, the cancelled count the
    number of its cancelled rows, the items the sum of its quantities that
    are read, and the revenue the sum of the prices of its shipped rows
    whose price is read. *)
Theorem fulfillment_class_totals (orders : list order) (c : bool) :
  let cls := Fulfillment.category c (get_fba_fbm_analysis orders) in
  let rows := List.filter (fun o => Bool.eqb (is_fba o) c) orders in
  Class.orders cls = length rows /\
  Class.cancelled cls = count_rows is_cancelled rows /\
  Class.items cls = sum_Z quantity_of rows /\
  (Class.revenue cls == sum_Q shipped_price rows)%Q.
Proof.
  pose proof (fba_fbm_loop_class orders c) as H.
  unfold AmazonOrdersAnalyzer.get_fba_fbm_analysis.
  destruct c; exact H.
Qed.


Ltac sub_series_orders :=
  repeat (rewrite fmap_dd_alter_same;
          [|intros []; reflexivity|apply dd_alter_is_Some; now left]);
  (apply fmap_dd_alter_incr; [reflexivity|intros []; reflexivity]).

Lemma fba_fbm_step_sub_orders a o :
  SubMonth.orders <$> Fulfillment.monthly_fba (fba_fbm_step a o) =
    match (if is_fba o && in_sub_series o then month_of o else None) with
    | Some k => incr k (SubMonth.orders <$> Fulfillment.monthly_fba a)
    | None => SubMonth.orders <$> Fulfillment.monthly_fba a
    end /\
  SubMonth.orders <$> Fulfillment.monthly_fbm (fba_fbm_step a o) =
    match (if negb (is_fba o) && in_sub_series o then month_of o else None) with
    | Some k => incr k (SubMonth.orders <$> Fulfillment.monthly_fbm a)
    | None => SubMonth.orders <$> Fulfillment.monthly_fbm a
    end.
Proof.
  unfold is_fba, Rows.in_sub_series, Rows.is_dated, is_shipped, Rows.month_of,
    AmazonOrdersAnalyzer.month_key_of, AmazonOrdersAnalyzer.fba_fbm_step,
    fba_fbm_quantity, fba_fbm_revenue.
  case_inputs; unfold Fulfillment.on_category; run_try;
    split; try reflexivity; sub_series_orders.
Qed.

Lemma fba_fbm_step_sub_entry a o k :
  let e := entry SubMonth.zero (Fulfillment.monthly_fba a) k in
  let e' := entry SubMonth.zero (Fulfillment.monthly_fba (fba_fbm_step a o)) k in
  let g := entry SubMonth.zero (Fulfillment.monthly_fbm a) k in
  let g' := entry SubMonth.zero (Fulfillment.monthly_fbm (fba_fbm_step a o)) k in
  (if is_fba o && in_sub_series o && in_month k o
   then SubMonth.orders e' = S (SubMonth.orders e) /\
        (SubMonth.revenue e' == SubMonth.revenue e + shipped_price o)%Q
   else e' = e) /\
  (if negb (is_fba o) && in_sub_series o && in_month k o
   then SubMonth.orders g' = S (SubMonth.orders g) /\
        (SubMonth.revenue g' == SubMonth.revenue g + shipped_price o)%Q
   else g' = g).
Proof.
  unfold is_fba, Rows.in_sub_series, Rows.is_dated, Rows.in_month, is_shipped,
    Rows.month_of, AmazonOrdersAnalyzer.month_key_of,
    AmazonOrdersAnalyzer.shipped_price, AmazonOrdersAnalyzer.fba_fbm_step,
    fba_fbm_quantity, fba_fbm_revenue.
  case_inputs; unfold Fulfillment.on_category; run_try;
    rewrite ?entry_dd_alter; try case_bool_decide; repeat case_decide;
    try congruence; try subst k; simpl; split; try reflexivity;
    split; solve [reflexivity|lia|ring].
Qed.

(** A monthly sub-series whose order counts are a counter of the months
    of the selected rows. *)
Lemma sub_series_spec (T : gmap string SubMonth.t) (l : list order)
    (sel : order -> bool) :
  SubMonth.orders <$> T =
    foldl (fun d o => match (if sel o then month_of o else None) with
                      | Some k => incr k d
                      | None => d
                      end) ∅ l ->
  (forall k,
     let e := entry SubMonth.zero T k in
     let rows := List.filter (fun o => sel o && in_month k o) l in
     SubMonth.orders e = length rows /\
     (SubMonth.revenue e == sum_Q shipped_price rows)%Q) ->
  (forall k, k ∈ (sorted_items T).*1 <->
             exists o, o ∈ l /\ sel o = true /\ month_of o = Some k) /\
  (forall k m, (k, m) ∈ sorted_items T ->
     let rows := List.filter (fun o => sel o && in_month k o) l in
     (1 <= SubMonth.orders m)%nat /\
     SubMonth.orders m = length rows /\
     (SubMonth.revenue m == sum_Q shipped_price rows)%Q).
Proof.
  intros Hord Hent. split.
  - intros k. rewrite sorted_items_keys, <- (fmap_is_Some SubMonth.orders),
      <- lookup_fmap, Hord, counter_loop_opt_keys.
    split; intros (o & Ho & Hk); exists o; (split; [exact Ho|]).
    + destruct (sel o); [auto|discriminate].
    + destruct Hk as [-> Hk]. exact Hk.
  - intros k m Hkm%elem_of_sorted_items. simpl.
    pose proof (Hent k) as He. unfold entry in He. rewrite Hkm in He.
    simpl in He. split; [|exact He].
    assert (Hk : (SubMonth.orders <$> T) !! k = Some (SubMonth.orders m))
      by now rewrite lookup_fmap, Hkm.
    rewrite Hord in Hk. now apply counter_loop_opt_positive in Hk.
Qed.

Lemma fba_fbm_loop_sub_orders orders :
  SubMonth.orders <$> Fulfillment.monthly_fba (fba_fbm_loop orders) =
    foldl (fun d o =>
             match (if is_fba o && in_sub_series o then month_of o else None) with
             | Some k => incr k d
             | None => d
             end) ∅ orders /\
  SubMonth.orders <$> Fulfillment.monthly_fbm (fba_fbm_loop orders) =
    foldl (fun d o =>
             match (if negb (is_fba o) && in_sub_series o
                    then month_of o else None) with
             | Some k => incr k d
             | None => d
             end) ∅ orders.
Proof.
  unfold AmazonOrdersAnalyzer.fba_fbm_loop. split.
  - apply (foldl_simulation
      (fun (a : Fulfillment.t (gmap string SubMonth.t)) d =>
         SubMonth.orders <$> Fulfillment.monthly_fba a = d)).
    + apply fmap_empty.
    + intros a d o <-. apply fba_fbm_step_sub_orders.
  - apply (foldl_simulation
      (fun (a : Fulfillment.t (gmap string SubMonth.t)) d =>
         SubMonth.orders <$> Fulfillment.monthly_fbm a = d)).
    + apply fmap_empty.
    + intros a d o <-. apply fba_fbm_step_sub_orders.
Qed.

Lemma sub_entry_snoc (sel : order -> bool) k l o (e e' : SubMonth.t) :
  SubMonth.orders e = length (List.filter (fun o => sel o && in_month k o) l) /\
  (SubMonth.revenue e ==
   sum_Q shipped_price (List.filter (fun o => sel o && in_month k o) l))%Q ->
  (if sel o && in_month k o
   then SubMonth.orders e' = S (SubMonth.orders e) /\
        (SubMonth.revenue e' == SubMonth.revenue e + shipped_price o)%Q
   else e' = e) ->
  SubMonth.orders e' =
    length (List.filter (fun o => sel o && in_month k o) (l ++ [o])) /\
  (SubMonth.revenue e' ==
   sum_Q shipped_price
     (List.filter (fun o => sel o && in_month k o) (l ++ [o])))%Q.
Proof.
  intros [Ho Hr] Hstep. rewrite List.filter_app. cbn [List.filter].
  destruct (sel o && in_month k o).
  - destruct Hstep as [Eo Er].
    rewrite length_app, sum_Q_app, Eo, Er, Ho, Hr. simpl. split; [lia|ring].
  - rewrite Hstep, app_nil_r. now split.
Qed.

Lemma fba_fbm_loop_sub_entries orders k :
  (let e := entry SubMonth.zero
              (Fulfillment.monthly_fba (fba_fbm_loop orders)) k in
   let rows := List.filter
                 (fun o => (is_fba o && in_sub_series o) && in_month k o)
                 orders in
   SubMonth.orders e = length rows /\
   (SubMonth.revenue e == sum_Q shipped_price rows)%Q) /\
  (let e := entry SubMonth.zero
              (Fulfillment.monthly_fbm (fba_fbm_loop orders)) k in
   let rows := List.filter
                 (fun o => (negb (is_fba o) && in_sub_series o) && in_month k o)
                 orders in
   SubMonth.orders e = length rows /\
   (SubMonth.revenue e == sum_Q shipped_price rows)%Q).
Proof.
  unfold AmazonOrdersAnalyzer.fba_fbm_loop.
  apply (foldl_prefix_invariant
    (fun l (a : Fulfillment.t (gmap string SubMonth.t)) =>
      (let e := entry SubMonth.zero (Fulfillment.monthly_fba a) k in
       let rows := List.filter
                     (fun o => (is_fba o && in_sub_series o) && in_month k o)
                     l in
       SubMonth.orders e = length rows /\
       (SubMonth.revenue e == sum_Q shipped_price rows)%Q) /\
      (let e := entry SubMonth.zero (Fulfillment.monthly_fbm a) k in
       let rows := List.filter
                     (fun o => (negb (is_fba o) && in_sub_series o)
                               && in_month k o) l in
       SubMonth.orders e = length rows /\
       (SubMonth.revenue e == sum_Q shipped_price rows)%Q))).
  - simpl. unfold entry. rewrite lookup_empty. simpl.
    split_and!; reflexivity.
  - intros l a o [Hfba Hfbm]. simpl in *.
    destruct (fba_fbm_step_sub_entry a o k) as [Sfba Sfbm]. split.
    + now apply (sub_entry_snoc (fun o => is_fba o && in_sub_series o)
                   k l o _ _ Hfba).
    + now apply (sub_entry_snoc (fun o => negb (is_fba o) && in_sub_series o)
                   k l o _ _ Hfbm).
Qed.

(** X11. The monthly sub-series of FBA holds exactly the months of the
    FBA rows that are shipped and have a price and a purchase date that are
    read; each month carries the number of those rows, at least one, and
    the sum of their prices. The same holds of FBM with the other rows. *)
Theorem fulfillment_sub_series (orders : list order) :
  let f := get_fba_fbm_analysis orders in
  ((forall k, k ∈ (Fulfillment.monthly_fba f).*1 <->
      exists o, o ∈ orders /\ is_fba o && in_sub_series o = true /\
                month_of o = Some k) /\
   (forall k m, (k, m) ∈ Fulfillment.monthly_fba f ->
      let rows := List.filter
                    (fun o => (is_fba o && in_sub_series o) && in_month k o)
                    orders in
      (1 <= SubMonth.orders m)%nat /\
      SubMonth.orders m = length rows /\
      (SubMonth.revenue m == sum_Q shipped_price rows)%Q)) /\
  ((forall k, k ∈ (Fulfillment.monthly_fbm f).*1 <->
      exists o, o ∈ orders /\ negb (is_fba o) && in_sub_series o = true /\
                month_of o = Some k) /\
   (forall k m, (k, m) ∈ Fulfillment.monthly_fbm f ->
      let rows := List.filter
                    (fun o => (negb (is_fba o) && in_sub_series o)
                              && in_month k o) orders in
      (1 <= SubMonth.orders m)%nat /\
      SubMonth.orders m = length rows /\
      (SubMonth.revenue m == sum_Q shipped_price rows)%Q)).
Proof.
  simpl. unfold AmazonOrdersAnalyzer.get_fba_fbm_analysis. simpl.
  destruct (fba_fbm_loop_sub_orders orders) as [Ofba Ofbm]. split.
  - apply (sub_series_spec _ orders (fun o => is_fba o && in_sub_series o));
      [exact Ofba|].
    intros k. apply (fba_fbm_loop_sub_entries orders k).
  - apply (sub_series_spec _ orders
             (fun o => negb (is_fba o) && in_sub_series o)); [exact Ofbm|].
    intros k. apply (fba_fbm_loop_sub_entries orders k).
Qed.

Lemma business_step_sub_orders a o :
  SubMonth.orders <$> Business.monthly_business (business_step a o) =
    match (if is_business o && in_sub_series o then month_of o else None) with
    | Some k => incr k (SubMonth.orders <$> Business.monthly_business a)
    | None => SubMonth.orders <$> Business.monthly_business a
    end /\
  SubMonth.orders <$> Business.monthly_consumer (business_step a o) =
    match (if negb (is_business o) && in_sub_series o then month_of o else None) with
    | Some k => incr k (SubMonth.orders <$> Business.monthly_consumer a)
    | None => SubMonth.orders <$> Business.monthly_consumer a
    end.
Proof.
  unfold is_business, Rows.in_sub_series, Rows.is_dated, is_shipped, Rows.month_of,
    AmazonOrdersAnalyzer.month_key_of, AmazonOrdersAnalyzer.business_step,
    business_quantity, business_revenue.
  case_inputs; unfold Business.on_category; run_try;
    split; try reflexivity; sub_series_orders.
Qed.

Lemma business_step_sub_entry a o k :
  let e := entry SubMonth.zero (Business.monthly_business a) k in
  let e' := entry SubMonth.zero (Business.monthly_business (business_step a o)) k in
  let g := entry SubMonth.zero (Business.monthly_consumer a) k in
  let g' := entry SubMonth.zero (Business.monthly_consumer (business_step a o)) k in
  (if is_business o && in_sub_series o && in_month k o
   then SubMonth.orders e' = S (SubMonth.orders e) /\
        (SubMonth.revenue e' == SubMonth.revenue e + shipped_price o)%Q
   else e' = e) /\
  (if negb (is_business o) && in_sub_series o && in_month k o
   then SubMonth.orders g' = S (SubMonth.orders g) /\
        (SubMonth.revenue g' == SubMonth.revenue g + shipped_price o)%Q
   else g' = g).
Proof.
  unfold is_business, Rows.in_sub_series, Rows.is_dated, Rows.in_month, is_shipped,
    Rows.month_of, AmazonOrdersAnalyzer.month_key_of,
    AmazonOrdersAnalyzer.shipped_price, AmazonOrdersAnalyzer.business_step,
    business_quantity, business_revenue.
  case_inputs; unfold Business.on_category; run_try;
    rewrite ?entry_dd_alter; try case_bool_decide; repeat case_decide;
    try congruence; try subst k; simpl; split; try reflexivity;
    split; solve [reflexivity|lia|ring].
Qed.

Lemma business_loop_sub_orders orders :
  SubMonth.orders <$> Business.monthly_business (business_loop orders) =
    foldl (fun d o =>
             match (if is_business o && in_sub_series o then month_of o else None) with
             | Some k => incr k d
             | None => d
             end) ∅ orders /\
  SubMonth.orders <$> Business.monthly_consumer (business_loop orders) =
    foldl (fun d o =>
             match (if negb (is_business o) && in_sub_series o
                    then month_of o else None) with
             | Some k => incr k d
             | None => d
             end) ∅ orders.
Proof.
  unfold AmazonOrdersAnalyzer.business_loop. split.
  - apply (foldl_simulation
      (fun (a : Business.t (gmap string SubMonth.t)) d =>
         SubMonth.orders <$> Business.monthly_business a = d)).
    + apply fmap_empty.
    + intros a d o <-. apply business_step_sub_orders.
  - apply (foldl_simulation
      (fun (a : Business.t (gmap string SubMonth.t)) d =>
         SubMonth.orders <$> Business.monthly_consumer a = d)).
    + apply fmap_empty.
    + intros a d o <-. apply business_step_sub_orders.
Qed.

Lemma business_loop_sub_entries orders k :
  (let e := entry SubMonth.zero
              (Business.monthly_business (business_loop orders)) k in
   let rows := List.filter
                 (fun o => (is_business o && in_sub_series o) && in_month k o)
                 orders in
   SubMonth.orders e = length rows /\
   (SubMonth.revenue e == sum_Q shipped_price rows)%Q) /\
  (let e := entry SubMonth.zero
              (Business.monthly_consumer (business_loop orders)) k in
   let rows := List.filter
                 (fun o => (negb (is_business o) && in_sub_series o) && in_month k o)
                 orders in
   SubMonth.orders e = length rows /\
   (SubMonth.revenue e == sum_Q shipped_price rows)%Q).
Proof.
  unfold AmazonOrdersAnalyzer.business_loop.
  apply (foldl_prefix_invariant
    (fun l (a : Business.t (gmap string SubMonth.t)) =>
      (let e := entry SubMonth.zero (Business.monthly_business a) k in
       let rows := List.filter
                     (fun o => (is_business o && in_sub_series o) && in_month k o)
                     l in
       SubMonth.orders e = length rows /\
       (SubMonth.revenue e == sum_Q shipped_price rows)%Q) /\
      (let e := entry SubMonth.zero (Business.monthly_consumer a) k in
       let rows := List.filter
                     (fun o => (negb (is_business o) && in_sub_series o)
                               && in_month k o) l in
       SubMonth.orders e = length rows /\
       (SubMonth.revenue e == sum_Q shipped_price rows)%Q))).
  - simpl. unfold entry. rewrite lookup_empty. simpl.
    split_and!; reflexivity.
  - intros l a o [Hbus Hcon]. simpl in *.
    destruct (business_step_sub_entry a o k) as [Sbus Scon]. split.
    + now apply (sub_entry_snoc (fun o => is_business o && in_sub_series o)
                   k l o _ _ Hbus).
    + now apply (sub_entry_snoc (fun o => negb (is_business o) && in_sub_series o)
                   k l o _ _ Hcon).
Qed.


Lemma sum_Z_split (p : order -> bool) f l :
  (sum_Z f (List.filter (fun o => Bool.eqb (p o) true) l) +
   sum_Z f (List.filter (fun o => Bool.eqb (p o) false) l) = sum_Z f l)%Z.
Proof.
  induction l as [|o l IH]; simpl; [reflexivity|].
  destruct (p o); simpl; lia.
Qed.

Lemma count_rows_split (p q : order -> bool) l :
  (count_rows q (List.filter (fun o => Bool.eqb (p o) true) l) +
   count_rows q (List.filter (fun o => Bool.eqb (p o) false) l) =
   count_rows q l)%nat.
Proof.
  induction l as [|o l IH]; simpl; [reflexivity|].
  destruct (p o); simpl; rewrite !count_rows_cons; lia.
Qed.

Lemma is_cancelled_default o :
  has_value "order-status" "Unknown" "Cancelled" o = is_cancelled o.
Proof.
  unfold has_value, is_cancelled, get.
  now destruct (o !! "order-status").
Qed.


(** ** The promotion analysis, continued *)

Lemma promotions_step_tables a o :
  Promotions.acc_count <$> Promotions.by_promotion_type (promotions_step a o) =
    match (if promoted o then Some (promo_id_of o) else None) with
    | Some k => incr k (Promotions.acc_count <$> Promotions.by_promotion_type a)
    | None => Promotions.acc_count <$> Promotions.by_promotion_type a
    end /\
  Promotions.skus_on_promotion (promotions_step a o) =
    match (if promoted o then Some (sku_of o) else None) with
    | Some k => incr k (Promotions.skus_on_promotion a)
    | None => Promotions.skus_on_promotion a
    end /\
  Promotions.monthly_promotions (promotions_step a o) =
    match (if promoted o then month_of o else None) with
    | Some k => incr k (Promotions.monthly_promotions a)
    | None => Promotions.monthly_promotions a
    end.
Proof.
  clear float int.
  unfold promoted, promo_id_of, sku_of, Rows.month_of,
    AmazonOrdersAnalyzer.month_key_of, AmazonOrdersAnalyzer.promotions_step,
    promotions_month.
  case_inputs; run_try; split_and!; try reflexivity;
    (rewrite fmap_dd_alter_same;
       [|intros []; reflexivity|apply dd_alter_is_Some; now left]);
    (apply fmap_dd_alter_incr; [reflexivity|intros []; reflexivity]).
Qed.

Lemma promotions_loop_tables orders :
  Promotions.acc_count <$> Promotions.by_promotion_type (promotions_loop orders) =
    foldl (fun d o => match (if promoted o then Some (promo_id_of o) else None) with
                      | Some k => incr k d
                      | None => d
                      end) ∅ orders /\
  Promotions.skus_on_promotion (promotions_loop orders) =
    foldl (fun d o => match (if promoted o then Some (sku_of o) else None) with
                      | Some k => incr k d
                      | None => d
                      end) ∅ orders /\
  Promotions.monthly_promotions (promotions_loop orders) =
    foldl (fun d o => match (if promoted o then month_of o else None) with
                      | Some k => incr k d
                      | None => d
                      end) ∅ orders.
Proof.
  unfold AmazonOrdersAnalyzer.promotions_loop. split_and!.
  - apply (foldl_simulation
      (fun (a : Promotions.t Promotions.acc (gmap string nat)) d =>
         Promotions.acc_count <$> Promotions.by_promotion_type a = d)).
    + apply fmap_empty.
    + intros a d o <-. apply promotions_step_tables.
  - apply (foldl_simulation
      (fun (a : Promotions.t Promotions.acc (gmap string nat)) d =>
         Promotions.skus_on_promotion a = d)); [reflexivity|].
    intros a d o <-. apply promotions_step_tables.
  - apply (foldl_simulation
      (fun (a : Promotions.t Promotions.acc (gmap string nat)) d =>
         Promotions.monthly_promotions a = d)); [reflexivity|].
    intros a d o <-. apply promotions_step_tables.
Qed.

Lemma promotions_step_skus a o promo :
  let e := entry Promotions.acc_zero (Promotions.by_promotion_type a) promo in
  let e' := entry Promotions.acc_zero
              (Promotions.by_promotion_type (promotions_step a o)) promo in
  (forall x, x ∈ Promotions.acc_skus e' <->
     x ∈ Promotions.acc_skus e \/
     (promoted o = true /\ promo_id_of o = promo /\ sku_of o = x)) /\
  ((size (Promotions.acc_skus e) <= Promotions.acc_count e)%nat ->
   (size (Promotions.acc_skus e') <= Promotions.acc_count e')%nat).
Proof.
  clear float int.
  unfold promoted, promo_id_of, sku_of, AmazonOrdersAnalyzer.promotions_step,
    promotions_month.
  case_inputs; run_try; rewrite ?entry_dd_alter; repeat case_decide;
    try congruence; try subst promo; simpl;
    (split; [intros x; set_solver|]); intros Hle; try exact Hle.
  all: match goal with
       | |- (size ({[?s]} ∪ ?X) <= _)%nat =>
           destruct (decide (s ∈ X)) as [Hin|Hin];
           [ replace ({[s]} ∪ X) with X by set_solver; lia
           | rewrite size_union by set_solver; rewrite size_singleton; lia ]
       end.
Qed.

Lemma promotions_loop_skus orders promo :
  let e := entry Promotions.acc_zero
             (Promotions.by_promotion_type (promotions_loop orders)) promo in
  (forall x, x ∈ Promotions.acc_skus e <->
     exists o, o ∈ orders /\ promoted o = true /\ promo_id_of o = promo /\
               sku_of o = x) /\
  (size (Promotions.acc_skus e) <= Promotions.acc_count e)%nat.
Proof.
  unfold AmazonOrdersAnalyzer.promotions_loop.
  apply (foldl_prefix_invariant
    (fun l (a : Promotions.t Promotions.acc (gmap string nat)) =>
      let e := entry Promotions.acc_zero (Promotions.by_promotion_type a) promo in
      (forall x, x ∈ Promotions.acc_skus e <->
         exists o, o ∈ l /\ promoted o = true /\ promo_id_of o = promo /\
                   sku_of o = x) /\
      (size (Promotions.acc_skus e) <= Promotions.acc_count e)%nat)).
  - simpl. unfold entry. rewrite lookup_empty. simpl. split.
    + intros x. split; [set_solver|]. intros (o & Ho & _).
      now apply elem_of_nil in Ho.
    + change (size (∅ : gset string) <= 0)%nat. rewrite size_empty. lia.
  - intros l a o [Hmem Hsize]. simpl in *.
    destruct (promotions_step_skus a o promo) as [Smem Ssize]. split.
    + intros x. rewrite Smem, Hmem. split.
      * intros [(o' & Ho' & H)|H].
        -- exists o'. split; [apply elem_of_app; now left|exact H].
        -- exists o. split; [apply elem_of_app; right; constructor|exact H].
      * intros (o' & [Ho'|Ho'%list_elem_of_singleton]%elem_of_app & H).
        -- left. eauto.
        -- right. now subst o'.
    + now apply Ssize.
Qed.



Lemma promotions_step_eq a o :
  promotions_step a o =
  if promoted o then
    Promotions.mk
      (S (Promotions.total_with_promotions a))
      (dd_alter Promotions.acc_zero (Promotions.add_sku (sku_of o))
         (promo_id_of o)
         (dd_alter Promotions.acc_zero Promotions.incr_count (promo_id_of o)
            (Promotions.by_promotion_type a)))
      (incr (sku_of o) (Promotions.skus_on_promotion a))
      (match month_of o with
       | Some k => incr k (Promotions.monthly_promotions a)
       | None => Promotions.monthly_promotions a
       end)
  else a.
Proof.
  clear float int.
  unfold promoted, promo_id_of, sku_of, Rows.month_of,
    AmazonOrdersAnalyzer.month_key_of, AmazonOrdersAnalyzer.promotions_step,
    promotions_month.
  destruct a. case_inputs; run_try; reflexivity.
Qed.

Lemma promotions_step_comm a o1 o2 :
  promotions_step (promotions_step a o1) o2 =
  promotions_step (promotions_step a o2) o1.
Proof.
  clear float int. rewrite !promotions_step_eq.
  destruct (promoted o1), (promoted o2); try reflexivity.
  simpl. f_equal.
  - apply promotion_update_comm.
  - apply incr_comm.
  - destruct (month_of o1), (month_of o2); try reflexivity. apply incr_comm.
Qed.


(** ** The market-monthly analysis *)

Lemma market_status o :
  bool_decide (o !! "order-status" = Some "Shipped") = is_shipped o.
Proof.
  unfold is_shipped, get. destruct (o !! "order-status") as [s|].
  - destruct (String.eqb_spec s "Shipped") as [->|Hne]; case_bool_decide;
      try reflexivity; congruence.
  - case_bool_decide; [discriminate|reflexivity].
Qed.

Lemma market_monthly_step_eq analysis o :
  market_monthly_step analysis o =
  match (if is_shipped o then month_of o else None),
        float_field o "item-price" with
  | Some k, Some p =>
      dd_alter ∅ (dd_alter 0%Q (fun revenue => (revenue + p)%Q) k)
        (get o "ship-country" "Unknown") analysis
  | _, _ => analysis
  end.
Proof.
  unfold AmazonOrdersAnalyzer.market_monthly_step, market_monthly_body,
    Rows.month_of, AmazonOrdersAnalyzer.month_key_of.
  rewrite market_status. unfold is_shipped.
  case_inputs; run_try; reflexivity.
Qed.

Lemma in_sub_series_eq o :
  in_sub_series o = true <->
  exists k p, (if is_shipped o then month_of o else None) = Some k /\
              float_field o "item-price" = Some p.
Proof.
  unfold Rows.in_sub_series, Rows.is_dated.
  destruct (is_shipped o), (float_field o "item-price") as [p|],
    (month_of o) as [k|]; simpl; split;
    try discriminate; try (intros (? & ? & ? & ?); discriminate); eauto.
Qed.

Lemma market_monthly_invariant orders :
  let T := foldl market_monthly_step ∅ orders in
  (forall c k, is_Some (T !! c ≫= (.!! k)) <->
     exists o, o ∈ orders /\ in_sub_series o = true /\
               get o "ship-country" "Unknown" = c /\ month_of o = Some k) /\
  (forall c k,
     (entry 0%Q (entry ∅ T c) k ==
      sum_Q shipped_price
        (List.filter (fun o => in_sub_series o
                               && has_value "ship-country" "Unknown" c o
                               && in_month k o) orders))%Q) /\
  (forall c months, T !! c = Some months -> exists k, is_Some (months !! k)).
Proof.
  apply (foldl_prefix_invariant (fun l (T : gmap string (gmap string Q)) =>
    (forall c k, is_Some (T !! c ≫= (.!! k)) <->
       exists o, o ∈ l /\ in_sub_series o = true /\
                 get o "ship-country" "Unknown" = c /\ month_of o = Some k) /\
    (forall c k,
       (entry 0%Q (entry ∅ T c) k ==
        sum_Q shipped_price
          (List.filter (fun o => in_sub_series o
                                 && has_value "ship-country" "Unknown" c o
                                 && in_month k o) l))%Q) /\
    (forall c months, T !! c = Some months -> exists k, is_Some (months !! k)))).
  - split_and!.
    + intros c k. rewrite lookup_empty. simpl. split; [intros [? ?]; discriminate|].
      intros (o & Ho & _). now apply elem_of_nil in Ho.
    + intros c k. unfold entry. rewrite lookup_empty. simpl.
      rewrite lookup_empty. reflexivity.
    + intros c months. rewrite lookup_empty. discriminate.
  - intros l T o (Hkeys & Hval & Hne).
    assert (Hsnoc : forall c k,
      (exists o', o' ∈ l ++ [o] /\ in_sub_series o' = true /\
                  get o' "ship-country" "Unknown" = c /\ month_of o' = Some k) <->
      (exists o', o' ∈ l /\ in_sub_series o' = true /\
                  get o' "ship-country" "Unknown" = c /\ month_of o' = Some k) \/
      (in_sub_series o = true /\ get o "ship-country" "Unknown" = c /\
       month_of o = Some k)).
    { intros c k. split.
      - intros (o' & [H|H%list_elem_of_singleton]%elem_of_app & Hk);
          [left; eauto|right; now subst o'].
      - intros [(o' & H & Hk)|Hk].
        + exists o'. split; [apply elem_of_app; now left|exact Hk].
        + exists o. split; [apply elem_of_app; right; constructor|exact Hk]. }
    rewrite market_monthly_step_eq.
    pose proof (in_sub_series_eq o) as Hsub.
    destruct (if is_shipped o then month_of o else None) as [k0|] eqn:Hk0;
      [destruct (float_field o "item-price") as [p|] eqn:Hp|].
    + assert (Hin : in_sub_series o = true) by (apply Hsub; eauto).
      assert (Hmonth : month_of o = Some k0)
        by (destruct (is_shipped o); [exact Hk0|discriminate]).
      assert (Hprice : shipped_price o = p).
      { unfold AmazonOrdersAnalyzer.shipped_price. fold (is_shipped o).
        destruct (is_shipped o); [|discriminate]. now rewrite Hp. }
      split_and!.
      * intros c k. rewrite Hsnoc, <- Hkeys. unfold dd_alter.
        rewrite lookup_insert. case_decide as Hc; simpl.
        -- rewrite lookup_insert. case_decide as Hk; simpl.
           ++ split; [intros _; right|eauto]. subst. auto.
           ++ subst c. unfold entry.
              destruct (T !! get o "ship-country" "Unknown"); simpl.
              ** split; [now left|]. intros [?|(_ & _ & ?)]; [assumption|].
                 congruence.
              ** rewrite lookup_empty. split; [intros [? ?]; discriminate|].
                 intros [[? ?]|(_ & _ & ?)]; [discriminate|congruence].
        -- split; [now left|]. intros [?|(_ & ? & _)]; [assumption|congruence].
      * intros c k. rewrite List.filter_app, sum_Q_app. cbn [List.filter].
        assert (Hcountry : has_value "ship-country" "Unknown" c o =
                           bool_decide (get o "ship-country" "Unknown" = c)).
        { unfold has_value.
          destruct (String.eqb_spec (get o "ship-country" "Unknown") c);
            case_bool_decide; congruence. }
        assert (Hmon : in_month k o = bool_decide (k0 = k)).
        { unfold Rows.in_month. rewrite Hmonth.
          repeat case_bool_decide; congruence. }
        rewrite Hin, Hcountry, Hmon, <- (Hval c k), entry_dd_alter.
        destruct (decide (get o "ship-country" "Unknown" = c)) as [Hc|Hc].
        -- rewrite ?(bool_decide_true _ Hc), entry_dd_alter. subst c.
           destruct (decide (k0 = k)) as [Hk|Hk].
           ++ rewrite ?(bool_decide_true _ Hk). subst k. simpl.
              rewrite Hprice. ring.
           ++ rewrite ?(bool_decide_false _ Hk). simpl. ring.
        -- rewrite ?(bool_decide_false _ Hc). simpl. ring.
      * intros c months. unfold dd_alter. rewrite lookup_insert.
        case_decide; [|apply Hne]. intros [= <-]. exists k0.
        rewrite lookup_insert_eq. eauto.
    + assert (Hin : in_sub_series o = false).
      { apply not_true_is_false. intros E.
        apply Hsub in E as (? & ? & _ & ?). congruence. }
      split_and!.
      * intros c k. rewrite Hsnoc, Hkeys. split; [now left|].
        intros [?|(? & _)]; [assumption|congruence].
      * intros c k. rewrite List.filter_app, sum_Q_app. cbn [List.filter].
        rewrite Hin. simpl. rewrite (Hval c k). ring.
      * exact Hne.
    + assert (Hin : in_sub_series o = false).
      { apply not_true_is_false. intros E.
        apply Hsub in E as (? & ? & ? & _). congruence. }
      split_and!.
      * intros c k. rewrite Hsnoc, Hkeys. split; [now left|].
        intros [?|(? & _)]; [assumption|congruence].
      * intros c k. rewrite List.filter_app, sum_Q_app. cbn [List.filter].
        rewrite Hin. simpl. rewrite (Hval c k). ring.
      * exact Hne.
Qed.

(** X17. The market-monthly analysis lists a country exactly when some
    shipped row of that country has a price and a purchase date that are
    read, a row without country counting under ["Unknown"]; the months of
    a country, never none, are the months of those rows, and each month
    carries the sum of their prices. *)
Theorem market_monthly_entries (orders : list order) :
  let r := get_market_monthly_analysis orders in
  (forall c, is_Some (r !! c) <->
     exists o, o ∈ orders /\ in_sub_series o = true /\
               get o "ship-country" "Unknown" = c) /\
  (forall c months, r !! c = Some months ->
     months <> [] /\
     (forall k, k ∈ months.*1 <->
        exists o, o ∈ orders /\ in_sub_series o = true /\
                  get o "ship-country" "Unknown" = c /\ month_of o = Some k) /\
     (forall k v, (k, v) ∈ months ->
        (v == sum_Q shipped_price
                (List.filter (fun o => in_sub_series o
                                       && has_value "ship-country" "Unknown" c o
                                       && in_month k o) orders))%Q)).
Proof.
  simpl. unfold AmazonOrdersAnalyzer.get_market_monthly_analysis.
  destruct (market_monthly_invariant orders) as (Hkeys & Hval & Hne).
  set (T := foldl market_monthly_step ∅ orders) in *. split.
  - intros c. rewrite lookup_fmap, fmap_is_Some. split.
    + intros [months Hc]. destruct (Hne c months Hc) as [k Hk].
      destruct (proj1 (Hkeys c k)) as (o & Ho & Hs & Hco & _);
        [now rewrite Hc|eauto].
    + intros (o & Ho & Hs & Hc).
      assert (Hd : exists k, month_of o = Some k).
      { unfold Rows.in_sub_series, Rows.is_dated in Hs.
        apply andb_true_iff in Hs as [_ Hd].
        apply bool_decide_eq_true in Hd. exact Hd. }
      destruct Hd as [k Hk].
      destruct (proj2 (Hkeys c k)) as [v Hv]; [eauto|].
      destruct (T !! c); [eauto|discriminate].
  - intros c lst. rewrite lookup_fmap. intros Hc.
    destruct (T !! c) as [months|] eqn:HTc; [|discriminate].
    injection Hc as <-. split_and!.
    + destruct (Hne c months HTc) as [k [v Hk]].
      apply elem_of_sorted_items in Hk. intros Hnil.
      rewrite Hnil in Hk. now apply elem_of_nil in Hk.
    + intros k. rewrite sorted_items_keys, <- Hkeys, HTc. reflexivity.
    + intros k v Hkv%elem_of_sorted_items.
      rewrite <- (Hval c k). unfold entry. rewrite HTc. simpl.
      now rewrite Hkv.
Qed.

Lemma month_of_pattern o k : month_of o = Some k -> is_YYYY_MM k = true.
Proof.
  unfold Rows.month_of, AmazonOrdersAnalyzer.month_key_of.
  destruct (Text.truthy _); [|discriminate].
  destruct (fromisoformat _) as [dt|]; [|discriminate].
  intros [= <-]. apply strftime_Ym_pattern.
Qed.

Lemma sorted_items_ascending_months {V} (d : gmap string V) :
  (forall k, k ∈ (sorted_items d).*1 -> exists o, month_of o = Some k) ->
  ascending_months (sorted_items d).*1.
Proof.
  intros H. split; [apply sorted_items_keys_ascending|].
  apply Forall_forall. intros k Hk. destruct (H k Hk) as [o Ho].
  now apply month_of_pattern in Ho.
Qed.

Lemma counter_keys_dated {V} (T : gmap string V) (f : V -> nat)
    (sel : order -> bool) (l : list order) :
  f <$> T =
    foldl (fun d o => match (if sel o then month_of o else None) with
                      | Some k => incr k d
                      | None => d
                      end) ∅ l ->
  ascending_months (sorted_items T).*1.
Proof.
  intros Hord. apply sorted_items_ascending_months. intros k.
  rewrite sorted_items_keys, <- (fmap_is_Some f), <- lookup_fmap, Hord,
    counter_loop_opt_keys.
  intros (o & _ & Hk). exists o. destruct (sel o); [exact Hk|discriminate].
Qed.


(** ** The metrics of the insights slide *)

Lemma monthly_trend_keys orders k :
  k ∈ (get_monthly_trends orders).*1 <->
  exists o, o ∈ orders /\ month_of o = Some k.
Proof.
  unfold AmazonOrdersAnalyzer.get_monthly_trends.
  rewrite sorted_items_keys, <- (fmap_is_Some Month.orders), <- lookup_fmap,
    monthly_table_orders.
  apply counter_loop_opt_keys.
Qed.

Lemma monthly_trend_empty orders :
  get_monthly_trends orders = [] <-> forall o, o ∈ orders -> month_of o = None.
Proof.
  split.
  - intros Hnil o Ho. destruct (month_of o) as [k|] eqn:Hk; [|reflexivity].
    assert (Hin : k ∈ (get_monthly_trends orders).*1)
      by (apply monthly_trend_keys; eauto).
    rewrite Hnil in Hin. now apply elem_of_nil in Hin.
  - intros Hnone. destruct (get_monthly_trends orders) as [|[k m] l] eqn:Ht;
      [reflexivity|].
    assert (Hin : k ∈ (get_monthly_trends orders).*1)
      by (rewrite Ht; constructor).
    apply monthly_trend_keys in Hin as (o & Ho & Hk).
    rewrite (Hnone o Ho) in Hk. discriminate.
Qed.

(** What [insights_metrics] returns when it returns. *)
Lemma insights_metrics_inr orders m :
  insights_metrics orders = inr m ->
  let summary := get_summary orders in
  let shipped := entry 0%nat (Summary.by_status summary) "Shipped" in
  py_max (fun x => Month.revenue x.2) (get_monthly_trends orders)
    = inr (Insights.best_month m) /\
  Summary.total_orders summary <> 0%nat /\
  Insights.success_rate m =
    (inject_Z (Z.of_nat shipped)
     / inject_Z (Z.of_nat (Summary.total_orders summary)) * 100)%Q /\
  Insights.top_country_revenue m =
    match py_max snd (foldl country_revenue_step [] orders) with
    | inr x => x
    | inl _ => ("N/A", 0%Q)
    end /\
  Insights.top_product m =
    match get_products_summary orders with
    | p :: _ => (Product.sku p, Product.total_revenue p)
    | [] => ("N/A", 0%Q)
    end /\
  Insights.avg_order_value m =
    (if (0 <? shipped)%nat
     then (Summary.total_revenue summary / inject_Z (Z.of_nat shipped))%Q
     else 0%Q).
Proof.
  unfold Metrics.insights_metrics.
  destruct (py_max _ (get_monthly_trends orders)) as [e|best]; [discriminate|].
  destruct (Summary.total_orders (get_summary orders)); [discriminate|].
  intros [= <-]. simpl. split_and!; try reflexivity. discriminate.
Qed.

(** X19. The metrics of the insights slide fail exactly when no row has a
    purchase date that is read: [max] then raises [ValueError] on the empty
    monthly trend. The division by ['total_orders'] that follows never
    raises, since a month in the trend means a row in the list. *)
Theorem insights_fail_only_without_dates (orders : list order) :
  (insights_metrics orders = inl ValueError <->
   forall o, o ∈ orders -> month_of o = None) /\
  insights_metrics orders <> inl ZeroDivisionError.
Proof.
  assert (Hcases :
    (get_monthly_trends orders = [] /\ insights_metrics orders = inl ValueError)
    \/ (get_monthly_trends orders <> [] /\ exists m, insights_metrics orders = inr m)).
  { unfold Metrics.insights_metrics.
    destruct (get_monthly_trends orders) as [|[k x] l] eqn:Ht.
    - left. now split.
    - right. split; [discriminate|].
      assert (Hin : k ∈ (get_monthly_trends orders).*1)
        by (rewrite Ht; constructor).
      apply monthly_trend_keys in Hin as (o & Ho & _).
      rewrite summary_total_orders.
      destruct orders as [|o' orders']; [now apply elem_of_nil in Ho|].
      simpl. eauto. }
  destruct Hcases as [[Hnil Hres]|[Hne [m Hres]]]; rewrite Hres.
  - split; [|discriminate]. split; [|reflexivity].
    intros _. now apply monthly_trend_empty.
  - split; [|discriminate]. split; [discriminate|].
    intros Hnone%monthly_trend_empty. contradiction.
Qed.


Lemma shipped_counter orders :
  entry 0%nat (Summary.by_status (get_summary orders)) "Shipped" =
  count_rows is_shipped orders.
Proof.
  unfold AmazonOrdersAnalyzer.get_summary, entry.
  destruct (summary_loop_counters orders (Summary.init (length orders)))
    as (-> & _).
  simpl. rewrite counter_loop. simpl.
  rewrite (count_rows_ext _ is_shipped)
    by (intros o; apply status_default; discriminate).
  destruct (count_rows is_shipped orders); reflexivity.
Qed.

Lemma percentage (a b : nat) :
  (a <= b)%nat -> b <> 0%nat ->
  (0 <= inject_Z (Z.of_nat a) / inject_Z (Z.of_nat b) * 100 <= 100)%Q.
Proof.
  intros Hle Hb.
  assert (Hpos : (0 < inject_Z (Z.of_nat b))%Q).
  { change 0%Q with (inject_Z 0). rewrite <- Zlt_Qlt. lia. }
  assert (Ha : (0 <= inject_Z (Z.of_nat a))%Q).
  { change 0%Q with (inject_Z 0). rewrite <- Zle_Qle. lia. }
  assert (Hab : (inject_Z (Z.of_nat a) <= inject_Z (Z.of_nat b))%Q).
  { rewrite <- Zle_Qle. lia. }
  split.
  - apply Qmult_le_0_compat; [|discriminate].
    apply Qle_shift_div_l; [exact Hpos|]. now rewrite Qmult_0_l.
  - apply Qle_trans with (1 * 100)%Q; [|discriminate].
    apply Qmult_le_compat_r; [|discriminate].
    apply Qle_shift_div_r; [exact Hpos|]. now rewrite Qmult_1_l.
Qed.

(** X21. When the metrics are returned, the success rate is the share of
    shipped rows among all rows, a percentage between 0 and 100, and the
    average order value is the sum of the prices read on shipped rows
    divided by the number of shipped rows, 0 when no row is shipped. *)
Theorem insights_rates (orders : list order) (m : Insights.t) :
  insights_metrics orders = inr m ->
  let shipped := count_rows is_shipped orders in
  orders <> [] /\
  Insights.success_rate m =
    (inject_Z (Z.of_nat shipped) / inject_Z (Z.of_nat (length orders)) * 100)%Q /\
  (0 <= Insights.success_rate m <= 100)%Q /\
  (Insights.avg_order_value m ==
   if (0 <? shipped)%nat
   then sum_Q shipped_price orders / inject_Z (Z.of_nat shipped)
   else 0)%Q.
Proof.
  intros (_ & Hne & Hrate & _ & _ & Havg)%insights_metrics_inr. simpl.
  rewrite summary_total_orders in Hne, Hrate.
  rewrite shipped_counter in Hrate, Havg.
  split; [|split; [|split]].
  - intros ->. now apply Hne.
  - exact Hrate.
  - rewrite Hrate. apply percentage; [apply count_rows_le|exact Hne].
  - rewrite Havg. destruct (0 <? count_rows is_shipped orders)%nat;
      [|reflexivity].
    unfold AmazonOrdersAnalyzer.get_summary.
    destruct (summary_loop_totals orders (Summary.init (length orders)))
      as (-> & _).
    simpl. now rewrite Qplus_0_l.
Qed.


Lemma country_revenue_step_eq cr o :
  country_revenue_step cr o =
  match (if is_shipped o then float_field o "item-price" else None) with
  | Some p => od_alter 0%Q (fun total => (total + p)%Q)
                (get o "ship-country" "Unknown") cr
  | None => cr
  end.
Proof.
  clear int fromisoformat.
  unfold Metrics.country_revenue_step, country_revenue_body.
  rewrite market_status.
  destruct (is_shipped o); [|reflexivity].
  destruct (float_field o "item-price"); run_try; reflexivity.
Qed.

(** The rows that reach the revenue per country of the insights slide:
    shipped, with a price that is read. *)
Lemma country_revenue_invariant orders :
  let cr := foldl country_revenue_step [] orders in
  NoDup cr.*1 /\
  (forall c, c ∈ cr.*1 <->
     exists o, o ∈ orders /\ is_shipped o = true /\
               is_Some (float_field o "item-price") /\
               get o "ship-country" "Unknown" = c) /\
  (forall c,
     (od_get 0%Q c cr ==
      sum_Q shipped_price
        (List.filter (has_value "ship-country" "Unknown" c) orders))%Q).
Proof.
  clear int fromisoformat.
  apply (foldl_prefix_invariant (fun l (cr : list (string * Q)) =>
    NoDup cr.*1 /\
    (forall c, c ∈ cr.*1 <->
       exists o, o ∈ l /\ is_shipped o = true /\
                 is_Some (float_field o "item-price") /\
                 get o "ship-country" "Unknown" = c) /\
    (forall c,
       (od_get 0%Q c cr ==
        sum_Q shipped_price
          (List.filter (has_value "ship-country" "Unknown" c) l))%Q))).
  - split_and!.
    + constructor.
    + intros c. split; [intros H; now apply elem_of_nil in H|].
      intros (o & Ho & _). now apply elem_of_nil in Ho.
    + intros c. reflexivity.
  - intros l cr o (Hnd & Hkeys & Hval).
    assert (Hsnoc : forall c,
      (exists o', o' ∈ l ++ [o] /\ is_shipped o' = true /\
                  is_Some (float_field o' "item-price") /\
                  get o' "ship-country" "Unknown" = c) <->
      (exists o', o' ∈ l /\ is_shipped o' = true /\
                  is_Some (float_field o' "item-price") /\
                  get o' "ship-country" "Unknown" = c) \/
      (is_shipped o = true /\ is_Some (float_field o "item-price") /\
       get o "ship-country" "Unknown" = c)).
    { intros c. split.
      - intros (o' & [H|H%list_elem_of_singleton]%elem_of_app & Hk);
          [left; eauto|right; now subst o'].
      - intros [(o' & H & Hk)|Hk].
        + exists o'. split; [apply elem_of_app; now left|exact Hk].
        + exists o. split; [apply elem_of_app; right; constructor|exact Hk]. }
    rewrite country_revenue_step_eq.
    destruct (if is_shipped o then float_field o "item-price" else None)
      as [p|] eqn:Hp.
    + assert (Hs : is_shipped o = true)
        by (destruct (is_shipped o); [reflexivity|discriminate]).
      rewrite Hs in Hp.
      assert (Hprice : shipped_price o = p).
      { unfold AmazonOrdersAnalyzer.shipped_price. fold (is_shipped o).
        now rewrite Hs, Hp. }
      split_and!.
      * now apply od_alter_NoDup.
      * intros c. rewrite Hsnoc, <- Hkeys, od_alter_keys.
        destruct (decide (get o "ship-country" "Unknown" ∈ cr.*1)) as [Hin|Hin].
        -- split; [now left|]. intros [?|(_ & _ & <-)]; assumption.
        -- rewrite elem_of_app, list_elem_of_singleton. split.
           ++ intros [?| ->]; [now left|right]. rewrite Hp. eauto.
           ++ intros [?|(_ & _ & <-)]; auto.
      * intros c. rewrite od_get_od_alter, List.filter_app, sum_Q_app.
        cbn [List.filter]. unfold has_value at 2.
        destruct (decide (get o "ship-country" "Unknown" = c)) as [Hc|Hc].
        -- rewrite Hc, String.eqb_refl. simpl. rewrite Hprice, <- Hc, (Hval _).
           ring.
        -- apply String.eqb_neq in Hc. rewrite Hc. simpl. rewrite (Hval c).
           ring.
    + assert (Hprice : shipped_price o = 0%Q).
      { unfold AmazonOrdersAnalyzer.shipped_price. fold (is_shipped o).
        destruct (is_shipped o); [now rewrite Hp|reflexivity]. }
      split_and!.
      * exact Hnd.
      * intros c. rewrite Hsnoc, Hkeys. split; [now left|].
        intros [?|(Hs & [p Hf] & _)]; [assumption|].
        rewrite Hs in Hp. congruence.
      * intros c. rewrite List.filter_app, sum_Q_app. cbn [List.filter].
        destruct (has_value _ _ c o); simpl; rewrite ?Hprice, (Hval c); ring.
Qed.


End Further.

(** ** Loading *)

Lemma load_rows_closed (acc : list order) (rows : list order) :
  foldl (fun (orders : list order) r =>
           if Loader.has_order_id r then orders ++ [r] else orders) acc rows =
  acc ++ List.filter Loader.has_order_id rows.
Proof.
  revert acc. induction rows as [|r rows IH]; intros acc; simpl.
  - now rewrite app_nil_r.
  - rewrite IH. destruct (Loader.has_order_id r); [|reflexivity].
    now rewrite <- app_assoc.
Qed.

Lemma load_loop_orders (open_ : string -> Loader.reader) st files :
  Loader.orders
    (foldl (fun st f => Loader._load_file st (open_ f)) st files) =
  Loader.orders st ++
  concat (map (fun f => List.filter Loader.has_order_id
                          (Loader.rows (open_ f))) files).
Proof.
  revert st. induction files as [|f files IH]; intros st; simpl.
  - now rewrite app_nil_r.
  - rewrite IH. simpl. now rewrite load_rows_closed, <- app_assoc.
Qed.

Lemma load_loop_headers_kept (open_ : string -> Loader.reader) st files :
  Loader.headers_set (Loader.headers st) = true ->
  Loader.headers
    (foldl (fun st f => Loader._load_file st (open_ f)) st files) =
  Loader.headers st.
Proof.
  revert st. induction files as [|f files IH]; intros st Hset; simpl.
  - reflexivity.
  - rewrite IH; simpl; now rewrite Hset.
Qed.

Lemma load_loop_headers_unset (open_ : string -> Loader.reader) st files :
  Loader.headers_set (Loader.headers st) = false ->
  Forall (fun g => Loader.headers_set (Loader.fieldnames (open_ g)) = false)
    files ->
  Loader.headers_set
    (Loader.headers
       (foldl (fun st f => Loader._load_file st (open_ f)) st files)) = false.
Proof.
  intros Hunset Hfiles. revert st Hunset.
  induction Hfiles as [|g files Hg _ IH]; intros st Hunset; [exact Hunset|].
  simpl. apply IH. simpl. now rewrite Hunset.
Qed.

Lemma substring_all s : String.substring 0 (String.length s) s = s.
Proof. induction s as [|a s IH]; simpl; [reflexivity|now rewrite IH]. Qed.

Lemma append_cons a p s : (String a p +:+ s)%string = String a (p +:+ s).
Proof. reflexivity. Qed.

Lemma append_length p s :
  String.length (p +:+ s) = (String.length p + String.length s)%nat.
Proof.
  induction p as [|a p IH]; [reflexivity|].
  rewrite append_cons. simpl. now rewrite IH.
Qed.

Lemma substring_append p s :
  String.substring (String.length p) (String.length s) (p +:+ s) = s.
Proof.
  induction p as [|a p IH].
  - apply substring_all.
  - rewrite append_cons. simpl. exact IH.
Qed.

Lemma substring_split n m s :
  (n + m)%nat = String.length s ->
  s = (String.substring 0 n s +:+ String.substring n m s)%string.
Proof.
  revert n m. induction s as [|a s IH]; intros n m Hlen.
  - simpl in Hlen. assert (n = 0%nat) as -> by lia.
    assert (m = 0%nat) as -> by lia. reflexivity.
  - destruct n as [|n].
    + simpl in Hlen. subst m.
      change (S (String.length s)) with (String.length (String a s)).
      rewrite substring_all. reflexivity.
    + simpl in Hlen. simpl. rewrite append_cons. f_equal. apply IH. lia.
Qed.

(** [endswith] holds exactly of the strings that end with the suffix. *)
Lemma endswith_spec f suffix :
  Loader.endswith f suffix = true <-> exists p, f = (p +:+ suffix)%string.
Proof.
  unfold Loader.endswith. rewrite andb_true_iff, Nat.leb_le, String.eqb_eq.
  split.
  - intros [Hle Hsub].
    exists (String.substring 0 (String.length f - String.length suffix) f).
    rewrite <- Hsub at 2. apply substring_split. lia.
  - intros [p ->]. rewrite append_length. split; [lia|].
    replace (String.length p + String.length suffix - String.length suffix)%nat
      with (String.length p) by lia.
    apply substring_append.
Qed.

(** X24. Loading keeps the orders already held, in front, and appends the
    rows of the files in the order [glob] lists them, each file in the
    order of its rows, leaving out the rows whose order id is missing or
    empty; the files whose path ends in ["file.txt"] give nothing. *)
Theorem load_files_orders (open_ : string -> Loader.reader)
    (st : Loader.state) (matched : list string) :
  let loaded := Loader.orders (Loader.load_files open_ st matched) in
  loaded =
    Loader.orders st ++
    concat (map (fun f => List.filter Loader.has_order_id
                            (Loader.rows (open_ f)))
              (List.filter (fun f => negb (Loader.endswith f "file.txt"))
                 matched)) /\
  forall r, r ∈ loaded <->
    r ∈ Loader.orders st \/
    (Loader.has_order_id r = true /\
     exists f, f ∈ matched /\ (forall p, f <> (p +:+ "file.txt")%string) /\
               r ∈ Loader.rows (open_ f)).
Proof.
  simpl. unfold Loader.load_files. rewrite load_loop_orders.
  split; [reflexivity|]. intros r. rewrite elem_of_app. 
  apply or_iff_compat_l. rewrite list_elem_of_In, in_concat. split.
  - intros (l & Hl & Hr). apply List.in_map_iff in Hl as (f & <- & Hf).
    apply List.filter_In in Hf as [Hf Hend].
    apply List.filter_In in Hr as [Hr Hid]. split; [exact Hid|].
    exists f. rewrite !list_elem_of_In. split_and!; [exact Hf| |exact Hr].
    intros p Hp. apply negb_true_iff in Hend.
    assert (Loader.endswith f "file.txt" = true) by (apply endswith_spec; eauto).
    congruence.
  - intros (Hid & f & Hf & Hend & Hr).
    exists (List.filter Loader.has_order_id (Loader.rows (open_ f))). split.
    + apply List.in_map_iff. exists f. split; [reflexivity|].
      apply List.filter_In. split; [now apply list_elem_of_In|].
      apply negb_true_iff, not_true_is_false.
      intros [p Hp]%endswith_spec. now apply (Hend p).
    + apply List.filter_In. split; [now apply list_elem_of_In|exact Hid].
Qed.

(** X25. The headers, once they hold a field name, are never replaced;
    until then they are taken from the first loaded file whose header row
    has one. *)
Theorem load_files_headers (open_ : string -> Loader.reader)
    (st : Loader.state) (matched : list string) :
  let loaded :=
    List.filter (fun f => negb (Loader.endswith f "file.txt")) matched in
  let st' := Loader.load_files open_ st matched in
  (Loader.headers_set (Loader.headers st) = true ->
   Loader.headers st' = Loader.headers st) /\
  (forall before f after,
     Loader.headers_set (Loader.headers st) = false ->
     loaded = before ++ f :: after ->
     Forall (fun g => Loader.headers_set (Loader.fieldnames (open_ g)) = false)
       before ->
     Loader.headers_set (Loader.fieldnames (open_ f)) = true ->
     Loader.headers st' = Loader.fieldnames (open_ f)).
Proof.
  simpl. unfold Loader.load_files. split.
  - apply load_loop_headers_kept.
  - intros before f after Hunset -> Hbefore Hf.
    rewrite foldl_app. simpl.
    pose proof (load_loop_headers_unset open_ st before Hunset Hbefore) as Hpre.
    rewrite load_loop_headers_kept; simpl; rewrite Hpre; [reflexivity|exact Hf].
Qed.

(** X26. A path that ends in ["file.txt"], whatever comes before, is
    skipped: the result is the one without it in the list. *)
Theorem paths_ending_in_file_txt_skipped (open_ : string -> Loader.reader)
    (st : Loader.state) (before after : list string) (p : string) :
  Loader.load_files open_ st (before ++ (p +:+ "file.txt")%string :: after) =
  Loader.load_files open_ st (before ++ after).
Proof.
  unfold Loader.load_files. rewrite !List.filter_app. cbn [List.filter].
  assert (Hend : Loader.endswith (p +:+ "file.txt") "file.txt" = true)
    by (apply endswith_spec; eauto).
  now rewrite Hend.
Qed.

(** X27. Loading into a new analyzer and summarising: ['total_orders'] is
    the number of rows with an order id in the files that are loaded. *)
Theorem loaded_total_orders (float : string -> option Q)
    (int : string -> option Z) (open_ : string -> Loader.reader)
    (matched : list string) :
  let st := Loader.load_files open_ Loader.init matched in
  Summary.total_orders (get_summary float int (Loader.orders st)) =
  sum_list_with
    (fun f => count_rows Loader.has_order_id (Loader.rows (open_ f)))
    (List.filter (fun f => negb (Loader.endswith f "file.txt")) matched).
Proof.
  simpl. rewrite summary_total_orders. unfold Loader.load_files.
  rewrite load_loop_orders. simpl.
  induction (List.filter _ matched) as [|f files IH]; [reflexivity|].
  simpl. rewrite length_app, IH. reflexivity.
Qed.

(** * The further properties on sample rows *)

Lemma product_totals_per_sku_witness :
  let p := Product.mk "Mela" "A1" 3 40 2 in
  p ∈ get_products_summary Literal.float Literal.int Example.orders /\
  (let rows := List.filter (has_value "sku" "Unknown" (Product.sku p))
                 Example.orders in
   Product.orders_count p = length rows /\
   Product.total_quantity p = sum_Z (quantity_of Literal.int) rows /\
   (Product.total_revenue p == sum_Q (shipped_price Literal.float) rows)%Q).
Proof.
  assert (H : Product.mk "Mela" "A1" 3 40 2
              ∈ get_products_summary Literal.float Literal.int Example.orders)
    by (apply (list_elem_of_lookup_2 _ 0%nat); reflexivity).
  split; [exact H|].
  exact (product_totals_per_sku Literal.float Literal.int Example.orders _ H).
Defined.

Lemma product_name_first_seen_witness :
  let p := Product.mk "Mela" "A1" 3 40 2 in
  p ∈ get_products_summary Literal.float Literal.int Example.orders /\
  Product.name p = first_name (Product.sku p) Example.orders.
Proof.
  assert (H : Product.mk "Mela" "A1" 3 40 2
              ∈ get_products_summary Literal.float Literal.int Example.orders)
    by (apply (list_elem_of_lookup_2 _ 0%nat); reflexivity).
  split; [exact H|].
  exact (product_name_first_seen Literal.float Literal.int Example.orders _ H).
Defined.

Lemma monthly_trend_entries_witness :
  let m := Month.mk 2 40 3 1 1 0 in
  let rows := List.filter (in_month Literal.fromisoformat "2024-03")
                Example.orders in
  ("2024-03", m)
    ∈ get_monthly_trends Literal.float Literal.int Literal.fromisoformat
        Example.orders /\
  Month.orders m = length rows /\
  Month.cancelled m = count_rows is_cancelled rows.
Proof.
  assert (H : ("2024-03", Month.mk 2 40 3 1 1 0)
              ∈ get_monthly_trends Literal.float Literal.int
                  Literal.fromisoformat Example.orders)
    by (apply (list_elem_of_lookup_2 _ 0%nat); reflexivity).
  split; [exact H|].
  destruct (monthly_trend_entries Literal.float Literal.int
              Literal.fromisoformat Example.orders _ _ H)
    as (_ & Ho & _ & Hc & _).
  split; [exact Ho|exact Hc].
Defined.

Lemma fulfillment_sub_series_witness :
  let f := get_fba_fbm_analysis Literal.float Literal.int
             Literal.fromisoformat Example.orders in
  let m := SubMonth.mk 1 40 in
  let rows :=
    List.filter
      (fun o => (is_fba o && in_sub_series Literal.float Literal.fromisoformat o)
                && in_month Literal.fromisoformat "2024-03" o)
      Example.orders in
  ("2024-03", m) ∈ Fulfillment.monthly_fba f /\
  SubMonth.orders m = length rows /\
  (SubMonth.revenue m == sum_Q (shipped_price Literal.float) rows)%Q.
Proof.
  assert (H : ("2024-03", SubMonth.mk 1 40)
              ∈ Fulfillment.monthly_fba
                  (get_fba_fbm_analysis Literal.float Literal.int
                     Literal.fromisoformat Example.orders))
    by (apply (list_elem_of_lookup_2 _ 0%nat); reflexivity).
  split; [exact H|].
  exact (proj2 (proj2 (proj1 (fulfillment_sub_series Literal.float Literal.int
                                Literal.fromisoformat Example.orders))
                  _ _ H)).
Defined.




Lemma market_monthly_entries_witness :
  let r := get_market_monthly_analysis Literal.float Literal.fromisoformat
             Example.orders in
  let months := [("2024-03", 40%Q)] in
  r !! "IT" = Some months /\
  months <> [] /\
  (40 == sum_Q (shipped_price Literal.float)
           (List.filter
              (fun o => in_sub_series Literal.float Literal.fromisoformat o
                        && has_value "ship-country" "Unknown" "IT" o
                        && in_month Literal.fromisoformat "2024-03" o)
              Example.orders))%Q.
Proof.
  assert (H : get_market_monthly_analysis Literal.float Literal.fromisoformat
                Example.orders !! "IT" = Some [("2024-03", 40%Q)])
    by reflexivity.
  split; [exact H|].
  destruct (proj2 (market_monthly_entries Literal.float Literal.fromisoformat
                     Example.orders) _ _ H) as (Hne & _ & Hval).
  split; [exact Hne|].
  apply (Hval "2024-03" 40%Q). constructor.
Defined.


Lemma insights_fail_only_without_dates_witness :
  (forall o, o ∈ [Sample.undated] -> month_of Literal.fromisoformat o = None) /\
  insights_metrics Literal.float Literal.int Literal.fromisoformat
    [Sample.undated] = inl ValueError.
Proof.
  assert (H : forall o, o ∈ [Sample.undated] ->
                        month_of Literal.fromisoformat o = None).
  { intros o Ho. apply list_elem_of_singleton in Ho. rewrite Ho. reflexivity. }
  split; [exact H|].
  exact (proj2 (proj1 (insights_fail_only_without_dates Literal.float
                         Literal.int Literal.fromisoformat [Sample.undated]))
           H).
Defined.


Lemma insights_rates_witness :
  insights_metrics Literal.float Literal.int Literal.fromisoformat
    Example.orders = inr Example.metrics /\
  (0 <= Insights.success_rate Example.metrics <= 100)%Q.
Proof.
  assert (H : insights_metrics Literal.float Literal.int Literal.fromisoformat
                Example.orders = inr Example.metrics) by reflexivity.
  split; [exact H|].
  destruct (insights_rates Literal.float Literal.int Literal.fromisoformat
              Example.orders _ H) as (_ & _ & Hrate & _).
  exact Hrate.
Defined.



Lemma load_files_headers_witness :
  List.filter (fun f => negb (Loader.endswith f "file.txt")) Example.paths =
    ["data/empty.txt"] ++ "data/orders.txt" :: [] /\
  Loader.headers (Loader.load_files Example.open_ Loader.init Example.paths) =
    Loader.fieldnames (Example.open_ "data/orders.txt").
Proof.
  split; [reflexivity|].
  apply (proj2 (load_files_headers Example.open_ Loader.init Example.paths)
           ["data/empty.txt"] "data/orders.txt" []).
  - reflexivity.
  - reflexivity.
  - constructor; [reflexivity|constructor].
  - reflexivity.
Defined.
